(** * MoneyDoothas: the MCP session client and the financial-data normalizers

    A shallow embedding of [functions/utils.js] and [functions/mcp-client.js]
    and the properties their specification states about them.

    Conventions of the embedding.
    - A JavaScript number is a [num]: an exact rational, [NaN], or a signed
      infinity.  Rounding of IEEE doubles and the sign of zero are not
      represented; every finite result is the exact one.
    - A JSON payload is a [value].  Property reads, truthiness, [parseFloat],
      array iteration and destructuring follow ECMAScript on these values.
    - A computation returns a [result]: [Ok], a thrown exception [Throw], or
      [Unmodelled] for the few coercions the embedding leaves out: printing
      a fractional number as text (as an object key or inside a string) and
      arithmetic on a string, array or object operand. *)

From Stdlib Require Import ZArith QArith Qcanon Lia Ascii String.
From stdpp Require Import base option list strings gmap pretty.

Set Warnings "-register-all".
Local Open Scope Z_scope.

(** ** Numbers *)

Module Num.

Inductive num : Type :=
| NaN
| Inf (negative : bool)
| Fin (q : Qc).

Definition ofZ (z : Z) : num := Fin (Q2Qc (inject_Z z)).

Definition zero : num := ofZ 0.

Definition Qc_eqb (p q : Qc) : bool := Qeq_bool p q.

Definition Qc_ltb (p q : Qc) : bool :=
  match (this p ?= this q)%Q with Lt => true | _ => false end.

Definition Qc_is_neg (q : Qc) : bool := Qc_ltb q (Q2Qc 0).

(** [x + y] *)
Definition add (x y : num) : num :=
  match x, y with
  | NaN, _ | _, NaN => NaN
  | Inf a, Inf b => if Bool.eqb a b then Inf a else NaN
  | Inf a, Fin _ | Fin _, Inf a => Inf a
  | Fin p, Fin q => Fin (p + q)%Qc
  end.

(** [- x] *)
Definition neg (x : num) : num :=
  match x with
  | NaN => NaN
  | Inf a => Inf (negb a)
  | Fin p => Fin (- p)%Qc
  end.

(** [x - y] *)
Definition sub (x y : num) : num := add x (neg y).


(** [x / y]; a zero divisor counts as [+0]. *)
Definition div (x y : num) : num :=
  match x, y with
  | NaN, _ | _, NaN => NaN
  | Inf _, Inf _ => NaN
  | Inf a, Fin q => Inf (xorb a (Qc_is_neg q))
  | Fin _, Inf _ => zero
  | Fin p, Fin q =>
      if Qc_eqb q (Q2Qc 0)
      then (if Qc_eqb p (Q2Qc 0) then NaN else Inf (Qc_is_neg p))
      else Fin (p / q)%Qc
  end.

(** [x < y]; false as soon as one side is [NaN]. *)
Definition ltb (x y : num) : bool :=
  match x, y with
  | NaN, _ | _, NaN => false
  | Inf a, Inf b => a && negb b
  | Inf a, Fin _ => a
  | Fin _, Inf b => negb b
  | Fin p, Fin q => Qc_ltb p q
  end.

(** [x > y] *)
Definition gtb (x y : num) : bool := ltb y x.

(** [x === y] on numbers. *)
Definition eqb (x y : num) : bool :=
  match x, y with
  | Inf a, Inf b => Bool.eqb a b
  | Fin p, Fin q => Qc_eqb p q
  | _, _ => false
  end.

(** ToBoolean on a number: [0] and [NaN] are falsy. *)
Definition truthy (x : num) : bool :=
  match x with
  | NaN => false
  | Inf _ => true
  | Fin q => negb (Qc_eqb q (Q2Qc 0))
  end.

(** [x || 0] on numbers. *)
Definition or_zero (x : num) : num := if truthy x then x else zero.

(** [x <= y] as a relation, for stating bounds. *)
Definition le (x y : num) : Prop :=
  match x, y with
  | NaN, _ | _, NaN => False
  | Inf a, Inf b => b = true -> a = true
  | Inf a, Fin _ => a = true
  | Fin _, Inf b => b = false
  | Fin p, Fin q => (p <= q)%Qc
  end.

Definition sum (l : list num) : num := foldr add zero l.

End Num.

Export Num.

(** ** JSON values and the ECMAScript operations the sources use *)

Module Js.

Inductive value : Type :=
| VUndef
| VNull
| VBool (b : bool)
| VNum (n : num)
| VStr (s : string)
| VArr (items : list value)
| VObj (fields : list (string * value)).

(** Exceptions.  [message_of] is the [message] property; the wording of an
    engine's own [TypeError] messages is immaterial here. *)
Inductive exn : Type :=
| TypeError (msg : string)
| RangeError (msg : string)
| SyntaxError (msg : string)
| JsError (msg : string)
| AxiosError (msg : string) (status : option Z).

Definition message_of (e : exn) : string :=
  match e with
  | TypeError m | RangeError m | SyntaxError m | JsError m | AxiosError m _ => m
  end.

Inductive result (A : Type) : Type :=
| Ok (a : A)
| Throw (e : exn)
| Unmodelled.

Arguments Ok {A} a.
Arguments Throw {A} e.
Arguments Unmodelled {A}.

Definition bind {A B} (m : result A) (k : A -> result B) : result B :=
  match m with
  | Ok a => k a
  | Throw e => Throw e
  | Unmodelled => Unmodelled
  end.

#[global] Instance result_ret : MRet result := fun _ a => Ok a.
#[global] Instance result_bind : MBind result := fun _ _ k m => bind m k.

(** ToBoolean. *)
Definition truthy (v : value) : bool :=
  match v with
  | VUndef | VNull => false
  | VBool b => b
  | VNum n => Num.truthy n
  | VStr s => negb (String.eqb s "")
  | VArr _ | VObj _ => true
  end.

(** [a || b] *)
Definition or_else (a b : value) : value := if truthy a then a else b.

Definition nullish (v : value) : bool :=
  match v with VUndef | VNull => true | _ => false end.

Definition assoc (k : string) (fields : list (string * value)) : value :=
  match List.find (fun kv => String.eqb (fst kv) k) fields with
  | Some kv => snd kv
  | None => VUndef
  end.

Definition char_at (s : string) (i : nat) : value :=
  match String.get i s with
  | Some c => VStr (String c EmptyString)
  | None => VUndef
  end.

(** [v.k] for the property names that occur in the sources.  None of them is
    inherited from a prototype, apart from [length] on arrays and strings. *)
Definition get (v : value) (k : string) : result value :=
  match v with
  | VUndef => Throw (TypeError ("Cannot read properties of undefined (reading '" +:+ k +:+ "')"))
  | VNull => Throw (TypeError ("Cannot read properties of null (reading '" +:+ k +:+ "')"))
  | VObj fields => Ok (assoc k fields)
  | VArr items =>
      Ok (if String.eqb k "length" then VNum (ofZ (Z.of_nat (length items))) else VUndef)
  | VStr s =>
      Ok (if String.eqb k "length" then VNum (ofZ (Z.of_nat (String.length s))) else VUndef)
  | VBool _ | VNum _ => Ok VUndef
  end.

(** [v?.k] *)
Definition get_opt (v : value) (k : string) : result value :=
  if nullish v then Ok VUndef else get v k.

(** [v[i]] for a literal index. *)
Definition get_index (v : value) (i : nat) : result value :=
  match v with
  | VUndef => Throw (TypeError ("Cannot read properties of undefined (reading '" +:+ pretty i +:+ "')"))
  | VNull => Throw (TypeError ("Cannot read properties of null (reading '" +:+ pretty i +:+ "')"))
  | VArr items => Ok (nth i items VUndef)
  | VStr s => Ok (char_at s i)
  | VObj fields => Ok (assoc (pretty i) fields)
  | VBool _ | VNum _ => Ok VUndef
  end.

(** [Array.isArray(v)] *)
Definition isArray (v : value) : bool :=
  match v with VArr _ => true | _ => false end.

(** The receiver of [.map], [.forEach] or [.reduce]: an array, or a
    [TypeError] (the property read fails on [undefined] and [null]; on any
    other JSON value the method is not a function). *)
Definition as_array (v : value) (method : string) : result (list value) :=
  match v with
  | VArr items => Ok items
  | VUndef => Throw (TypeError ("Cannot read properties of undefined (reading '" +:+ method +:+ "')"))
  | VNull => Throw (TypeError ("Cannot read properties of null (reading '" +:+ method +:+ "')"))
  | _ => Throw (TypeError (method +:+ " is not a function"))
  end.

Fixpoint chars (s : string) : list value :=
  match s with
  | EmptyString => []
  | String c r => VStr (String c EmptyString) :: chars r
  end.

(** The elements an array pattern [const [a, b, ...] = v] draws from. *)
Definition iterate (v : value) : result (list value) :=
  match v with
  | VArr items => Ok items
  | VStr s => Ok (chars s)
  | _ => Throw (TypeError "value is not iterable")
  end.

(** [xs.map(f)] and [xs.forEach(f)] with a callback that may throw. *)
Fixpoint mapM {A B} (f : A -> result B) (l : list A) : result (list B) :=
  match l with
  | [] => Ok []
  | x :: r => y ← f x; ys ← mapM f r; Ok (y :: ys)
  end.

(** [xs.reduce(f, init)] with a callback that may throw. *)
Fixpoint foldM {A B} (f : B -> A -> result B) (l : list A) (acc : B) : result B :=
  match l with
  | [] => Ok acc
  | x :: r => acc' ← f acc x; foldM f r acc'
  end.

(** *** Text to number *)

(** StrWhiteSpaceChar, within ASCII. *)
Definition is_space (c : ascii) : bool :=
  let n := Z.of_N (N_of_ascii c) in
  ((9 <=? n) && (n <=? 13)) || (n =? 32).

Definition digit_of (c : ascii) : option Z :=
  let n := Z.of_N (N_of_ascii c) in
  if (48 <=? n) && (n <=? 57) then Some (n - 48) else None.

Fixpoint skip_spaces (s : string) : string :=
  match s with
  | String c r => if is_space c then skip_spaces r else s
  | EmptyString => s
  end.

(** Reads a run of decimal digits: their value on top of [acc], how many
    were read, and the rest of the text. *)
Fixpoint digits (s : string) (acc : Z) (count : nat) : Z * nat * string :=
  match s with
  | String c r =>
      match digit_of c with
      | Some d => digits r (10 * acc + d) (S count)
      | None => (acc, count, s)
      end
  | EmptyString => (acc, count, s)
  end.

Definition sign_of (s : string) : bool * string :=
  match s with
  | String "-" r => (true, r)
  | String "+" r => (false, r)
  | _ => (false, s)
  end.

(** ExponentPart, or 0 where the text has none. *)
Definition exponent_of (s : string) : Z :=
  match s with
  | String c r =>
      if Ascii.eqb c "e" || Ascii.eqb c "E" then
        let '(negative, r') := sign_of r in
        let '(e, count, _) := digits r' 0 0 in
        match count with
        | O => 0
        | S _ => if negative then - e else e
        end
      else 0
  | EmptyString => 0
  end.

(** [m * 10^e] as an exact rational. *)
Definition scale10 (m e : Z) : Qc :=
  if 0 <=? e then Q2Qc (inject_Z (m * 10 ^ e))
  else Q2Qc (Qmake m (Z.to_pos (10 ^ (- e)))).

(** [parseFloat] on a string: the longest prefix, after leading white
    space, that is a StrDecimalLiteral. *)
Definition parseFloat_string (s : string) : num :=
  let '(negative, s0) := sign_of (skip_spaces s) in
  if String.prefix "Infinity" s0 then Inf negative else
  let '(ip, ni, s1) := digits s0 0 0 in
  let '(m, nf, s2) :=
    match s1 with
    | String "." r => let '(m, nf, s2) := digits r ip 0 in (m, nf, s2)
    | _ => (ip, O, s1)
    end in
  match (ni + nf)%nat with
  | O => NaN
  | S _ =>
      let q := scale10 m (exponent_of s2 - Z.of_nat nf) in
      Fin (if negative then (- q)%Qc else q)
  end.

(** [parseFloat(v)].  A number prints and reads back as itself; an array
    prints its elements separated by commas, so only its first one is read;
    [undefined], [null], booleans and objects print no numeral. *)
Fixpoint parseFloat (v : value) : num :=
  match v with
  | VNum n => n
  | VStr s => parseFloat_string s
  | VArr (x :: _) => parseFloat x
  | _ => NaN
  end.

Definition hex_digit_of (c : ascii) : option Z :=
  let n := Z.of_N (N_of_ascii c) in
  if (48 <=? n) && (n <=? 57) then Some (n - 48)
  else if (97 <=? n) && (n <=? 102) then Some (n - 87)
  else if (65 <=? n) && (n <=? 70) then Some (n - 55)
  else None.

Fixpoint hex_digits (s : string) (acc : Z) (count : nat) : Z * nat :=
  match s with
  | String c r =>
      match hex_digit_of c with
      | Some d => hex_digits r (16 * acc + d) (S count)
      | None => (acc, count)
      end
  | EmptyString => (acc, count)
  end.

(** [parseInt] on a string, no radix given: a [0x] prefix selects base 16. *)
Definition parseInt_string (s : string) : num :=
  let '(negative, s0) := sign_of (skip_spaces s) in
  let '(m, count) :=
    match s0 with
    | String "0" (String x r) =>
        if Ascii.eqb x "x" || Ascii.eqb x "X" then hex_digits r 0 0
        else let '(m, count, _) := digits s0 0 0 in (m, count)
    | _ => let '(m, count, _) := digits s0 0 0 in (m, count)
    end in
  match count with
  | O => NaN
  | S _ => ofZ (if negative then - m else m)
  end.

(** *** Value to text *)

(** Number::toString, for the numbers whose digits need no rounding rule:
    integers below [10^21] in magnitude, [NaN] and the infinities. *)
Definition number_to_string (n : num) : result string :=
  match n with
  | NaN => Ok "NaN"
  | Inf negative => Ok (if negative then "-Infinity" else "Infinity")
  | Fin q =>
      if Pos.eqb (Qden q) 1 && (Z.abs (Qnum q) <? 10 ^ 21)
      then Ok (pretty (Qnum q))
      else Unmodelled
  end.

(** ToString, which is also how a value becomes a property key. *)
Fixpoint ToString (v : value) : result string :=
  match v with
  | VUndef => Ok "undefined"
  | VNull => Ok "null"
  | VBool b => Ok (if b then "true" else "false")
  | VNum n => number_to_string n
  | VStr s => Ok s
  | VObj _ => Ok "[object Object]"
  | VArr items =>
      (fix join (l : list value) : result string :=
         match l with
         | [] => Ok ""
         | x :: r =>
             sx ← (if nullish x then Ok "" else ToString x);
             match r with
             | [] => Ok sx
             | _ :: _ => sr ← join r; Ok (sx +:+ "," +:+ sr)
             end
         end) items
  end.

(** [parseInt(v)] *)
Definition parseInt (v : value) : result num :=
  s ← ToString v; Ok (parseInt_string s).

(** *** Arithmetic on an operand of unknown type *)

(** ToNumber for the primitives that need no text conversion. *)
Definition ToNumber (v : value) : result num :=
  match v with
  | VNum n => Ok n
  | VUndef => Ok NaN
  | VNull => Ok zero
  | VBool b => Ok (if b then ofZ 1 else zero)
  | VStr _ | VArr _ | VObj _ => Unmodelled
  end.

(** [acc += v] for a numeric [acc]; with a string, array or object on the
    right the sum would be a text. *)
Definition add_assign (acc : num) (v : value) : result num :=
  n ← ToNumber v; Ok (add acc n).

(** [acc -= v] for a numeric [acc]. *)
Definition sub_assign (acc : num) (v : value) : result num :=
  n ← ToNumber v; Ok (sub acc n).

End Js.

Export Js.

(** ** functions/utils.js *)

Module Utils.

(** [currencyToNumber(currencyObj)] *)
Definition currencyToNumber (currencyObj : value) : result num :=
  if negb (truthy currencyObj) then Ok zero else
  units ← get currencyObj "units";
  if negb (truthy units) then Ok zero else
  nanos ← get currencyObj "nanos";
  let units := or_zero (parseFloat units) in
  let nanos := or_zero (parseFloat nanos) in
  Ok (add units (div nanos (ofZ 1000000000))).

(** What [Intl.NumberFormat('en-IN', {style: 'currency', currency,
    minimumFractionDigits: 0, maximumFractionDigits: 2}).format(amount)]
    prints, kept symbolic. *)
Record formatted : Type := Formatted { fmt_amount : num; fmt_currency : string }.

Definition is_letter (c : ascii) : bool :=
  let n := Z.of_N (N_of_ascii c) in
  ((65 <=? n) && (n <=? 90)) || ((97 <=? n) && (n <=? 122)).

(** IsWellFormedCurrencyCode: three ASCII letters. *)
Definition well_formed_currency (code : string) : bool :=
  match code with
  | String a (String b (String c EmptyString)) =>
      is_letter a && is_letter b && is_letter c
  | _ => false
  end.

(** [formatCurrency(amount, currencyCode = 'INR')] *)
Definition formatCurrency (amount : num) (currencyCode : value) : result formatted :=
  let currencyCode := match currencyCode with VUndef => VStr "INR" | c => c end in
  code ← ToString currencyCode;
  if well_formed_currency code then Ok (Formatted amount code)
  else Throw (RangeError ("Invalid currency code : " +:+ code)).


(** *** Net worth *)

Record Asset : Type := {
  asset_type : value;
  asset_value : num;
  asset_formattedValue : formatted
}.

(** The object [processNetWorthData] returns; [None] is a property the
    returned object does not have. *)
Record NetWorth : Type := {
  totalNetWorth : num;
  formattedTotalNetWorth : option formatted;
  currency : value;
  assets : list Asset;
  mutualFunds : option value;
  accountDetails : option value;
  nw_error : option string
}.

Definition processNetWorthData (response : value) : result NetWorth :=
  container ← (if truthy response then get response "netWorthResponse" else Ok VUndef);
  if negb (truthy container) then
    Ok {| totalNetWorth := zero; formattedTotalNetWorth := None;
          currency := VStr "INR"; assets := [];
          mutualFunds := None; accountDetails := None;
          nw_error := Some "No net worth data available" |}
  else
  let netWorthData := container in
  total ← get netWorthData "totalNetWorthValue";
  totalNetWorth ← currencyToNumber total;
  code ← get_opt total "currencyCode";
  let currency := or_else code (VStr "INR") in
  assetValues ← get netWorthData "assetValues";
  items ← as_array (or_else assetValues (VArr [])) "map";
  assets ← mapM (fun asset =>
      type ← get asset "netWorthAttribute";
      raw ← get asset "value";
      value ← currencyToNumber raw;
      formattedValue ← formatCurrency value currency;
      Ok {| asset_type := type; asset_value := value;
            asset_formattedValue := formattedValue |}) items;
  formattedTotal ← formatCurrency totalNetWorth currency;
  analytics ← get response "mfSchemeAnalytics";
  schemeAnalytics ← get_opt analytics "schemeAnalytics";
  bulk ← get response "accountDetailsBulkResponse";
  detailsMap ← get_opt bulk "accountDetailsMap";
  Ok {| totalNetWorth := totalNetWorth;
        formattedTotalNetWorth := Some formattedTotal;
        currency := currency;
        assets := assets;
        mutualFunds := Some (or_else schemeAnalytics (VArr []));
        accountDetails := Some (or_else detailsMap (VObj []));
        nw_error := None |}.

(** *** Credit report *)

Record CreditAccount : Type := {
  ca_id : value;
  ca_subscriber : value;
  ca_accountType : value;
  ca_creditLimit : num;
  ca_currentBalance : num;
  ca_paymentRating : value;
  ca_accountStatus : value;
  ca_openDate : value
}.

(** [creditScore = None] is [null]. *)
Record Credit : Type := {
  creditScore : option num;
  accounts : list CreditAccount;
  totalAccounts : option value;
  activeAccounts : option value;
  outstandingBalance : option value;
  credit_error : option string
}.

(** [v === 0] *)
Definition is_zero (v : value) : bool :=
  match v with VNum n => Num.eqb n zero | _ => false end.

Definition processCreditData (response : value) : result Credit :=
  reports ← (if truthy response then get response "creditReports" else Ok VUndef);
  len ← (if truthy reports then get reports "length" else Ok VUndef);
  if negb (truthy reports) || is_zero len then
    Ok {| creditScore := None; accounts := [];
          totalAccounts := None; activeAccounts := None;
          outstandingBalance := None;
          credit_error := Some "No credit data available" |}
  else
  first ← get_index reports 0;
  creditData ← get first "creditReportData";
  scoreObj ← get creditData "score";
  score ← get_opt scoreObj "bureauScore";
  creditAccount ← get creditData "creditAccount";
  details ← get_opt creditAccount "creditAccountDetails";
  items ← as_array (or_else details (VArr [])) "map";
  accounts ← mapM (fun account =>
      id ← get account "identificationNumber";
      subscriber ← get account "subscriberName";
      accountType ← get account "accountType";
      limit ← get account "creditLimitAmount";
      balance ← get account "currentBalance";
      paymentRating ← get account "paymentRating";
      accountStatus ← get account "accountStatus";
      openDate ← get account "openDate";
      Ok {| ca_id := id; ca_subscriber := subscriber;
            ca_accountType := accountType;
            ca_creditLimit := or_zero (parseFloat limit);
            ca_currentBalance := or_zero (parseFloat balance);
            ca_paymentRating := paymentRating;
            ca_accountStatus := accountStatus;
            ca_openDate := openDate |}) items;
  creditScore ← (if truthy score then n ← parseInt score; Ok (Some n) else Ok None);
  summary ← get_opt creditAccount "creditAccountSummary";
  account ← get_opt summary "account";
  total ← get_opt account "creditAccountTotal";
  active ← get_opt account "creditAccountActive";
  outstanding ← get_opt summary "totalOutstandingBalance";
  Ok {| creditScore := creditScore;
        accounts := accounts;
        totalAccounts := Some (or_else total (VNum zero));
        activeAccounts := Some (or_else active (VNum zero));
        outstandingBalance := Some (or_else outstanding (VObj []));
        credit_error := None |}.

(** *** Retirement fund (EPF) *)

Record EPF : Type := {
  totalBalance : num;
  employeeShare : num;
  employerShare : num;
  pensionBalance : option num;
  employerDetails : option value;
  epf_error : option string
}.

(** The callback of the [reduce] over [est_details]. *)
Definition add_employer_balance (sum : num) (est : value) : result num :=
  pf ← get_opt est "pf_balance";
  share ← get_opt pf "employer_share";
  balance ← get_opt share "balance";
  let bal := or_zero (parseFloat balance) in
  Ok (add sum bal).

Definition processEPFData (response : value) : result EPF :=
  uan ← (if truthy response then get response "uanAccounts" else Ok VUndef);
  len ← (if truthy uan then get uan "length" else Ok VUndef);
  if negb (truthy uan) || is_zero len then
    Ok {| totalBalance := zero; employeeShare := zero; employerShare := zero;
          pensionBalance := None; employerDetails := None;
          epf_error := Some "No EPF data available" |}
  else
  first ← get_index uan 0;
  epfData ← get first "rawDetails";
  overallBalance ← get epfData "overall_pf_balance";
  employeeTotal ← get_opt overallBalance "employee_share_total";
  employeeBalance ← get_opt employeeTotal "balance";
  let employeeShare := or_zero (parseFloat employeeBalance) in
  est_details ← get epfData "est_details";
  employerShare ←
    (if isArray est_details then
       items ← as_array est_details "reduce";
       foldM add_employer_balance items zero
     else Ok zero);
  current ← get_opt overallBalance "current_pf_balance";
  pension ← get_opt overallBalance "pension_balance";
  Ok {| totalBalance := or_zero (parseFloat current);
        employeeShare := employeeShare;
        employerShare := employerShare;
        pensionBalance := Some (or_zero (parseFloat pension));
        employerDetails := Some (or_else est_details (VArr []));
        epf_error := None |}.

(** *** Objects used as maps *)

(** The properties a fresh object [{}] inherits from [Object.prototype];
    reading one of them yields a truthy value that is no aggregate. *)
Definition object_prototype_keys : list string :=
  [ "constructor"; "__defineGetter__"; "__defineSetter__"; "hasOwnProperty";
    "__lookupGetter__"; "__lookupSetter__"; "isPrototypeOf";
    "propertyIsEnumerable"; "toString"; "valueOf"; "__proto__";
    "toLocaleString" ].

Definition inherited (k : string) : bool :=
  existsb (String.eqb k) object_prototype_keys.

(** [if (!acc[k]) acc[k] = fresh;] followed by the read of
    [acc[k].transactions] for the [push]. *)
Definition entry_of {A} (acc : gmap string A) (k : string) (fresh : A) : result A :=
  match acc !! k with
  | Some a => Ok a
  | None =>
      if inherited k
      then Throw (TypeError "Cannot read properties of undefined (reading 'push')")
      else Ok fresh
  end.

(** *** Mutual-fund transactions *)

Inductive order_label : Type := BUY | SELL.

Record FundTransaction : Type := {
  ft_isin : value;
  ft_folioId : value;
  ft_type : order_label;
  ft_date : value;
  ft_amount : value;
  ft_units : value;
  ft_nav : value;
  ft_schemeName : value
}.

Record FundSchemeAggregate : Type := {
  fs_isin : value;
  fs_schemeName : value;
  fs_transactions : list FundTransaction;
  totalInvested : num;
  totalUnits : num
}.

Record MFTransactions : Type := {
  mf_transactions : list FundTransaction;
  schemes : gmap string FundSchemeAggregate;
  mf_totalTransactions : option nat;
  mf_error : option string
}.

(** [v === 1] *)
Definition is_one (v : value) : bool :=
  match v with VNum n => Num.eqb n (ofZ 1) | _ => false end.

(** The body of the inner [forEach]: one tuple of one scheme. *)
Definition mf_transaction (scheme txn : value) : result FundTransaction :=
  t ← iterate txn;
  let orderType := nth 0 t VUndef in
  let date := nth 1 t VUndef in
  let nav := nth 2 t VUndef in
  let units := nth 3 t VUndef in
  let amount := nth 4 t VUndef in
  isin ← get scheme "isin";
  folioId ← get scheme "folioId";
  schemeName ← get scheme "schemeName";
  Ok {| ft_isin := isin; ft_folioId := folioId;
        ft_type := if is_one orderType then BUY else SELL;
        ft_date := date; ft_amount := amount; ft_units := units;
        ft_nav := nav; ft_schemeName := schemeName |}.

(** The body of the outer [forEach]: the transactions one scheme adds. *)
Definition mf_scheme_transactions (scheme : value) : result (list FundTransaction) :=
  txns ← get scheme "txns";
  items ← as_array txns "forEach";
  mapM (mf_transaction scheme) items.

(** The callback of the grouping [reduce]. *)
Definition mf_group (acc : gmap string FundSchemeAggregate) (tx : FundTransaction)
  : result (gmap string FundSchemeAggregate) :=
  k ← ToString (ft_isin tx);
  entry ← entry_of acc k
    {| fs_isin := ft_isin tx; fs_schemeName := ft_schemeName tx;
       fs_transactions := []; totalInvested := zero; totalUnits := zero |};
  let transactions := fs_transactions entry ++ [tx] in
  totals ←
    match ft_type tx with
    | BUY =>
        invested ← add_assign (totalInvested entry) (ft_amount tx);
        units ← add_assign (totalUnits entry) (ft_units tx);
        Ok (invested, units)
    | SELL =>
        invested ← sub_assign (totalInvested entry) (ft_amount tx);
        units ← sub_assign (totalUnits entry) (ft_units tx);
        Ok (invested, units)
    end;
  Ok (<[k := {| fs_isin := fs_isin entry; fs_schemeName := fs_schemeName entry;
               fs_transactions := transactions;
               totalInvested := fst totals; totalUnits := snd totals |}]> acc).

Definition processMFTransactions (response : value) : result MFTransactions :=
  container ← (if truthy response then get response "mfTransactions" else Ok VUndef);
  if negb (truthy container) then
    Ok {| mf_transactions := []; schemes := ∅;
          mf_totalTransactions := None;
          mf_error := Some "No transaction data available" |}
  else
  schemeList ← as_array container "forEach";
  perScheme ← mapM mf_scheme_transactions schemeList;
  let transactions := concat perScheme in
  schemes ← foldM mf_group transactions ∅;
  Ok {| mf_transactions := transactions; schemes := schemes;
        mf_totalTransactions := Some (length transactions);
        mf_error := None |}.

(** *** Bank transactions *)

(** The value of [types[typeCode] || 'UNKNOWN']: one of the labels, or a
    property the table [types] inherits. *)
Inductive bank_label : Type :=
| CREDIT | DEBIT | OPENING | INTEREST | TDS | INSTALLMENT | CLOSING | OTHERS
| UNKNOWN
| Inherited (name : string).

Definition types : list (string * bank_label) :=
  [ ("1", CREDIT); ("2", DEBIT); ("3", OPENING); ("4", INTEREST);
    ("5", TDS); ("6", INSTALLMENT); ("7", CLOSING); ("8", OTHERS) ].

(** [getTransactionType(typeCode)] *)
Definition getTransactionType (typeCode : value) : result bank_label :=
  k ← ToString typeCode;
  match List.find (fun e => String.eqb (fst e) k) types with
  | Some e => Ok (snd e)
  | None => Ok (if inherited k then Inherited k else UNKNOWN)
  end.

Record BankTransaction : Type := {
  bt_bank : value;
  bt_amount : num;
  bt_narration : value;
  bt_date : value;
  bt_type : bank_label;
  bt_mode : value;
  bt_balance : num
}.

Record BankAggregate : Type := {
  ba_bank : value;
  ba_transactions : list BankTransaction;
  totalCredits : num;
  totalDebits : num;
  currentBalance : num
}.

Record BankTransactions : Type := {
  bank_transactions : list BankTransaction;
  banks : gmap string BankAggregate;
  bank_totalTransactions : option nat;
  bank_error : option string
}.

(** The body of the inner [forEach]: one tuple of one bank. *)
Definition bank_transaction (bank txn : value) : result BankTransaction :=
  t ← iterate txn;
  let amount := nth 0 t VUndef in
  let narration := nth 1 t VUndef in
  let date := nth 2 t VUndef in
  let type := nth 3 t VUndef in
  let mode := nth 4 t VUndef in
  let balance := nth 5 t VUndef in
  transactionType ← getTransactionType type;
  name ← get bank "bank";
  Ok {| bt_bank := name; bt_amount := parseFloat amount;
        bt_narration := narration; bt_date := date;
        bt_type := transactionType; bt_mode := mode;
        bt_balance := parseFloat balance |}.

Definition bank_record_transactions (bank : value) : result (list BankTransaction) :=
  txns ← get bank "txns";
  items ← as_array txns "forEach";
  mapM (bank_transaction bank) items.

(** The callback of the grouping [reduce]. *)
Definition bank_group (acc : gmap string BankAggregate) (tx : BankTransaction)
  : result (gmap string BankAggregate) :=
  k ← ToString (bt_bank tx);
  entry ← entry_of acc k
    {| ba_bank := bt_bank tx; ba_transactions := [];
       totalCredits := zero; totalDebits := zero; currentBalance := zero |};
  let transactions := ba_transactions entry ++ [tx] in
  let credits :=
    match bt_type tx with
    | CREDIT => add (totalCredits entry) (bt_amount tx)
    | _ => totalCredits entry
    end in
  let debits :=
    match bt_type tx with
    | DEBIT => add (totalDebits entry) (bt_amount tx)
    | _ => totalDebits entry
    end in
  let balance :=
    if gtb (bt_balance tx) (currentBalance entry)
    then bt_balance tx else currentBalance entry in
  Ok (<[k := {| ba_bank := ba_bank entry; ba_transactions := transactions;
               totalCredits := credits; totalDebits := debits;
               currentBalance := balance |}]> acc).

Definition processBankTransactions (response : value) : result BankTransactions :=
  container ← (if truthy response then get response "bankTransactions" else Ok VUndef);
  if negb (truthy container) then
    Ok {| bank_transactions := []; banks := ∅;
          bank_totalTransactions := None;
          bank_error := Some "No bank transaction data available" |}
  else
  bankList ← as_array container "forEach";
  perBank ← mapM bank_record_transactions bankList;
  let transactions := concat perBank in
  banks ← foldM bank_group transactions ∅;
  Ok {| bank_transactions := transactions; banks := banks;
        bank_totalTransactions := Some (length transactions);
        bank_error := None |}.

End Utils.

Export Utils.

(** ** functions/mcp-client.js *)

Module McpClient.

(** The fields of an [MCPClient] instance. *)
Record client : Type := {
  baseUrl : string;
  sessionId : value;
  isAuthenticated : bool
}.

(** [new MCPClient(baseUrl)] *)
Definition new_client (baseUrl : string) : client :=
  {| baseUrl := baseUrl; sessionId := VNull; isAuthenticated := false |}.

Definition default_baseUrl : string :=
  "https://fi-mcp-server-267132178774.us-central1.run.app/mcp/stream".

(** *** The transport *)

Inductive body : Type :=
| Json (v : value)
| Form (s : string).

(** One [axios.post(url, body, {headers})]. *)
Record request : Type := {
  req_url : string;
  req_body : body;
  req_headers : list (string * value)
}.

(** What the network does with a request: an HTTP response, with header
    names in lower case as Node delivers them, or no response at all. *)
Inductive http_reply : Type :=
| Response (status : Z) (headers : list (string * string)) (data : value)
| NetworkError (message : string).

Record response : Type := {
  status : Z;
  headers : list (string * string);
  data : value
}.

(** [axios.post] resolves on a 2xx status (the default [validateStatus])
    and rejects otherwise. *)
Definition axios_post (reply : http_reply) : result response :=
  match reply with
  | Response st hs d =>
      if (200 <=? st) && (st <? 300)
      then Ok {| status := st; headers := hs; data := d |}
      else Throw (AxiosError ("Request failed with status code " +:+ pretty st) (Some st))
  | NetworkError m => Throw (AxiosError m None)
  end.

(** [response.headers[name]] *)
Definition header (name : string) (hs : list (string * string)) : value :=
  match List.find (fun kv => String.eqb (fst kv) name) hs with
  | Some kv => VStr (snd kv)
  | None => VUndef
  end.

(** *** Methods as computations over the instance

    A method runs against the reply the network gives to the one request it
    may send, and yields its outcome, the instance afterwards and the
    requests it sent.  Console output is not part of the model. *)

Record run (A : Type) : Type := Run {
  outcome : result A;
  after : client;
  sent : list request
}.

Arguments Run {A} outcome after sent.
Arguments outcome {A} r.
Arguments after {A} r.
Arguments sent {A} r.

Definition M (A : Type) : Type := http_reply -> client -> run A.

Definition retM {A} (a : A) : M A := fun _ c => Run (Ok a) c [].

Definition bindM {A B} (m : M A) (k : A -> M B) : M B := fun net c =>
  let r := m net c in
  match outcome r with
  | Ok a =>
      let r' := k a net (after r) in
      Run (outcome r') (after r') (sent r ++ sent r')
  | Throw e => Run (Throw e) (after r) (sent r)
  | Unmodelled => Run Unmodelled (after r) (sent r)
  end.

#[global] Instance M_ret : MRet M := @retM.
#[global] Instance M_bind : MBind M := fun _ _ k m => bindM m k.

(** [throw e] *)
Definition throw {A} (e : exn) : M A := fun _ c => Run (Throw e) c [].

(** A pure step that may throw. *)
Definition lift {A} (r : result A) : M A := fun _ c => Run r c [].

(** [try { m } catch (error) { handler(error) }] *)
Definition try_catch {A} (m : M A) (handler : exn -> M A) : M A := fun net c =>
  let r := m net c in
  match outcome r with
  | Throw e =>
      let r' := handler e net (after r) in
      Run (outcome r') (after r') (sent r ++ sent r')
  | _ => r
  end.

(** [await axios.post(...)] *)
Definition post (req : request) : M response := fun net c =>
  Run (axios_post net) c [req].

Definition self : M client := fun _ c => Run (Ok c) c [].

(** [this.sessionId = v] *)
Definition set_sessionId (v : value) : M unit := fun _ c =>
  Run (Ok tt)
      {| baseUrl := baseUrl c; sessionId := v; isAuthenticated := isAuthenticated c |} [].

(** [this.isAuthenticated = b] *)
Definition set_isAuthenticated (b : bool) : M unit := fun _ c =>
  Run (Ok tt) {| baseUrl := baseUrl c; sessionId := sessionId c; isAuthenticated := b |} [].

(** *** The four protocol methods *)

Definition initialize_request : value :=
  VObj [ ("jsonrpc", VStr "2.0");
         ("id", VNum (ofZ 1));
         ("method", VStr "initialize");
         ("params", VObj [ ("protocolVersion", VStr "2024-11-05");
                           ("capabilities", VObj [ ("tools", VObj []) ]);
                           ("clientInfo", VObj [ ("name", VStr "fi-mcp-functions");
                                                 ("version", VStr "1.0.0") ]) ]) ].

Definition initialize : M value :=
  try_catch
    (c ← self;
     response ← post {| req_url := baseUrl c; req_body := Json initialize_request;
                        req_headers := [] |};
     let sid := header "mcp-session-id" (headers response) in
     _ ← set_sessionId sid;
     if negb (truthy sid)
     then throw (JsError "No session ID received from MCP server")
     else mret (data response))
    (fun error => throw (JsError "MCP initialization failed")).

(** [s.replace(pattern, '')] for a string pattern: the first occurrence goes. *)
Fixpoint remove_first (pattern s : string) : string :=
  if String.prefix pattern s then String.substring (String.length pattern) (String.length s) s
  else match s with
       | EmptyString => EmptyString
       | String ch r => String ch (remove_first pattern r)
       end.

Definition authenticate (phoneNumber : value) : M bool :=
  let phoneNumber := match phoneNumber with VUndef => VStr "9999999999" | p => p end in
  try_catch
    (c ← self;
     if negb (truthy (sessionId c))
     then throw (JsError "Session ID not available. Call initialize() first.")
     else
       sid ← lift (ToString (sessionId c));
       phone ← lift (ToString phoneNumber);
       authResponse ← post
         {| req_url := remove_first "/mcp/stream" (baseUrl c) +:+ "/login";
            req_body := Form ("sessionId=" +:+ sid +:+ "&phoneNumber=" +:+ phone);
            req_headers := [ ("Content-Type", VStr "application/x-www-form-urlencoded") ] |};
       if status authResponse =? 200
       then _ ← set_isAuthenticated true; mret true
       else throw (JsError ("Authentication failed with status: " +:+ pretty (status authResponse))))
    (fun error => throw (JsError "MCP authentication failed")).

Definition listTools : M value :=
  try_catch
    (c ← self;
     response ← post
       {| req_url := baseUrl c;
          req_body := Json (VObj [ ("jsonrpc", VStr "2.0"); ("id", VNum (ofZ 2));
                                   ("method", VStr "tools/list"); ("params", VObj []) ]);
          req_headers := [ ("MCP-Session-ID", sessionId c) ] |};
     lift (get (data response) "result"))
    (fun error => throw (JsError "Failed to list MCP tools")).

(** [new Error(message)]: an [undefined] message leaves the empty text. *)
Definition new_Error (message : value) : result exn :=
  match message with
  | VUndef => Ok (JsError "")
  | m => s ← ToString m; Ok (JsError s)
  end.

(** [v > 0] *)
Definition positive (v : value) : result bool :=
  n ← ToNumber v; Ok (gtb n zero).

(** [v === 'text'] *)
Definition is_text (v : value) : bool :=
  match v with VStr s => String.eqb s "text" | _ => false end.

Section CallTool.

(** [JSON.parse] on a text: the parsed value or a [SyntaxError]. *)
Variable JSON_parse : string -> result value.

(** [callTool(toolName, arguments_ = {})]; [now] is what [Date.now()]
    returns. *)
Definition callTool (toolName arguments_ : value) (now : Z) : M value :=
  let arguments_ := match arguments_ with VUndef => VObj [] | a => a end in
  try_catch
    (c ← self;
     response ← post
       {| req_url := baseUrl c;
          req_body := Json (VObj [ ("jsonrpc", VStr "2.0"); ("id", VNum (ofZ now));
                                   ("method", VStr "tools/call");
                                   ("params", VObj [ ("name", toolName);
                                                     ("arguments", arguments_) ]) ]);
          req_headers := [ ("MCP-Session-ID", sessionId c) ] |};
     err ← lift (get (data response) "error");
     if truthy err
     then message ← lift (get err "message");
          e ← lift (new_Error message);
          throw e
     else
       result ← lift (get (data response) "result");
       content ← lift (if truthy result then get result "content" else Ok VUndef);
       len ← lift (if truthy content then get content "length" else Ok VUndef);
       nonempty ← lift (if truthy content then positive len else Ok false);
       if (nonempty : bool) then
         first ← lift (get_index content 0);
         type ← lift (get first "type");
         text ← lift (if is_text type then get first "text" else Ok VUndef);
         if is_text type && truthy text
         then try_catch (source ← lift (ToString text); lift (JSON_parse source))
                        (fun parseError => mret result)
         else mret result
       else mret result)
    (fun error => throw (JsError ("MCP tool call failed: " +:+ message_of error))).

Definition fetchNetWorth : Z -> M value := callTool (VStr "fetch_net_worth") VUndef.
Definition fetchCreditReport : Z -> M value := callTool (VStr "fetch_credit_report") VUndef.
Definition fetchEPFDetails : Z -> M value := callTool (VStr "fetch_epf_details") VUndef.
Definition fetchMFTransactions : Z -> M value := callTool (VStr "fetch_mf_transactions") VUndef.
Definition fetchBankTransactions : Z -> M value := callTool (VStr "fetch_bank_transactions") VUndef.

(** *** Sequences of calls on one instance *)

Inductive op : Type :=
| Initialize
| Authenticate (phoneNumber : value)
| ListTools
| CallTool (toolName arguments_ : value) (now : Z).

(** The outcome of a call, with its return value forgotten. *)
Definition returned {A} (r : result A) : bool :=
  match r with Ok _ => true | _ => false end.

Definition void {A} (r : run A) : run unit :=
  Run (match outcome r with
       | Ok _ => Ok tt
       | Throw e => Throw e
       | Unmodelled => Unmodelled
       end) (after r) (sent r).

(** One call, against the reply the network gives it. *)
Definition exec (c : client) (call : op * http_reply) : run unit :=
  match fst call with
  | Initialize => void (initialize (snd call) c)
  | Authenticate phoneNumber => void (authenticate phoneNumber (snd call) c)
  | ListTools => void (listTools (snd call) c)
  | CallTool toolName arguments_ now => void (callTool toolName arguments_ now (snd call) c)
  end.

(** The instance after a sequence of calls; a caller may go on after a
    failed call. *)
Definition exec_all (c : client) (calls : list (op * http_reply)) : client :=
  foldl (fun c call => after (exec c call)) c calls.

End CallTool.

End McpClient.

Export McpClient.

(** ** functions/index.js: the HTTP functions *)

Module Handlers.

(** What a function reads of the incoming request: [req.method],
    [req.query.phoneNumber] and [req.body]. *)
Record http_request : Type := {
  http_method : string;
  query_phoneNumber : value;
  json_body : value
}.

(** The body [sendSuccess] or [sendError] writes; its [timestamp] field,
    the current time, is left out. *)
Inductive payload (D : Type) : Type :=
| SuccessBody (data : D)
| ErrorBody (error : string).

Arguments SuccessBody {D} data.
Arguments ErrorBody {D} error.

(** What a function answers: [res.status(s).end()] or [res.status(s).json(b)]. *)
Inductive http_answer (D : Type) : Type :=
| Ended (status : Z)
| Answered (status : Z) (body : payload D).

Arguments Ended {D} status.
Arguments Answered {D} status body.

(** [sendError(res, statusCode, message)] *)
Definition sendError {D} (statusCode : Z) (message : string) : http_answer D :=
  Answered statusCode (ErrorBody message).

(** [sendSuccess(res, data)] *)
Definition sendSuccess {D} (data : D) : http_answer D :=
  Answered 200 (SuccessBody data).

(** The replies the network gives to the three requests a function may
    send, in the order it sends them. *)
Record exchange : Type := {
  to_handshake : http_reply;
  to_login : http_reply;
  to_tool : http_reply
}.

(** [process.env.MCP_BASE_URL || '<default>'] *)
Definition mcpBaseUrl (env : option string) : string :=
  match env with
  | Some url => if String.eqb url "" then default_baseUrl else url
  | None => default_baseUrl
  end.

(** [req.query.phoneNumber || req.body?.phoneNumber || '9999999999'] *)
Definition phoneNumber_of (req : http_request) : result value :=
  if truthy (query_phoneNumber req) then Ok (query_phoneNumber req)
  else
    fromBody ← get_opt (json_body req) "phoneNumber";
    Ok (or_else fromBody (VStr "9999999999")).

(** One awaited step after another on the same instance: the next step
    runs on the instance the previous one left, unless that one threw. *)
Definition and_then {A B} (r : run A) (k : A -> client -> run B) : run B :=
  match outcome r with
  | Ok a =>
      let r' := k a (after r) in
      Run (outcome r') (after r') (sent r ++ sent r')
  | Throw e => Run (Throw e) (after r) (sent r)
  | Unmodelled => Run Unmodelled (after r) (sent r)
  end.

(** A step that touches neither the instance nor the network. *)
Definition pure_step {A} (r : result A) (c : client) : run A := Run r c [].

(** What a function did: its answer, [Unmodelled] when a step was, and the
    requests it sent to the MCP server. *)
Record served (D : Type) : Type := Served {
  answer : result (http_answer D);
  requests : list request
}.

Arguments Served {D} answer requests.
Arguments answer {D} s.
Arguments requests {D} s.

(** [try { ... sendSuccess(res, data) } catch (error) { sendError(res,
    statusCode, `${failure}: ${error.message}`) }] *)
Definition respond {D} (statusCode : Z) (failure : string) (r : run D) : served D :=
  Served
    (match outcome r with
     | Ok data => Ok (sendSuccess data)
     | Throw error => Ok (sendError statusCode (failure +:+ ": " +:+ message_of error))
     | Unmodelled => Unmodelled
     end)
    (sent r).

Section Functions.

Variable JSON_parse : string -> result value.

(** The five data functions differ in the tool they call, the normalizer
    they apply and the wording of their failure; this is their common body.
    The model starts where the CORS middleware has handed the request over
    ([handleCORS] has resolved); console output is not part of it. *)
Definition fetch_function {D} (fetch : Z -> M value) (process : value -> result D)
    (failure : string)
    (env : option string) (now : Z) (net : exchange) (req : http_request) : served D :=
  if String.eqb (http_method req) "OPTIONS" then Served (Ok (Ended 200)) []
  else
    let mcpClient := new_client (mcpBaseUrl env) in
    respond 500 failure
      (and_then (pure_step (phoneNumber_of req) mcpClient) (fun phoneNumber c =>
       and_then (initialize (to_handshake net) c) (fun _ c =>
       and_then (authenticate phoneNumber (to_login net) c) (fun _ c =>
       and_then (fetch now (to_tool net) c) (fun rawData c =>
       pure_step (process rawData) c))))).

Definition getNetWorth :=
  fetch_function (fetchNetWorth JSON_parse) processNetWorthData
    "Failed to fetch net worth".

Definition getCreditReport :=
  fetch_function (fetchCreditReport JSON_parse) processCreditData
    "Failed to fetch credit report".

Definition getEPFDetails :=
  fetch_function (fetchEPFDetails JSON_parse) processEPFData
    "Failed to fetch EPF details".

Definition getMFTransactions :=
  fetch_function (fetchMFTransactions JSON_parse) processMFTransactions
    "Failed to fetch mutual fund transactions".

Definition getBankTransactions :=
  fetch_function (fetchBankTransactions JSON_parse) processBankTransactions
    "Failed to fetch bank transactions".

(** The data [healthCheck] sends; its [timestamp] field is left out. *)
Record Health : Type := {
  health_status : string;
  mcpConnection : string;
  availableTools : value
}.

Definition healthCheck (env : option string) (net : exchange) (req : http_request)
  : served Health :=
  if String.eqb (http_method req) "OPTIONS" then Served (Ok (Ended 200)) []
  else
    let mcpClient := new_client (mcpBaseUrl env) in
    respond 503 "MCP connection failed"
      (and_then (initialize (to_handshake net) mcpClient) (fun _ c =>
       and_then (authenticate VUndef (to_login net) c) (fun _ c =>
       and_then (listTools (to_tool net) c) (fun tools c =>
       pure_step (listed ← get tools "tools";
                  Ok {| health_status := "healthy"; mcpConnection := "connected";
                        availableTools := or_else listed (VArr []) |}) c)))).

End Functions.

End Handlers.

Export Handlers.

(** ** Vocabulary of the statements *)

Module Vocabulary.

(** The numerator and denominator of a finite number, for showing results. *)
Definition fraction (n : num) : option Q :=
  match n with Fin q => Some (this q) | _ => None end.

(** [v.k] as a value: [undefined] where the read would throw. *)
Definition prop (v : value) (k : string) : value :=
  match get v k with Ok x => x | _ => VUndef end.

(** The specification's decoding of a currency amount: either field counts
    as 0 when it is absent. *)
Definition field_or_zero (amount : value) (k : string) : num :=
  or_zero (parseFloat (prop amount k)).

Definition DecodeAmount (amount : value) : num :=
  add (field_or_zero amount "units")
      (div (field_or_zero amount "nanos") (ofZ 1000000000)).

(** A computation that sends nothing and leaves the instance as it was. *)
Definition quiet {A} (m : M A) : Prop :=
  forall net c, sent (m net c) = [] /\ after (m net c) = c.

(** The request [callTool] posts. *)
Definition tool_request (c : client) (toolName arguments_ : value) (now : Z) : request :=
  {| req_url := baseUrl c;
     req_body := Json (VObj [ ("jsonrpc", VStr "2.0"); ("id", VNum (ofZ now));
                              ("method", VStr "tools/call");
                              ("params", VObj [ ("name", toolName);
                                                ("arguments",
                                                 match arguments_ with
                                                 | VUndef => VObj []
                                                 | a => a
                                                 end) ]) ]);
     req_headers := [ ("MCP-Session-ID", sessionId c) ] |}.


(** [phoneNumber = '9999999999'] as a default parameter. *)
Definition phone_or_default (phoneNumber : value) : value :=
  match phoneNumber with VUndef => VStr "9999999999" | p => p end.

(** The request [authenticate] posts. *)
Definition login_request (c : client) (sid phone : string) : request :=
  {| req_url := remove_first "/mcp/stream" (baseUrl c) +:+ "/login";
     req_body := Form ("sessionId=" +:+ sid +:+ "&phoneNumber=" +:+ phone);
     req_headers := [ ("Content-Type", VStr "application/x-www-form-urlencoded") ] |}.

(** [v?.k] as a value. *)
Definition opt (v : value) (k : string) : value :=
  if nullish v then VUndef else prop v k.

(** What one establishment record contributes to the employer share. *)
Definition employer_balance (est : value) : num :=
  or_zero (parseFloat (opt (opt (opt est "pf_balance") "employer_share") "balance")).


(** The transactions filed under the key [k] of the [banks] object. *)
Definition of_bank (k : string) (tx : BankTransaction) : bool :=
  match ToString (bt_bank tx) with
  | Ok k' => String.eqb k' k
  | _ => false
  end.


(** What holds of every aggregate while the bank transactions [seen] so far
    are folded into [acc]. *)
Definition bank_aggregate_ok (seen : list BankTransaction) (k : string)
    (agg : BankAggregate) : Prop :=
  ba_transactions agg = List.filter (of_bank k) seen /\
  ba_transactions agg <> [] /\
  le zero (currentBalance agg) /\
  (forall tx, In tx (ba_transactions agg) -> bt_balance tx <> NaN ->
     le (bt_balance tx) (currentBalance agg)) /\
  (currentBalance agg = zero \/
   exists tx, In tx (ba_transactions agg) /\ currentBalance agg = bt_balance tx).

Definition bank_invariant (seen : list BankTransaction)
    (acc : gmap string BankAggregate) : Prop :=
  forall k,
    match acc !! k with
    | Some agg => bank_aggregate_ok seen k agg
    | None => List.filter (of_bank k) seen = []
    end.





(** The transactions filed under the key [k] of the [schemes] object. *)
Definition of_scheme (k : string) (tx : FundTransaction) : bool :=
  match ToString (ft_isin tx) with
  | Ok k' => String.eqb k' k
  | _ => false
  end.

(** The number an operand of [+=] or [-=] stands for. *)
Definition numeric (v : value) : num :=
  match ToNumber v with Ok n => n | _ => NaN end.

Definition has_label (label : order_label) (tx : FundTransaction) : bool :=
  match label, ft_type tx with
  | BUY, BUY | SELL, SELL => true
  | _, _ => false
  end.

(** The sum of a field over the transactions with a label. *)
Definition total (field : FundTransaction -> value) (label : order_label)
    (txs : list FundTransaction) : num :=
  sum (map (fun tx => numeric (field tx)) (List.filter (has_label label) txs)).

(** Bought minus sold. *)
Definition net (field : FundTransaction -> value) (txs : list FundTransaction) : num :=
  sub (total field BUY txs) (total field SELL txs).

(** The transaction a tuple [txn] of a scheme record is turned into. *)
Definition labelled (scheme txn : value) (tx : FundTransaction) : Prop :=
  exists t,
    iterate txn = Ok t /\
    tx = {| ft_isin := prop scheme "isin"; ft_folioId := prop scheme "folioId";
            ft_type := if is_one (nth 0 t VUndef) then BUY else SELL;
            ft_date := nth 1 t VUndef; ft_amount := nth 4 t VUndef;
            ft_units := nth 3 t VUndef; ft_nav := nth 2 t VUndef;
            ft_schemeName := prop scheme "schemeName" |}.

(** [txs] is the flattening of the payload's scheme records, in order. *)
Definition flattened (response : value) (txs : list FundTransaction) : Prop :=
  exists schemeList perScheme,
    prop response "mfTransactions" = VArr schemeList /\
    Forall2 (fun scheme txs =>
               exists tuples,
                 prop scheme "txns" = VArr tuples /\
                 Forall2 (labelled scheme) tuples txs)
            schemeList perScheme /\
    txs = concat perScheme.

Definition scheme_aggregate_ok (seen : list FundTransaction) (k : string)
    (agg : FundSchemeAggregate) : Prop :=
  fs_transactions agg = List.filter (of_scheme k) seen /\
  totalInvested agg = net ft_amount (fs_transactions agg) /\
  totalUnits agg = net ft_units (fs_transactions agg).

Definition scheme_invariant (seen : list FundTransaction)
    (acc : gmap string FundSchemeAggregate) : Prop :=
  forall k,
    match acc !! k with
    | Some agg => scheme_aggregate_ok seen k agg
    | None => List.filter (of_scheme k) seen = []
    end.





(** The label of an integer type code. *)
Definition label_of_code (code : Z) : bank_label :=
  match code with
  | 1 => CREDIT | 2 => DEBIT | 3 => OPENING | 4 => INTEREST
  | 5 => TDS | 6 => INSTALLMENT | 7 => CLOSING | 8 => OTHERS
  | _ => UNKNOWN
  end.

(** The transaction a tuple [txn] of a bank record is turned into. *)
Definition bank_labelled (bank txn : value) (tx : BankTransaction) : Prop :=
  exists t label,
    iterate txn = Ok t /\
    getTransactionType (nth 3 t VUndef) = Ok label /\
    tx = {| bt_bank := prop bank "bank"; bt_amount := parseFloat (nth 0 t VUndef);
            bt_narration := nth 1 t VUndef; bt_date := nth 2 t VUndef;
            bt_type := label; bt_mode := nth 4 t VUndef;
            bt_balance := parseFloat (nth 5 t VUndef) |}.

(** [txs] is the flattening of the payload's bank records, in order. *)
Definition bank_flattened (response : value) (txs : list BankTransaction) : Prop :=
  exists bankList perBank,
    prop response "bankTransactions" = VArr bankList /\
    Forall2 (fun bank txs =>
               exists tuples,
                 prop bank "txns" = VArr tuples /\
                 Forall2 (bank_labelled bank) tuples txs)
            bankList perBank /\
    txs = concat perBank.

(** How many tuples the records of a container hold. *)
Definition tuple_count (container : value) : nat :=
  match container with
  | VArr records =>
      foldr (fun record n =>
               match prop record "txns" with
               | VArr tuples => (length tuples + n)%nat
               | _ => n
               end) 0%nat records
  | _ => 0%nat
  end.





Definition scheme_identity_ok (agg : FundSchemeAggregate) : Prop :=
  exists tx rest,
    fs_transactions agg = tx :: rest /\
    fs_isin agg = ft_isin tx /\ fs_schemeName agg = ft_schemeName tx.

(** What [currencyToNumber] returns for an amount. *)
Definition decoded (amount : value) : num :=
  if truthy (prop amount "units") then DecodeAmount amount else zero.

(** The currency of a net-worth payload: the code of its total, INR when
    the total carries none. *)
Definition currency_of (netWorthData : value) : value :=
  or_else (opt (prop netWorthData "totalNetWorthValue") "currencyCode") (VStr "INR").

(** The asset entries of a net-worth payload. *)
Definition asset_entries (netWorthData : value) : option (list value) :=
  match or_else (prop netWorthData "assetValues") (VArr []) with
  | VArr items => Some items
  | _ => None
  end.

(** The asset a payload entry is turned into. *)
Definition asset_of (code : string) (entry : value) : Asset :=
  {| asset_type := prop entry "netWorthAttribute";
     asset_value := decoded (prop entry "value");
     asset_formattedValue := Formatted (decoded (prop entry "value")) code |}.

(** The account a credit-account entry is turned into. *)
Definition account_of (account : value) : CreditAccount :=
  {| ca_id := prop account "identificationNumber";
     ca_subscriber := prop account "subscriberName";
     ca_accountType := prop account "accountType";
     ca_creditLimit := or_zero (parseFloat (prop account "creditLimitAmount"));
     ca_currentBalance := or_zero (parseFloat (prop account "currentBalance"));
     ca_paymentRating := prop account "paymentRating";
     ca_accountStatus := prop account "accountStatus";
     ca_openDate := prop account "openDate" |}.

(** The request [initialize] posts. *)
Definition handshake_request (c : client) : request :=
  {| req_url := baseUrl c; req_body := Json initialize_request; req_headers := [] |}.

(** The request [listTools] posts. *)
Definition list_request (c : client) : request :=
  {| req_url := baseUrl c;
     req_body := Json (VObj [ ("jsonrpc", VStr "2.0"); ("id", VNum (ofZ 2));
                              ("method", VStr "tools/list"); ("params", VObj []) ]);
     req_headers := [ ("MCP-Session-ID", sessionId c) ] |}.

(** A 2xx status, the ones [axios] resolves on. *)
Definition is_2xx (st : Z) : bool := (200 <=? st) && (st <? 300).

(** The session identifier a reply to the handshake grants: the
    [mcp-session-id] header of a 2xx response, when it is not empty. *)
Definition granted_session (net : http_reply) : option string :=
  match net with
  | Response st hs _ =>
      if is_2xx st then
        match header "mcp-session-id" hs with
        | VStr sid => if String.eqb sid "" then None else Some sid
        | _ => None
        end
      else None
  | NetworkError _ => None
  end.

(** A reply to the login that [authenticate] accepts. *)
Definition login_accepted (net : http_reply) : bool :=
  match net with
  | Response st _ _ => st =? 200
  | NetworkError _ => false
  end.

(** The identity a function logs in with. *)
Definition caller_phone (req : http_request) : value :=
  if truthy (query_phoneNumber req) then query_phoneNumber req
  else or_else (opt (json_body req) "phoneNumber") (VStr "9999999999").

(** The instance of a function once the handshake granted [sid]. *)
Definition in_session (url sid : string) (authenticated : bool) : client :=
  {| baseUrl := url; sessionId := VStr sid; isAuthenticated := authenticated |}.

End Vocabulary.

Export Vocabulary.

(** * Properties *)

(** ** Arithmetic of [num] *)

Module NumFacts.

Lemma Qc_eqb_eq (p q : Qc) : Qc_eqb p q = true <-> p = q.
Proof.
  unfold Qc_eqb. rewrite Qeq_bool_iff. split.
  - apply Qc_is_canon.
  - intros ->. reflexivity.
Qed.

Lemma Qc_eqb_neq (p q : Qc) : Qc_eqb p q = false <-> p <> q.
Proof.
  rewrite <- Qc_eqb_eq. destruct (Qc_eqb p q); split; congruence.
Qed.

Lemma Qc_ltb_lt (p q : Qc) : Qc_ltb p q = true <-> (p < q)%Qc.
Proof.
  unfold Qc_ltb, Qclt. rewrite (Qlt_alt (this p) (this q)).
  destruct (this p ?= this q)%Q; split; congruence.
Qed.

Lemma Qc_ltb_ge (p q : Qc) : Qc_ltb p q = false <-> (q <= p)%Qc.
Proof.
  split.
  - intros H. apply Qcnot_lt_le. rewrite <- Qc_ltb_lt. congruence.
  - intros H. destruct (Qc_ltb p q) eqn:E; [|reflexivity].
    apply Qc_ltb_lt in E. apply Qcle_not_lt in H. contradiction.
Qed.

Lemma eqb_eq (x y : num) : Num.eqb x y = true -> x = y.
Proof.
  destruct x as [|a|p], y as [|b|q]; cbn; try discriminate.
  - intros H. apply Bool.eqb_prop in H. congruence.
  - intros H. apply Qc_eqb_eq in H. congruence.
Qed.


Lemma add_comm (x y : num) : add x y = add y x.
Proof.
  destruct x as [|a|p], y as [|b|q]; cbn; try reflexivity.
  - destruct a, b; reflexivity.
  - f_equal. apply Qcplus_comm.
Qed.

Lemma add_assoc (x y z : num) : add x (add y z) = add (add x y) z.
Proof.
  destruct x as [|[]|p], y as [|[]|q], z as [|[]|r]; cbn; try reflexivity.
  f_equal. apply Qcplus_assoc.
Qed.

Lemma add_zero_l (x : num) : add zero x = x.
Proof.
  destruct x as [|a|p]; cbn; try reflexivity. f_equal. apply Qcplus_0_l.
Qed.

Lemma add_zero_r (x : num) : add x zero = x.
Proof. rewrite add_comm. apply add_zero_l. Qed.

Lemma neg_add (x y : num) : neg (add x y) = add (neg x) (neg y).
Proof.
  destruct x as [|a|p], y as [|b|q]; cbn; try reflexivity.
  - destruct a, b; reflexivity.
  - f_equal. ring.
Qed.

Lemma neg_zero : neg zero = zero.
Proof. apply (f_equal Fin). apply Qc_is_canon. reflexivity. Qed.

Lemma sum_snoc (l : list num) (x : num) : sum (l ++ [x]) = add (sum l) x.
Proof.
  unfold sum. induction l as [|y l IH]; cbn [foldr app].
  - rewrite add_zero_l, add_zero_r. reflexivity.
  - rewrite IH. apply add_assoc.
Qed.

(** Adding to the minuend, and adding to the subtrahend. *)
Lemma sub_add_l (b s a : num) : add (sub b s) a = sub (add b a) s.
Proof.
  unfold sub. rewrite <- !add_assoc. f_equal. apply add_comm.
Qed.

Lemma sub_add_r (b s a : num) : sub (sub b s) a = sub b (add s a).
Proof.
  unfold sub. rewrite neg_add, add_assoc. reflexivity.
Qed.

Lemma sub_zero_zero : sub zero zero = zero.
Proof. unfold sub. rewrite neg_zero. apply add_zero_l. Qed.

Lemma le_refl (x : num) : x <> NaN -> le x x.
Proof.
  destruct x as [|a|p]; cbn; [congruence|tauto|]. intros _. apply Qcle_refl.
Qed.

Lemma le_trans (x y z : num) : le x y -> le y z -> le x z.
Proof.
  destruct x as [|[]|p], y as [|[]|q], z as [|[]|r]; cbn;
    try (intuition congruence).
  apply Qcle_trans.
Qed.

Lemma le_not_nan (x y : num) : le x y -> x <> NaN /\ y <> NaN.
Proof.
  destruct x, y; cbn; intros H; try contradiction; split; discriminate.
Qed.

(** The two outcomes of the comparison [b > m]. *)
Lemma gtb_true (b m : num) : gtb b m = true -> le m b.
Proof.
  unfold gtb. destruct b as [|[]|p], m as [|[]|q]; cbn;
    try (intuition congruence).
  intros H. apply Qc_ltb_lt in H. apply Qclt_le_weak. exact H.
Qed.

Lemma gtb_false (b m : num) : gtb b m = false -> b <> NaN -> m <> NaN -> le b m.
Proof.
  unfold gtb. destruct b as [|[]|p], m as [|[]|q]; cbn;
    try (intuition congruence).
  intros H _ _. apply Qc_ltb_ge in H. exact H.
Qed.

Lemma le_zero_zero : le zero zero.
Proof. apply le_refl. discriminate. Qed.

Lemma or_zero_not_nan (x : num) : or_zero x <> NaN.
Proof.
  unfold or_zero. destruct x; cbn; try discriminate.
  destruct (negb _); discriminate.
Qed.

Lemma inject_pos_neq (z : Z) : 0 < z -> Q2Qc (inject_Z z) <> Q2Qc 0.
Proof.
  intros H E. apply (f_equal this) in E. cbn [this Q2Qc] in E.
  apply Qred_eq_iff in E. unfold Qeq in E. cbn in E. lia.
Qed.




End NumFacts.

(** ** Currency arithmetic *)



Lemma prop_get (v : value) (k : string) :
  nullish v = false -> get v k = Ok (prop v k).
Proof. unfold prop. destruct v; cbn; try discriminate; reflexivity. Qed.

Lemma currencyToNumber_falsy_units (amount : value) :
  truthy (prop amount "units") = false -> currencyToNumber amount = Ok zero.
Proof.
  intros H. unfold currencyToNumber.
  destruct (truthy amount) eqn:Ht; cbn [negb]; [|reflexivity].
  rewrite (prop_get amount "units") by (destruct amount; cbn in *; congruence).
  unfold mbind, result_bind, bind. cbv beta iota. rewrite H. reflexivity.
Qed.

Lemma currencyToNumber_truthy_units (amount : value) :
  truthy (prop amount "units") = true ->
  currencyToNumber amount = Ok (DecodeAmount amount).
Proof.
  intros H. unfold currencyToNumber.
  assert (Hn : nullish amount = false) by (destruct amount; cbn in *; congruence).
  destruct (truthy amount) eqn:Ht; cbn [negb].
  - rewrite (prop_get amount "units"), (prop_get amount "nanos") by exact Hn.
    unfold mbind, result_bind, bind. cbv beta iota. rewrite H. reflexivity.
  - destruct amount; cbn in *; discriminate.
Qed.

(** C1, as amended.  [currencyToNumber] never throws.  When the [units]
    field of the amount is present and truthy it returns units + nanos/1e9,
    an absent or unreadable [nanos] counting as 0; when the amount or its
    [units] field is absent or falsy it returns 0, whatever [nanos] holds. *)
Theorem currencyToNumber_guarded (amount : value) :
  currencyToNumber amount =
    Ok (if truthy (prop amount "units") then DecodeAmount amount else zero).
Proof.
  destruct (truthy (prop amount "units")) eqn:H.
  - apply currencyToNumber_truthy_units. exact H.
  - apply currencyToNumber_falsy_units. exact H.
Qed.

(** C1, as claimed, fails: an amount of half a unit, written with [nanos]
    alone, decodes to 0 and not to 0.5. *)
Lemma currencyToNumber_ignores_nanos_without_units :
  let amount := VObj [("nanos", VNum (ofZ 500000000))] in
  currencyToNumber amount = Ok zero /\
  fraction (DecodeAmount amount) = Some (1 # 2)%Q /\
  currencyToNumber amount <> Ok (DecodeAmount amount).
Proof.
  cbn zeta. split; [reflexivity|]. split; [vm_compute; reflexivity|].
  intros H.
  apply (f_equal (fun r => match r with Ok n => fraction n | _ => None end)) in H.
  vm_compute in H. discriminate.
Qed.



(** ** The session client *)

Section Quiet.

Context {A B : Type}.

Lemma quiet_ret (a : A) : quiet (mret a : M A).
Proof. intros net c. split; reflexivity. Qed.

Lemma quiet_throw (e : exn) : quiet (throw e : M A).
Proof. intros net c. split; reflexivity. Qed.

Lemma quiet_lift (r : result A) : quiet (lift r).
Proof. intros net c. split; reflexivity. Qed.

Lemma quiet_bind (m : M A) (k : A -> M B) :
  quiet m -> (forall a, quiet (k a)) -> quiet (m ≫= k).
Proof.
  intros Hm Hk net c. destruct (Hm net c) as [Hs Ha].
  unfold mbind, M_bind, bindM.
  destruct (outcome (m net c)) as [a| |]; cbn; rewrite ?Hs, ?Ha; auto.
  destruct (Hk a net c) as [Hs' Ha']. rewrite Hs', Ha'. auto.
Qed.

Lemma quiet_try_catch (m : M A) (handler : exn -> M A) :
  quiet m -> (forall e, quiet (handler e)) -> quiet (try_catch m handler).
Proof.
  intros Hm Hh net c. destruct (Hm net c) as [Hs Ha].
  unfold try_catch.
  destruct (outcome (m net c)) as [a|e|]; cbn; rewrite ?Hs, ?Ha; auto.
  destruct (Hh e net c) as [Hs' Ha']. rewrite Hs', Ha'. auto.
Qed.

End Quiet.

Ltac quiet :=
  repeat lazymatch goal with
    | |- quiet (if ?b then _ else _) => destruct b
    | |- quiet _ =>
        first [ apply quiet_ret | apply quiet_throw | apply quiet_lift
              | apply quiet_try_catch | apply quiet_bind ]
    | |- forall _, _ => intro
    end.

(** A method of the shape [try { post; rest } catch { handler }] whose
    [rest] and [handler] are quiet posts once and keeps the instance. *)
Lemma one_post {A} (req : client -> request) (rest : client -> response -> M A)
    (handler : exn -> M A) (net : http_reply) (c : client) :
  (forall c resp, quiet (rest c resp)) ->
  (forall e, quiet (handler e)) ->
  let r := try_catch (self ≫= fun c => post (req c) ≫= rest c) handler net c in
  sent r = [req c] /\ after r = c.
Proof.
  intros Hrest Hh. cbn zeta.
  unfold try_catch, mbind, M_bind, bindM, self, post. cbn [outcome after sent].
  destruct (axios_post net) as [resp|e|]; cbn [outcome after sent app].
  - destruct (Hrest c resp net c) as [Hs Ha]. rewrite Hs, Ha.
    destruct (outcome (rest c resp net c)) as [a|e|]; cbn [outcome after sent app].
    + auto.
    + destruct (Hh e net c) as [Hs' Ha']. rewrite Hs', Ha'. auto.
    + auto.
  - destruct (Hh e net c) as [Hs' Ha']. rewrite Hs', Ha'. auto.
  - auto.
Qed.

(** Whatever the network answers, [callTool] posts its one request, with
    the session identifier the instance holds, and leaves the instance as
    it was. *)
Lemma callTool_run JSON_parse (toolName arguments_ : value) (now : Z)
    (net : http_reply) (c : client) :
  sent (callTool JSON_parse toolName arguments_ now net c)
    = [tool_request c toolName arguments_ now] /\
  after (callTool JSON_parse toolName arguments_ now net c) = c.
Proof.
  unfold callTool.
  apply (one_post (fun c => tool_request c toolName arguments_ now)); quiet.
Qed.


Lemma listTools_run (net : http_reply) (c : client) :
  length (sent (listTools net c)) = 1%nat /\ after (listTools net c) = c.
Proof.
  unfold listTools.
  match goal with
  | |- context [try_catch (self ≫= ?k) ?h] =>
      match eval pattern c in (k c) with
      | _ => idtac
      end
  end.
  pose proof (one_post
    (fun c => {| req_url := baseUrl c;
                 req_body := Json (VObj [ ("jsonrpc", VStr "2.0"); ("id", VNum (ofZ 2));
                                          ("method", VStr "tools/list"); ("params", VObj []) ]);
                 req_headers := [ ("MCP-Session-ID", sessionId c) ] |})
    (fun _ response => lift (get (data response) "result"))
    (fun _ => throw (JsError "Failed to list MCP tools")) net c) as H.
  cbn zeta in H. destruct H as [Hs Ha]; [quiet|quiet|].
  split; [|exact Ha]. 
  etransitivity; [|exact (f_equal (@length _) Hs)]. reflexivity.
Qed.

Ltac run_method :=
  unfold try_catch, mbind, M_bind, bindM, self, post, lift, throw,
    set_sessionId, set_isAuthenticated, mret, M_ret, retM;
  cbn [outcome after sent];
  repeat match goal with
    | |- context [axios_post ?net] => destruct (axios_post net)
    | |- context [if ?b then _ else _] => destruct b eqn:?
    | |- context [match ?x with Ok _ => _ | Throw _ => _ | Unmodelled => _ end] =>
        destruct x eqn:?
    | _ => progress cbn [outcome after sent] in *
    | _ => discriminate
    end.

Lemma initialize_keeps_isAuthenticated (net : http_reply) (c : client) :
  isAuthenticated (after (initialize net c)) = isAuthenticated c.
Proof. unfold initialize. run_method; reflexivity. Qed.

Lemma authenticate_keeps_sessionId (phoneNumber : value) (net : http_reply) (c : client) :
  sessionId (after (authenticate phoneNumber net c)) = sessionId c.
Proof. unfold authenticate. run_method; reflexivity. Qed.

Lemma authenticate_isAuthenticated (phoneNumber : value) (net : http_reply) (c : client) :
  isAuthenticated (after (authenticate phoneNumber net c)) = true ->
  isAuthenticated c = true \/ outcome (authenticate phoneNumber net c) = Ok true.
Proof. unfold authenticate. run_method; cbn; auto. Qed.

Lemma authenticate_monotone (phoneNumber : value) (net : http_reply) (c : client) :
  isAuthenticated c = true ->
  isAuthenticated (after (authenticate phoneNumber net c)) = true.
Proof. unfold authenticate. run_method; cbn; auto. Qed.

(** C5, as amended.  On an instance whose [sessionId] is set,
    [authenticate] posts the login form once; a response with status 200,
    and no other, makes it return [true] and set [isAuthenticated]; with any
    other status it throws the error "MCP authentication failed" and leaves
    the instance as it was. *)
Theorem authenticate_succeeds_on_200_only (c : client) (phoneNumber : value)
    (sid phone : string) (st : Z) (hs : list (string * string)) (d : value) :
  truthy (sessionId c) = true ->
  ToString (sessionId c) = Ok sid ->
  ToString (phone_or_default phoneNumber) = Ok phone ->
  let r := authenticate phoneNumber (Response st hs d) c in
  sent r = [login_request c sid phone] /\
  (st = 200 ->
     outcome r = Ok true /\ isAuthenticated (after r) = true /\
     sessionId (after r) = sessionId c) /\
  (st <> 200 ->
     outcome r = Throw (JsError "MCP authentication failed") /\ after r = c).
Proof.
  intros Ht Hs Hp. cbn zeta. unfold authenticate.
  fold (phone_or_default phoneNumber).
  unfold try_catch, mbind, M_bind, bindM, self, post, lift, throw,
    set_isAuthenticated, mret, M_ret, retM.
  cbn [outcome after sent]. rewrite Ht. cbn [negb outcome after sent].
  rewrite Hs. cbn [outcome after sent]. rewrite Hp. cbn [outcome after sent].
  unfold axios_post.
  destruct ((200 <=? st) && (st <? 300)) eqn:E2; cbn [outcome after sent status].
  - destruct (st =? 200) eqn:E; cbn [outcome after sent app].
    + split; [reflexivity|]. split; [auto|]. intros Hne. lia.
    + split; [reflexivity|]. split; [intros ->; discriminate|]. auto.
  - split; [reflexivity|]. split; [intros ->; discriminate|]. auto.
Qed.

Lemma authenticate_succeeds_on_200_only_witness :
  let c := {| baseUrl := default_baseUrl; sessionId := VStr "session-1";
              isAuthenticated := false |} in
  (let r := authenticate VUndef (Response 200 [] VNull) c in
   outcome r = Ok true /\ isAuthenticated (after r) = true) /\
  (let r := authenticate VUndef (Response 401 [] VNull) c in
   outcome r = Throw (JsError "MCP authentication failed") /\ after r = c).
Proof.
  cbn zeta. split.
  - destruct (authenticate_succeeds_on_200_only
                {| baseUrl := default_baseUrl; sessionId := VStr "session-1";
                   isAuthenticated := false |}
                VUndef "session-1" "9999999999" 200 [] VNull
                eq_refl eq_refl eq_refl) as (_ & H & _).
    destruct (H eq_refl) as (Ho & Ha & _). split; assumption.
  - destruct (authenticate_succeeds_on_200_only
                {| baseUrl := default_baseUrl; sessionId := VStr "session-1";
                   isAuthenticated := false |}
                VUndef "session-1" "9999999999" 401 [] VNull
                eq_refl eq_refl eq_refl) as (_ & _ & H).
    apply H. lia.
Defined.

(** C5, as claimed, fails: a 204 response is a 2xx response, and
    [authenticate] throws on it; nor does the error tell a 401 from a 500. *)
Lemma authenticate_rejects_204 :
  let c := {| baseUrl := default_baseUrl; sessionId := VStr "session-1";
              isAuthenticated := false |} in
  outcome (authenticate VUndef (Response 204 [] VNull) c)
    = Throw (JsError "MCP authentication failed") /\
  isAuthenticated (after (authenticate VUndef (Response 204 [] VNull) c)) = false /\
  outcome (authenticate VUndef (Response 401 [] VNull) c)
    = outcome (authenticate VUndef (Response 500 [] VNull) c).
Proof. cbn zeta. repeat split; reflexivity. Qed.

(** C2: the code at the failing input.  On a fresh instance, with no
    session, [callTool] posts its request all the same, with a [null]
    session header, and returns what the server answers. *)
Theorem callTool_before_initialize JSON_parse (url : string)
    (toolName arguments_ : value) (now : Z) (net : http_reply) :
  let c := new_client url in
  sent (callTool JSON_parse toolName arguments_ now net c)
    = [tool_request c toolName arguments_ now] /\
  req_headers (tool_request c toolName arguments_ now) = [("MCP-Session-ID", VNull)] /\
  outcome (callTool JSON_parse toolName arguments_ now
             (Response 200 [] (VObj [("result", VObj [("content", VArr [])])])) c)
    = Ok (VObj [("content", VArr [])]).
Proof.
  cbn zeta. split; [apply callTool_run|]. split; reflexivity.
Qed.

(** The sibling [authenticate] does refuse to run without a session, and
    posts nothing. *)
Lemma authenticate_before_initialize (url : string) (phoneNumber : value)
    (net : http_reply) :
  let r := authenticate phoneNumber net (new_client url) in
  outcome r = Throw (JsError "MCP authentication failed") /\
  sent r = [] /\ after r = new_client url.
Proof. cbn zeta. repeat split; reflexivity. Qed.

Section Calls.

Variable JSON_parse : string -> result value.

Lemma exec_keeps_sessionId (c : client) (call : op * http_reply) :
  fst call <> Initialize ->
  sessionId (after (exec JSON_parse c call)) = sessionId c.
Proof.
  destruct call as [[| phoneNumber | | toolName arguments_ now] net];
    unfold exec, void; cbn [fst snd after]; intros H.
  - contradiction.
  - apply authenticate_keeps_sessionId.
  - f_equal. apply listTools_run.
  - f_equal. apply callTool_run.
Qed.

Lemma exec_isAuthenticated_monotone (c : client) (call : op * http_reply) :
  isAuthenticated c = true ->
  isAuthenticated (after (exec JSON_parse c call)) = true.
Proof.
  destruct call as [[| phoneNumber | | toolName arguments_ now] net];
    unfold exec, void; cbn [fst snd after]; intros H.
  - rewrite initialize_keeps_isAuthenticated. exact H.
  - apply authenticate_monotone. exact H.
  - rewrite (proj2 (listTools_run net c)). exact H.
  - rewrite (proj2 (callTool_run JSON_parse toolName arguments_ now net c)). exact H.
Qed.

Lemma exec_isAuthenticated_set (c : client) (call : op * http_reply) :
  isAuthenticated c = false ->
  isAuthenticated (after (exec JSON_parse c call)) = true ->
  exists phoneNumber,
    fst call = Authenticate phoneNumber /\
    returned (outcome (exec JSON_parse c call)) = true.
Proof.
  destruct call as [[| phoneNumber | | toolName arguments_ now] net];
    unfold exec, void; cbn [fst snd after outcome]; intros Hc H.
  - rewrite initialize_keeps_isAuthenticated in H. congruence.
  - exists phoneNumber. split; [reflexivity|].
    destruct (authenticate_isAuthenticated _ _ _ H) as [E|E]; [congruence|].
    rewrite E. reflexivity.
  - rewrite (proj2 (listTools_run net c)) in H. congruence.
  - rewrite (proj2 (callTool_run JSON_parse toolName arguments_ now net c)) in H.
    congruence.
Qed.

Lemma exec_all_snoc (c : client) (calls : list (op * http_reply)) (call : op * http_reply) :
  exec_all JSON_parse c (calls ++ [call])
    = after (exec JSON_parse (exec_all JSON_parse c calls) call).
Proof. unfold exec_all. rewrite foldl_app. reflexivity. Qed.

(** C6, as amended.  Over every sequence of calls, failed ones included:
    [isAuthenticated], once true, stays true; a call that turns it from
    false to true is an [authenticate] that returned; and a call other than
    [initialize] leaves [sessionId] as it was, so a sequence without
    [initialize] does. *)
Theorem session_fields_over_calls (c : client) (calls : list (op * http_reply)) :
  (isAuthenticated c = true ->
     isAuthenticated (exec_all JSON_parse c calls) = true) /\
  (forall call,
     isAuthenticated (exec_all JSON_parse c calls) = false ->
     isAuthenticated (exec_all JSON_parse c (calls ++ [call])) = true ->
     exists phoneNumber,
       fst call = Authenticate phoneNumber /\
       returned (outcome (exec JSON_parse (exec_all JSON_parse c calls) call)) = true) /\
  (Forall (fun call => fst call <> Initialize) calls ->
     sessionId (exec_all JSON_parse c calls) = sessionId c).
Proof.
  split; [|split].
  - revert c. induction calls as [|call calls IH]; intros c H; [exact H|].
    apply IH. apply exec_isAuthenticated_monotone. exact H.
  - intros call Hf Ht. rewrite exec_all_snoc in Ht.
    apply exec_isAuthenticated_set; assumption.
  - revert c. induction calls as [|call calls IH]; intros c H; [reflexivity|].
    inversion H as [|? ? Hcall Hrest]; subst.
    change (exec_all JSON_parse c (call :: calls))
      with (exec_all JSON_parse (after (exec JSON_parse c call)) calls).
    rewrite IH by exact Hrest. apply exec_keeps_sessionId. exact Hcall.
Qed.

End Calls.

Lemma session_fields_over_calls_witness :
  let parse := fun _ : string => Throw (SyntaxError "Unexpected token") in
  let c := {| baseUrl := default_baseUrl; sessionId := VStr "session-1";
              isAuthenticated := false |} in
  let login := (Authenticate VUndef, Response 200 [] VNull) in
  let call := (CallTool (VStr "fetch_net_worth") VUndef 1700000000000,
               Response 500 [] VNull) in
  isAuthenticated (exec_all parse (exec_all parse c [login]) [call; login]) = true /\
  (exists phoneNumber,
     fst login = Authenticate phoneNumber /\
     returned (outcome (exec parse (exec_all parse c [call]) login)) = true) /\
  sessionId (exec_all parse c [call; login; call]) = sessionId c.
Proof.
  cbn zeta. split; [|split].
  - apply (proj1 (session_fields_over_calls _ _ _)). reflexivity.
  - apply (proj1 (proj2 (session_fields_over_calls _ _ _))); reflexivity.
  - apply (proj2 (proj2 (session_fields_over_calls _ _ _))).
    repeat constructor; discriminate.
Defined.

(** C6, as claimed, fails: a second [initialize] replaces the session
    identifier, and one that gets no identifier erases it. *)
Lemma initialize_replaces_sessionId :
  let first := initialize (Response 200 [("mcp-session-id", "session-A")] VNull)
                          (new_client default_baseUrl) in
  let second := initialize (Response 200 [("mcp-session-id", "session-B")] VNull)
                           (after first) in
  let third := initialize (Response 200 [] VNull) (after first) in
  sessionId (after first) = VStr "session-A" /\
  sessionId (after second) = VStr "session-B" /\
  sessionId (after third) = VUndef /\
  sessionId (after second) <> sessionId (after first).
Proof. cbn zeta. repeat split; try reflexivity. discriminate. Qed.


Lemma outcome_lift_bind {A B} (r : result A) (k : A -> M B) (net : http_reply) (c : client) :
  outcome ((lift r ≫= k) net c) =
    match r with
    | Ok a => outcome (k a net c)
    | Throw e => Throw e
    | Unmodelled => Unmodelled
    end.
Proof. destruct r; reflexivity. Qed.


Lemma positive_length (item : value) (rest : list value) :
  positive (VNum (ofZ (Z.of_nat (length (item :: rest))))) = Ok true.
Proof.
  unfold positive, ToNumber, mbind, result_bind, bind. f_equal.
  unfold gtb, Num.ltb, zero, ofZ. apply NumFacts.Qc_ltb_lt.
  unfold Qclt. cbn [this Q2Qc]. rewrite !Qred_correct.
  unfold Qlt. cbn [Qnum Qden inject_Z length]. lia.
Qed.



(** ** The normalizers *)

Lemma get_opt_ok (v : value) (k : string) : get_opt v k = Ok (opt v k).
Proof.
  unfold get_opt, opt. destruct (nullish v) eqn:E; [reflexivity|].
  apply prop_get. exact E.
Qed.

Lemma truthy_not_nullish (v : value) : truthy v = true -> nullish v = false.
Proof. destruct v; cbn; congruence. Qed.

(** The guard [!response || !response.k] of the normalizers. *)
Lemma guarded_get (v : value) (k : string) :
  (if truthy v then get v k else Ok VUndef)
    = Ok (if truthy v then prop v k else VUndef).
Proof.
  destruct (truthy v) eqn:E; [|reflexivity].
  apply prop_get, truthy_not_nullish, E.
Qed.

Lemma guarded_get_falsy (v : value) (k : string) :
  truthy (prop v k) = false ->
  truthy (if truthy v then prop v k else VUndef) = false.
Proof. intros H. destruct (truthy v); [exact H|reflexivity]. Qed.

Lemma guarded_get_truthy (v : value) (k : string) :
  truthy (prop v k) = true ->
  (if truthy v then prop v k else VUndef) = prop v k.
Proof.
  intros H. destruct (truthy v) eqn:E; [reflexivity|].
  destruct v; cbn in *; try discriminate.
  destruct (String.eqb k "length"); cbn in *; [|discriminate].
  destruct s; cbn in *; discriminate.
Qed.

(** With the top-level container absent, each normalizer returns its
    zeroed record and a reason, and throws nothing. *)
Lemma processNetWorthData_no_data (response : value) :
  truthy (prop response "netWorthResponse") = false ->
  processNetWorthData response =
    Ok {| totalNetWorth := zero; formattedTotalNetWorth := None;
          currency := VStr "INR"; assets := [];
          mutualFunds := None; accountDetails := None;
          nw_error := Some "No net worth data available" |}.
Proof.
  intros H. unfold processNetWorthData. rewrite guarded_get.
  unfold mbind, result_bind, bind. cbv beta iota.
  rewrite guarded_get_falsy by exact H. reflexivity.
Qed.

Lemma processMFTransactions_no_data (response : value) :
  truthy (prop response "mfTransactions") = false ->
  processMFTransactions response =
    Ok {| mf_transactions := []; schemes := ∅; mf_totalTransactions := None;
          mf_error := Some "No transaction data available" |}.
Proof.
  intros H. unfold processMFTransactions. rewrite guarded_get.
  unfold mbind, result_bind, bind. cbv beta iota.
  rewrite guarded_get_falsy by exact H. reflexivity.
Qed.

Lemma processBankTransactions_no_data (response : value) :
  truthy (prop response "bankTransactions") = false ->
  processBankTransactions response =
    Ok {| bank_transactions := []; banks := ∅; bank_totalTransactions := None;
          bank_error := Some "No bank transaction data available" |}.
Proof.
  intros H. unfold processBankTransactions. rewrite guarded_get.
  unfold mbind, result_bind, bind. cbv beta iota.
  rewrite guarded_get_falsy by exact H. reflexivity.
Qed.

Lemma processCreditData_no_data (response : value) :
  truthy (prop response "creditReports") = false \/
  prop response "creditReports" = VArr [] ->
  processCreditData response =
    Ok {| creditScore := None; accounts := [];
          totalAccounts := None; activeAccounts := None;
          outstandingBalance := None;
          credit_error := Some "No credit data available" |}.
Proof.
  intros H. unfold processCreditData. rewrite guarded_get.
  unfold mbind, result_bind, bind. cbv beta iota. rewrite guarded_get.
  cbv beta iota. destruct H as [H|H].
  - rewrite guarded_get_falsy by exact H. reflexivity.
  - rewrite guarded_get_truthy by (rewrite H; reflexivity). rewrite H. reflexivity.
Qed.

Lemma processEPFData_no_data (response : value) :
  truthy (prop response "uanAccounts") = false \/
  prop response "uanAccounts" = VArr [] ->
  processEPFData response =
    Ok {| totalBalance := zero; employeeShare := zero; employerShare := zero;
          pensionBalance := None; employerDetails := None;
          epf_error := Some "No EPF data available" |}.
Proof.
  intros H. unfold processEPFData. rewrite guarded_get.
  unfold mbind, result_bind, bind. cbv beta iota. rewrite guarded_get.
  cbv beta iota. destruct H as [H|H].
  - rewrite guarded_get_falsy by exact H. reflexivity.
  - rewrite guarded_get_truthy by (rewrite H; reflexivity). rewrite H. reflexivity.
Qed.

(** C3: the code at the failing inputs.  A scheme record or a bank record
    without its [txns] list, and a first credit report without its
    [creditReportData], make the normalizer throw a [TypeError]; so does a
    first retirement account without its [rawDetails]. *)
Theorem normalizers_throw_on_missing_inner_container :
  processMFTransactions
    (VObj [("mfTransactions",
            VArr [VObj [("isin", VStr "INF209K01157"); ("schemeName", VStr "Equity Fund")]])])
    = Throw (TypeError "Cannot read properties of undefined (reading 'forEach')") /\
  processBankTransactions
    (VObj [("bankTransactions", VArr [VObj [("bank", VStr "HDFC Bank")]])])
    = Throw (TypeError "Cannot read properties of undefined (reading 'forEach')") /\
  processCreditData (VObj [("creditReports", VArr [VObj []])])
    = Throw (TypeError "Cannot read properties of undefined (reading 'score')") /\
  processEPFData (VObj [("uanAccounts", VArr [VObj []])])
    = Throw (TypeError "Cannot read properties of undefined (reading 'overall_pf_balance')").
Proof. repeat split; reflexivity. Qed.

(** *** Retirement fund *)

Lemma add_employer_balance_ok (sum : num) (est : value) :
  add_employer_balance sum est = Ok (add sum (employer_balance est)).
Proof.
  unfold add_employer_balance, employer_balance.
  rewrite get_opt_ok. unfold mbind, result_bind, bind. cbv beta iota.
  rewrite get_opt_ok. cbv beta iota. rewrite get_opt_ok. reflexivity.
Qed.

Lemma reduce_employer_balance (items : list value) (acc : num) :
  foldM add_employer_balance items acc
    = Ok (add acc (sum (map employer_balance items))).
Proof.
  revert acc. induction items as [|est items IH]; intros acc.
  - cbn. rewrite NumFacts.add_zero_r. reflexivity.
  - cbn [foldM]. rewrite add_employer_balance_ok.
    unfold mbind, result_bind, bind. cbv beta iota. rewrite IH.
    change (sum (map employer_balance (est :: items)))
      with (add (employer_balance est) (sum (map employer_balance items))).
    rewrite NumFacts.add_assoc. reflexivity.
Qed.

Lemma is_zero_length (item : value) (rest : list value) :
  is_zero (VNum (ofZ (Z.of_nat (length (item :: rest))))) = false.
Proof.
  unfold is_zero, Num.eqb, zero, ofZ. apply NumFacts.Qc_eqb_neq.
  apply NumFacts.inject_pos_neq. cbn [length]. lia.
Qed.

Lemma get_array_field (response : value) (k : string) (items : list value) :
  String.eqb k "length" = false ->
  get response k = Ok (VArr items) -> truthy response = true.
Proof.
  intros Hk H. destruct response; cbn in H; try discriminate; try reflexivity.
  - rewrite Hk in H. discriminate.
Qed.






(** *** Bank transactions *)

Lemma bind_Ok {A B} (m : result A) (k : A -> result B) (b : B) :
  m ≫= k = Ok b -> exists a, m = Ok a /\ k a = Ok b.
Proof.
  destruct m as [a| |]; cbn; intros H; try discriminate. exists a. auto.
Qed.


Lemma mapM_Forall2 {A B} (f : A -> result B) (l : list A) (l' : list B) :
  mapM f l = Ok l' -> Forall2 (fun x y => f x = Ok y) l l'.
Proof.
  revert l'. induction l as [|x l IH]; intros l' H.
  - injection H as <-. constructor.
  - cbn [mapM] in H. apply bind_Ok in H. destruct H as (y & Hy & H).
    apply bind_Ok in H. destruct H as (ys & Hys & H). injection H as <-.
    constructor; [exact Hy|]. apply IH. exact Hys.
Qed.


Lemma get_Ok_prop (v : value) (k : string) (x : value) :
  get v k = Ok x -> nullish v = false /\ prop v k = x.
Proof.
  intros H. unfold prop. rewrite H. split; [|reflexivity].
  destruct v; cbn in *; try discriminate; reflexivity.
Qed.

Lemma as_array_Ok (v : value) (method : string) (items : list value) :
  as_array v method = Ok items -> v = VArr items.
Proof. destruct v; cbn; intros H; try discriminate. congruence. Qed.


Lemma guarded_truthy (v : value) (k : string) :
  truthy (if truthy v then prop v k else VUndef) = truthy (prop v k).
Proof.
  destruct (truthy (prop v k)) eqn:E.
  - rewrite guarded_get_truthy by exact E. exact E.
  - apply guarded_get_falsy. exact E.
Qed.



Lemma entry_of_Ok {A} (acc : gmap string A) (k : string) (fresh entry : A) :
  entry_of acc k fresh = Ok entry ->
  acc !! k = Some entry \/ (acc !! k = None /\ entry = fresh).
Proof.
  unfold entry_of. destruct (acc !! k) as [a|].
  - intros H. left. congruence.
  - destruct (inherited k); intros H; [discriminate|]. right. split; congruence.
Qed.

Lemma of_bank_own (k : string) (tx : BankTransaction) :
  ToString (bt_bank tx) = Ok k -> of_bank k tx = true.
Proof. unfold of_bank. intros ->. apply String.eqb_refl. Qed.

Lemma of_bank_other (k k' : string) (tx : BankTransaction) :
  ToString (bt_bank tx) = Ok k -> k <> k' -> of_bank k' tx = false.
Proof. unfold of_bank. intros -> H. apply String.eqb_neq. exact H. Qed.

Lemma filter_snoc {A} (f : A -> bool) (l : list A) (x : A) :
  List.filter f (l ++ [x]) = List.filter f l ++ (if f x then [x] else []).
Proof. rewrite List.filter_app. cbn. destruct (f x); reflexivity. Qed.

(** One more transaction of the bank under [k]: its aggregate goes on
    satisfying [bank_aggregate_ok]. *)
Lemma bank_aggregate_step (seen : list BankTransaction) (k : string)
    (tx : BankTransaction) (bank0 : value) (old : list BankTransaction)
    (credits debits balance : num) :
  of_bank k tx = true ->
  old = List.filter (of_bank k) seen ->
  le zero balance ->
  (forall tx', In tx' old -> bt_balance tx' <> NaN -> le (bt_balance tx') balance) ->
  (balance = zero \/ exists tx', In tx' old /\ balance = bt_balance tx') ->
  bank_aggregate_ok (seen ++ [tx]) k
    {| ba_bank := bank0; ba_transactions := old ++ [tx];
       totalCredits := credits; totalDebits := debits;
       currentBalance := if gtb (bt_balance tx) balance then bt_balance tx else balance |}.
Proof.
  intros Hk Hold Hz Hub Hatt. unfold bank_aggregate_ok.
  cbn [ba_transactions currentBalance].
  destruct (NumFacts.le_not_nan _ _ Hz) as [_ Hb].
  split; [|split; [|split; [|split]]].
  - rewrite filter_snoc, Hk, Hold. reflexivity.
  - destruct old; discriminate.
  - destruct (gtb (bt_balance tx) balance) eqn:E; [|exact Hz].
    apply NumFacts.le_trans with balance; [exact Hz|]. apply NumFacts.gtb_true, E.
  - intros tx' Hin Hnan. apply in_app_or in Hin. destruct Hin as [Hin|[<-|[]]].
    + destruct (gtb (bt_balance tx) balance) eqn:E; [|auto].
      apply NumFacts.le_trans with balance; [auto|]. apply NumFacts.gtb_true, E.
    + destruct (gtb (bt_balance tx) balance) eqn:E.
      * apply NumFacts.le_refl. exact Hnan.
      * apply NumFacts.gtb_false; assumption.
  - destruct (gtb (bt_balance tx) balance) eqn:E.
    + right. exists tx. split; [|reflexivity]. apply in_or_app. right. left. reflexivity.
    + destruct Hatt as [Hatt|(tx' & Hin & Hatt)]; [left; exact Hatt|].
      right. exists tx'. split; [|exact Hatt]. apply in_or_app. left. exact Hin.
Qed.

Lemma bank_group_invariant (seen : list BankTransaction)
    (acc acc' : gmap string BankAggregate) (tx : BankTransaction) :
  bank_invariant seen acc ->
  bank_group acc tx = Ok acc' ->
  bank_invariant (seen ++ [tx]) acc'.
Proof.
  intros Hinv Hstep. unfold bank_group in Hstep.
  apply bind_Ok in Hstep. destruct Hstep as (k0 & Hkey & Hstep).
  apply bind_Ok in Hstep. destruct Hstep as (entry & Hentry & Hstep).
  injection Hstep as <-. intros k. destruct (decide (k0 = k)) as [<-|Hne].
  - rewrite lookup_insert_eq. specialize (Hinv k0).
    apply entry_of_Ok in Hentry. destruct Hentry as [Hsome|[Hnone ->]].
    + rewrite Hsome in Hinv. destruct Hinv as (Hold & _ & Hz & Hub & Hatt).
      apply bank_aggregate_step; auto using of_bank_own.
    + rewrite Hnone in Hinv. cbn [ba_bank ba_transactions totalCredits totalDebits currentBalance].
      apply bank_aggregate_step; auto using of_bank_own.
      * apply NumFacts.le_zero_zero.
      * intros tx' [].
  - rewrite lookup_insert_ne by exact Hne. specialize (Hinv k).
    assert (Hf : List.filter (of_bank k) (seen ++ [tx]) = List.filter (of_bank k) seen).
    { rewrite filter_snoc, (of_bank_other k0 k tx Hkey Hne). apply app_nil_r. }
    destruct (acc !! k) as [agg|]; [|rewrite Hf; exact Hinv].
    unfold bank_aggregate_ok in *. rewrite Hf. exact Hinv.
Qed.

Lemma bank_fold_invariant (txs seen : list BankTransaction)
    (acc acc' : gmap string BankAggregate) :
  bank_invariant seen acc ->
  foldM bank_group txs acc = Ok acc' ->
  bank_invariant (seen ++ txs) acc'.
Proof.
  revert seen acc. induction txs as [|tx txs IH]; intros seen acc Hinv Hfold.
  - cbn in Hfold. injection Hfold as <-. rewrite app_nil_r. exact Hinv.
  - cbn [foldM] in Hfold. apply bind_Ok in Hfold.
    destruct Hfold as (acc1 & Hstep & Hfold).
    replace (seen ++ tx :: txs) with ((seen ++ [tx]) ++ txs)
      by (rewrite <- app_assoc; reflexivity).
    apply (IH _ acc1); [|exact Hfold].
    apply (bank_group_invariant seen acc); assumption.
Qed.

Lemma bank_invariant_empty : bank_invariant [] ∅.
Proof. intros k. rewrite lookup_empty. reflexivity. Qed.


(** **** Payloads of the documented shape are normalized *)









(** *** Mutual-fund transactions *)

Lemma of_scheme_own (k : string) (tx : FundTransaction) :
  ToString (ft_isin tx) = Ok k -> of_scheme k tx = true.
Proof. unfold of_scheme. intros ->. apply String.eqb_refl. Qed.

Lemma of_scheme_other (k k' : string) (tx : FundTransaction) :
  ToString (ft_isin tx) = Ok k -> k <> k' -> of_scheme k' tx = false.
Proof. unfold of_scheme. intros -> H. apply String.eqb_neq. exact H. Qed.

Lemma total_snoc (field : FundTransaction -> value) (label : order_label)
    (txs : list FundTransaction) (tx : FundTransaction) :
  total field label (txs ++ [tx]) =
    if has_label label tx then add (total field label txs) (numeric (field tx))
    else total field label txs.
Proof.
  unfold total. rewrite filter_snoc. destruct (has_label label tx).
  - rewrite map_app. cbn [map]. apply NumFacts.sum_snoc.
  - rewrite app_nil_r. reflexivity.
Qed.

Lemma net_nil (field : FundTransaction -> value) : net field [] = zero.
Proof. apply NumFacts.sub_zero_zero. Qed.

Lemma net_snoc_buy (field : FundTransaction -> value)
    (txs : list FundTransaction) (tx : FundTransaction) :
  ft_type tx = BUY ->
  net field (txs ++ [tx]) = add (net field txs) (numeric (field tx)).
Proof.
  intros H. unfold net. rewrite !total_snoc. unfold has_label. rewrite H.
  symmetry. apply NumFacts.sub_add_l.
Qed.

Lemma net_snoc_sell (field : FundTransaction -> value)
    (txs : list FundTransaction) (tx : FundTransaction) :
  ft_type tx = SELL ->
  net field (txs ++ [tx]) = sub (net field txs) (numeric (field tx)).
Proof.
  intros H. unfold net. rewrite !total_snoc. unfold has_label. rewrite H.
  symmetry. apply NumFacts.sub_add_r.
Qed.

Lemma add_assign_Ok (acc : num) (v : value) (n : num) :
  add_assign acc v = Ok n -> n = add acc (numeric v).
Proof.
  unfold add_assign, numeric. intros H. apply bind_Ok in H.
  destruct H as (m & -> & H). congruence.
Qed.

Lemma sub_assign_Ok (acc : num) (v : value) (n : num) :
  sub_assign acc v = Ok n -> n = sub acc (numeric v).
Proof.
  unfold sub_assign, numeric. intros H. apply bind_Ok in H.
  destruct H as (m & -> & H). congruence.
Qed.

(** One more transaction of the scheme under [k]. *)
Lemma scheme_aggregate_step (seen : list FundTransaction) (k : string)
    (tx : FundTransaction) (isin name : value) (old : list FundTransaction)
    (invested units invested' units' : num) :
  of_scheme k tx = true ->
  old = List.filter (of_scheme k) seen ->
  invested = net ft_amount old ->
  units = net ft_units old ->
  match ft_type tx with
  | BUY =>
      i ← add_assign invested (ft_amount tx);
      u ← add_assign units (ft_units tx); Ok (i, u)
  | SELL =>
      i ← sub_assign invested (ft_amount tx);
      u ← sub_assign units (ft_units tx); Ok (i, u)
  end = Ok (invested', units') ->
  scheme_aggregate_ok (seen ++ [tx]) k
    {| fs_isin := isin; fs_schemeName := name; fs_transactions := old ++ [tx];
       totalInvested := invested'; totalUnits := units' |}.
Proof.
  intros Hk Hold Hi Hu Htotals. unfold scheme_aggregate_ok.
  cbn [fs_transactions totalInvested totalUnits].
  split; [rewrite filter_snoc, Hk, Hold; reflexivity|].
  destruct (ft_type tx) eqn:Et;
    apply bind_Ok in Htotals; destruct Htotals as (i & Hi' & Htotals);
    apply bind_Ok in Htotals; destruct Htotals as (u & Hu' & Htotals);
    injection Htotals as <- <-.
  - apply add_assign_Ok in Hi', Hu'. subst.
    rewrite !net_snoc_buy by exact Et. split; reflexivity.
  - apply sub_assign_Ok in Hi', Hu'. subst.
    rewrite !net_snoc_sell by exact Et. split; reflexivity.
Qed.

Lemma mf_group_invariant (seen : list FundTransaction)
    (acc acc' : gmap string FundSchemeAggregate) (tx : FundTransaction) :
  scheme_invariant seen acc ->
  mf_group acc tx = Ok acc' ->
  scheme_invariant (seen ++ [tx]) acc'.
Proof.
  intros Hinv Hstep. unfold mf_group in Hstep.
  apply bind_Ok in Hstep. destruct Hstep as (k0 & Hkey & Hstep).
  apply bind_Ok in Hstep. destruct Hstep as (entry & Hentry & Hstep).
  apply bind_Ok in Hstep. destruct Hstep as ([invested' units'] & Htotals & Hstep).
  injection Hstep as <-. cbn [fst snd].
  intros k. destruct (decide (k0 = k)) as [<-|Hne].
  - rewrite lookup_insert_eq. specialize (Hinv k0).
    apply entry_of_Ok in Hentry. destruct Hentry as [Hsome|[Hnone ->]].
    + rewrite Hsome in Hinv. destruct Hinv as (Hold & Hi & Hu).
      apply (scheme_aggregate_step seen k0 tx _ _ _
               (totalInvested entry) (totalUnits entry));
        [apply of_scheme_own; exact Hkey|exact Hold|exact Hi|exact Hu|exact Htotals].
    + rewrite Hnone in Hinv.
      cbn [fs_isin fs_schemeName fs_transactions totalInvested totalUnits] in *.
      apply (scheme_aggregate_step seen k0 tx _ _ _ zero zero);
        [apply of_scheme_own; exact Hkey|symmetry; exact Hinv
        |symmetry; apply net_nil|symmetry; apply net_nil|exact Htotals].
  - rewrite lookup_insert_ne by exact Hne. specialize (Hinv k).
    assert (Hf : List.filter (of_scheme k) (seen ++ [tx]) = List.filter (of_scheme k) seen).
    { rewrite filter_snoc, (of_scheme_other k0 k tx Hkey Hne). apply app_nil_r. }
    destruct (acc !! k) as [agg|]; [|rewrite Hf; exact Hinv].
    unfold scheme_aggregate_ok in *. rewrite Hf. exact Hinv.
Qed.

Lemma mf_fold_invariant (txs seen : list FundTransaction)
    (acc acc' : gmap string FundSchemeAggregate) :
  scheme_invariant seen acc ->
  foldM mf_group txs acc = Ok acc' ->
  scheme_invariant (seen ++ txs) acc'.
Proof.
  revert seen acc. induction txs as [|tx txs IH]; intros seen acc Hinv Hfold.
  - cbn in Hfold. injection Hfold as <-. rewrite app_nil_r. exact Hinv.
  - cbn [foldM] in Hfold. apply bind_Ok in Hfold.
    destruct Hfold as (acc1 & Hstep & Hfold).
    replace (seen ++ tx :: txs) with ((seen ++ [tx]) ++ txs)
      by (rewrite <- app_assoc; reflexivity).
    apply (IH _ acc1); [|exact Hfold].
    apply (mf_group_invariant seen acc); assumption.
Qed.

Lemma scheme_invariant_empty : scheme_invariant [] ∅.
Proof. intros k. rewrite lookup_empty. reflexivity. Qed.

Lemma mf_transaction_labelled (scheme txn : value) (tx : FundTransaction) :
  mf_transaction scheme txn = Ok tx -> labelled scheme txn tx.
Proof.
  unfold mf_transaction. intros H.
  apply bind_Ok in H. destruct H as (t & Ht & H).
  apply bind_Ok in H. destruct H as (isin & Hisin & H).
  apply bind_Ok in H. destruct H as (folio & Hfolio & H).
  apply bind_Ok in H. destruct H as (name & Hname & H).
  apply get_Ok_prop in Hisin, Hfolio, Hname.
  destruct Hisin as [_ <-], Hfolio as [_ <-], Hname as [_ <-].
  injection H as <-. exists t. split; [exact Ht|reflexivity].
Qed.

Lemma mf_scheme_transactions_Ok (scheme : value) (txs : list FundTransaction) :
  mf_scheme_transactions scheme = Ok txs ->
  exists tuples,
    prop scheme "txns" = VArr tuples /\ Forall2 (labelled scheme) tuples txs.
Proof.
  unfold mf_scheme_transactions. intros H.
  apply bind_Ok in H. destruct H as (txns & Htxns & H).
  apply bind_Ok in H. destruct H as (items & Hitems & H).
  apply get_Ok_prop in Htxns. destruct Htxns as [_ <-].
  apply as_array_Ok in Hitems.
  exists items. split; [exact Hitems|].
  apply mapM_Forall2 in H. eapply Forall2_impl; [exact H|].
  intros txn tx. apply mf_transaction_labelled.
Qed.

(** What [processMFTransactions] returns: the record without data, or the
    flattened transactions and their grouping. *)
Lemma processMFTransactions_Ok (response : value) (r : MFTransactions) :
  processMFTransactions response = Ok r ->
  (truthy (prop response "mfTransactions") = false /\
   schemes r = ∅ /\ mf_transactions r = []) \/
  (truthy (prop response "mfTransactions") = true /\
   flattened response (mf_transactions r) /\
   foldM mf_group (mf_transactions r) ∅ = Ok (schemes r)).
Proof.
  unfold processMFTransactions. rewrite guarded_get.
  unfold mbind at 1. unfold result_bind at 1. unfold bind at 1. cbv beta iota.
  rewrite guarded_truthy.
  destruct (truthy (prop response "mfTransactions")) eqn:Et; cbn [negb]; intros H.
  - right. split; [reflexivity|].
    rewrite guarded_get_truthy in H by exact Et.
    apply bind_Ok in H. destruct H as (schemeList & Hlist & H).
    apply bind_Ok in H. destruct H as (perScheme & Hper & H).
    apply bind_Ok in H. destruct H as (grouped & Hfold & H).
    injection H as <-. cbn [mf_transactions schemes]. split; [|exact Hfold].
    apply as_array_Ok in Hlist.
    exists schemeList, perScheme. split; [exact Hlist|]. split; [|reflexivity].
    apply mapM_Forall2 in Hper. eapply Forall2_impl; [exact Hper|].
    intros scheme txs. apply mf_scheme_transactions_Ok.
  - left. injection H as <-. auto.
Qed.


(** **** Payloads of the documented shape are normalized *)









(** * Further properties of the sources *)

(** ** Currency helpers *)


(** *** Decimal text of an integer reads back as that integer *)

Lemma digit_of_pretty_N_char (m : N) :
  (m < 10)%N -> digit_of (pretty_N_char m) = Some (Z.of_N m).
Proof.
  intros H.
  assert (m = 0 \/ m = 1 \/ m = 2 \/ m = 3 \/ m = 4 \/ m = 5 \/ m = 6 \/ m = 7
          \/ m = 8 \/ m = 9)%N as Hm by lia.
  repeat destruct Hm as [->|Hm]; try subst m; reflexivity.
Qed.

Lemma digits_pretty_N_go (x : N) :
  exists k : nat,
    ((0 < x)%N -> (0 < k)%nat) /\
    forall s acc count,
      digits (pretty_N_go x s) acc count
        = digits s (acc * 10 ^ Z.of_nat k + Z.of_N x) (count + k)%nat.
Proof.
  induction (N.lt_wf_0 x) as [x _ IH].
  assert (x = 0 \/ 0 < x)%N as [->|Hx] by lia.
  - exists 0%nat. split; [lia|]. intros s acc count.
    rewrite pretty_N_go_0, Nat.add_0_r. f_equal. cbn. lia.
  - destruct (IH (x `div` 10)%N) as (k & _ & Hk); [apply N.div_lt; [exact Hx|reflexivity]|].
    exists (S k). split; [lia|]. intros s acc count.
    rewrite pretty_N_go_step by exact Hx. rewrite Hk. cbn [digits].
    rewrite digit_of_pretty_N_char by (apply N.mod_lt; lia).
    replace (count + S k)%nat with (S (count + k)) by lia. f_equal.
    rewrite Nat2Z.inj_succ, Z.pow_succ_r by lia.
    rewrite (N.div_mod x 10) at 3 by lia.
    rewrite N2Z.inj_add, N2Z.inj_mul. change (Z.of_N 10) with 10. ring.
Qed.

Lemma pretty_N_go_head (x : N) (s : string) :
  (0 < x)%N ->
  exists m r, (m < 10)%N /\ pretty_N_go x s = String (pretty_N_char m) r.
Proof.
  revert s. induction (N.lt_wf_0 x) as [x _ IH]. intros s Hx.
  rewrite pretty_N_go_step by exact Hx.
  destruct (N.eq_0_gt_0_cases (x `div` 10)) as [E|E].
  - rewrite E, pretty_N_go_0. exists (x `mod` 10)%N, s.
    split; [apply N.mod_lt; lia|reflexivity].
  - apply IH; [apply N.div_lt; [exact Hx|reflexivity]|exact E].
Qed.



Lemma pretty_Z_nonempty (z : Z) : String.eqb (pretty z) "" = false.
Proof.
  destruct z as [|p|p]; try reflexivity.
  unfold pretty, pretty_Z, pretty, pretty_positive, pretty, pretty_N.
  destruct (decide (N.pos p = 0%N)); [reflexivity|].
  destruct (pretty_N_go_head (N.pos p) "" ltac:(lia)) as (m & r & _ & ->).
  reflexivity.
Qed.






(** ** Bank type codes *)

Lemma this_inject_Z (z : Z) : this (Q2Qc (inject_Z z)) = inject_Z z.
Proof.
  cbn [this Q2Qc]. apply Qred_identity. cbn. apply Z.gcd_1_r.
Qed.

Lemma ToString_integer (z : Z) :
  Z.abs z < 10 ^ 21 -> ToString (VNum (ofZ z)) = Ok (pretty z).
Proof.
  intros H. cbn [ToString]. unfold ofZ, number_to_string.
  rewrite this_inject_Z. cbn [Qden Qnum inject_Z Pos.eqb andb].
  apply Z.ltb_lt in H. rewrite H. reflexivity.
Qed.

Lemma pretty_Z_head (z : Z) :
  exists c r,
    pretty z = String c r /\
    (c = "-"%char \/ exists m, (m < 10)%N /\ c = pretty_N_char m).
Proof.
  destruct z as [|p|p].
  - exists "0"%char, EmptyString. split; [reflexivity|]. right. exists 0%N. split; [lia|reflexivity].
  - unfold pretty, pretty_Z, pretty, pretty_positive, pretty, pretty_N.
    destruct (decide (N.pos p = 0%N)); [discriminate|].
    destruct (pretty_N_go_head (N.pos p) "" ltac:(lia)) as (m & r & Hm & ->).
    exists (pretty_N_char m), r. split; [reflexivity|]. right. exists m. auto.
  - exists "-"%char, (pretty p). split; [reflexivity|]. left. reflexivity.
Qed.

(** The text of an integer names no property inherited from
    [Object.prototype]. *)
Lemma pretty_Z_not_inherited (z : Z) : inherited (pretty z) = false.
Proof.
  destruct (pretty_Z_head z) as (c & r & -> & [->|(m & Hm & ->)]).
  - reflexivity.
  - assert (m = 0 \/ m = 1 \/ m = 2 \/ m = 3 \/ m = 4 \/ m = 5 \/ m = 6 \/ m = 7
            \/ m = 8 \/ m = 9)%N as Hcases by lia.
    repeat destruct Hcases as [->|Hcases]; try subst m; reflexivity.
Qed.

Lemma pretty_Z_eqb (i z : Z) : i <> z -> String.eqb (pretty i) (pretty z) = false.
Proof.
  intros H. apply String.eqb_neq. intros E. apply H.
  apply (inj pretty). exact E.
Qed.

Lemma types_lookup (z : Z) :
  match List.find (fun e => String.eqb (fst e) (pretty z)) types with
  | Some e => snd e
  | None => if inherited (pretty z) then Inherited (pretty z) else UNKNOWN
  end = label_of_code z.
Proof.
  destruct (decide (1 <= z <= 8)) as [H|H].
  - assert (z = 1 \/ z = 2 \/ z = 3 \/ z = 4 \/ z = 5 \/ z = 6 \/ z = 7 \/ z = 8)
      as Hcases by lia.
    repeat destruct Hcases as [->|Hcases]; try subst z; reflexivity.
  - unfold types. cbn [List.find fst].
    change "1"%string with (pretty 1). change "2"%string with (pretty 2).
    change "3"%string with (pretty 3). change "4"%string with (pretty 4).
    change "5"%string with (pretty 5). change "6"%string with (pretty 6).
    change "7"%string with (pretty 7). change "8"%string with (pretty 8).
    rewrite !pretty_Z_eqb by lia. rewrite pretty_Z_not_inherited.
    destruct z as [|p|p]; try reflexivity.
    do 4 (try match goal with
              | q : BinNums.positive |- _ => destruct q
              end; try reflexivity; try lia).
Qed.

(** X3.  The type codes 1 to 8, as numbers or as decimal text, map to CREDIT,
    DEBIT, OPENING, INTEREST, TDS, INSTALLMENT, CLOSING and OTHERS in that
    order, and every other integer code maps to UNKNOWN.  A code that names
    a property every object inherits is not caught by the default: it maps
    to that inherited property, not to UNKNOWN. *)
Theorem getTransactionType_table :
  (forall z, Z.abs z < 10 ^ 21 ->
     getTransactionType (VNum (ofZ z)) = Ok (label_of_code z)) /\
  (forall z, getTransactionType (VStr (pretty z)) = Ok (label_of_code z)) /\
  (forall name, inherited name = true ->
     getTransactionType (VStr name) = Ok (Inherited name)).
Proof.
  split; [|split].
  - intros z Hz. unfold getTransactionType. rewrite ToString_integer by exact Hz.
    unfold mbind, result_bind, bind. cbv beta iota.
    pose proof (types_lookup z) as H.
    destruct (List.find _ types); rewrite <- H; reflexivity.
  - intros z. unfold getTransactionType. cbn [ToString].
    unfold mbind, result_bind, bind. cbv beta iota.
    pose proof (types_lookup z) as H.
    destruct (List.find _ types); rewrite <- H; reflexivity.
  - intros name H. unfold getTransactionType. cbn [ToString].
    unfold mbind, result_bind, bind. cbv beta iota.
    replace (List.find _ types) with (@None (string * bank_label)).
    + rewrite H. reflexivity.
    + symmetry. unfold inherited, object_prototype_keys in H. cbn [existsb] in H.
      repeat (apply orb_prop in H; destruct H as [H|H]);
        try discriminate; apply String.eqb_eq in H; subst name; reflexivity.
Qed.

Lemma getTransactionType_table_witness :
  getTransactionType (VNum (ofZ 2)) = Ok DEBIT /\
  getTransactionType (VNum (ofZ 42)) = Ok UNKNOWN /\
  getTransactionType (VStr "toString") = Ok (Inherited "toString").
Proof.
  destruct getTransactionType_table as (Hnum & _ & Hname).
  split; [|split].
  - apply (Hnum 2). reflexivity.
  - apply (Hnum 42). reflexivity.
  - apply (Hname "toString"). reflexivity.
Defined.

(** ** Bank transactions: flattening, grouping and totals *)

Lemma bank_transaction_labelled (bank txn : value) (tx : BankTransaction) :
  bank_transaction bank txn = Ok tx -> bank_labelled bank txn tx.
Proof.
  unfold bank_transaction. intros H.
  apply bind_Ok in H. destruct H as (t & Ht & H).
  apply bind_Ok in H. destruct H as (label & Hlabel & H).
  apply bind_Ok in H. destruct H as (name & Hname & H).
  apply get_Ok_prop in Hname. destruct Hname as [_ <-].
  injection H as <-. exists t, label. auto.
Qed.

Lemma bank_record_transactions_Ok (bank : value) (txs : list BankTransaction) :
  bank_record_transactions bank = Ok txs ->
  exists tuples,
    prop bank "txns" = VArr tuples /\ Forall2 (bank_labelled bank) tuples txs.
Proof.
  unfold bank_record_transactions. intros H.
  apply bind_Ok in H. destruct H as (txns & Htxns & H).
  apply bind_Ok in H. destruct H as (items & Hitems & H).
  apply get_Ok_prop in Htxns. destruct Htxns as [_ <-].
  apply as_array_Ok in Hitems.
  exists items. split; [exact Hitems|].
  apply mapM_Forall2 in H. eapply Forall2_impl; [exact H|].
  intros txn tx. apply bank_transaction_labelled.
Qed.

Lemma processBankTransactions_data (response : value) (r : BankTransactions) :
  processBankTransactions response = Ok r ->
  (truthy (prop response "bankTransactions") = false /\
   banks r = ∅ /\ bank_transactions r = [] /\ bank_totalTransactions r = None) \/
  (truthy (prop response "bankTransactions") = true /\
   bank_flattened response (bank_transactions r) /\
   foldM bank_group (bank_transactions r) ∅ = Ok (banks r) /\
   bank_totalTransactions r = Some (length (bank_transactions r)) /\
   bank_error r = None).
Proof.
  unfold processBankTransactions. rewrite guarded_get.
  unfold mbind at 1. unfold result_bind at 1. unfold bind at 1. cbv beta iota.
  rewrite guarded_truthy.
  destruct (truthy (prop response "bankTransactions")) eqn:Et; cbn [negb]; intros H.
  - right. split; [reflexivity|].
    rewrite guarded_get_truthy in H by exact Et.
    apply bind_Ok in H. destruct H as (bankList & Hlist & H).
    apply bind_Ok in H. destruct H as (perBank & Hper & H).
    apply bind_Ok in H. destruct H as (grouped & Hfold & H).
    injection H as <-. cbn [bank_transactions banks bank_totalTransactions bank_error].
    split; [|auto].
    apply as_array_Ok in Hlist.
    exists bankList, perBank. split; [exact Hlist|]. split; [|reflexivity].
    apply mapM_Forall2 in Hper. eapply Forall2_impl; [exact Hper|].
    intros bank txs. apply bank_record_transactions_Ok.
  - left. injection H as <-. auto.
Qed.

Lemma tuple_count_flattened {T} (labelled : value -> value -> T -> Prop)
    (records : list value) (perRecord : list (list T)) :
  Forall2 (fun record txs =>
             exists tuples,
               prop record "txns" = VArr tuples /\
               Forall2 (labelled record) tuples txs)
          records perRecord ->
  length (concat perRecord) = tuple_count (VArr records).
Proof.
  induction 1 as [|record txs records perRecord (tuples & Htxns & Htuples) _ IH].
  - reflexivity.
  - cbn [concat tuple_count foldr] in *. rewrite length_app, IH, Htxns.
    rewrite (Forall2_length _ _ _ Htuples). reflexivity.
Qed.

(** X4.  [processBankTransactions] flattens the bank records in order: one
    transaction per tuple, tagged with its record's bank, with the amount
    and the balance parsed as numbers and the type code turned into its
    label; [totalTransactions] is the number of tuples in the payload. *)
Theorem processBankTransactions_flattens (response : value) (r : BankTransactions) :
  processBankTransactions response = Ok r ->
  truthy (prop response "bankTransactions") = true ->
  bank_flattened response (bank_transactions r) /\
  bank_totalTransactions r
    = Some (tuple_count (prop response "bankTransactions")) /\
  bank_error r = None.
Proof.
  intros Hr Ht. apply processBankTransactions_data in Hr.
  destruct Hr as [(Hf & _)|(_ & Hflat & _ & Hcount & Herr)]; [congruence|].
  split; [exact Hflat|]. split; [|exact Herr].
  rewrite Hcount. f_equal.
  destruct Hflat as (bankList & perBank & -> & Hper & ->).
  apply (tuple_count_flattened bank_labelled). exact Hper.
Qed.

Lemma processBankTransactions_flattens_witness :
  let payload :=
    VObj [("bankTransactions",
           VArr [VObj [("bank", VStr "HDFC Bank");
                       ("txns", VArr [VArr [VStr "85000"; VStr "SALARY"; VStr "2024-07-01";
                                            VNum (ofZ 1); VStr "NEFT"; VStr "105000.50"];
                                      VArr [VStr "2500"; VStr "UPI-GROCERY"; VStr "2024-07-03";
                                            VNum (ofZ 2); VStr "UPI"; VStr "102500.50"]])];
                 VObj [("bank", VStr "ICICI Bank");
                       ("txns", VArr [VArr [VStr "40"; VStr "INTEREST"; VStr "2024-07-31";
                                            VNum (ofZ 4); VStr "OTHERS"; VStr "9040"]])]])] in
  exists r,
    processBankTransactions payload = Ok r /\
    bank_flattened payload (bank_transactions r) /\
    bank_totalTransactions r = Some 3%nat.
Proof.
  cbn zeta. eexists. split; [vm_compute; reflexivity|].
  match goal with
  | |- bank_flattened ?p (bank_transactions ?r) /\ _ =>
      destruct (processBankTransactions_flattens p r
                  ltac:(vm_compute; reflexivity) ltac:(reflexivity))
        as (Hflat & Hcount & _)
  end.
  split; [exact Hflat|exact Hcount].
Defined.

Lemma bank_fold_keys (txs : list BankTransaction)
    (acc acc' : gmap string BankAggregate) :
  foldM bank_group txs acc = Ok acc' ->
  forall tx, In tx txs -> exists k, ToString (bt_bank tx) = Ok k.
Proof.
  revert acc. induction txs as [|tx0 txs IH]; intros acc Hfold tx Hin; [destruct Hin|].
  cbn [foldM] in Hfold. apply bind_Ok in Hfold. destruct Hfold as (acc1 & Hstep & Hfold).
  destruct Hin as [<-|Hin]; [|exact (IH _ Hfold tx Hin)].
  unfold bank_group in Hstep. apply bind_Ok in Hstep.
  destruct Hstep as (k & Hk & _). exists k. exact Hk.
Qed.

Lemma of_bank_key (k : string) (tx : BankTransaction) :
  of_bank k tx = true <-> ToString (bt_bank tx) = Ok k.
Proof.
  unfold of_bank. split.
  - destruct (ToString (bt_bank tx)) as [k'| |]; try discriminate.
    intros H. apply String.eqb_eq in H. congruence.
  - intros ->. apply String.eqb_refl.
Qed.

(** X5.  The grouping by bank loses and duplicates nothing: every flattened
    transaction is filed under the key its bank name prints as, and under no
    other; every aggregate holds exactly the flattened transactions of its
    key, in the order of the flattened list, and at least one. *)
Theorem bank_grouping_partitions (response : value) (r : BankTransactions) :
  processBankTransactions response = Ok r ->
  (forall tx, In tx (bank_transactions r) ->
     exists k agg,
       ToString (bt_bank tx) = Ok k /\ banks r !! k = Some agg /\
       In tx (ba_transactions agg)) /\
  (forall k agg tx,
     banks r !! k = Some agg -> In tx (ba_transactions agg) ->
     In tx (bank_transactions r) /\ ToString (bt_bank tx) = Ok k) /\
  (forall k agg,
     banks r !! k = Some agg ->
     ba_transactions agg = List.filter (of_bank k) (bank_transactions r) /\
     exists tx rest, ba_transactions agg = tx :: rest).
Proof.
  intros Hr. apply processBankTransactions_data in Hr.
  destruct Hr as [(_ & He & Hnil & _)|(_ & _ & Hfold & _)].
  - assert (Hnone : forall k, banks r !! k = None) by (intros k; rewrite He; apply lookup_empty).
    split; [|split].
    + intros tx Hin. rewrite Hnil in Hin. destruct Hin.
    + intros k agg tx Hk. rewrite Hnone in Hk. discriminate.
    + intros k agg Hk. rewrite Hnone in Hk. discriminate.
  - pose proof (bank_fold_invariant _ [] ∅ _ bank_invariant_empty Hfold) as Hinv.
    cbn [app] in Hinv. split; [|split].
    + intros tx Hin. destruct (bank_fold_keys _ _ _ Hfold tx Hin) as (k & Hk).
      exists k. specialize (Hinv k).
      assert (Hf : In tx (List.filter (of_bank k) (bank_transactions r))).
      { apply filter_In. split; [exact Hin|]. apply of_bank_key. exact Hk. }
      destruct (banks r !! k) as [agg|].
      * exists agg. destruct Hinv as (Htxs & _). rewrite Htxs. auto.
      * rewrite Hinv in Hf. destruct Hf.
    + intros k agg tx Hk Hin. specialize (Hinv k). rewrite Hk in Hinv.
      destruct Hinv as (Htxs & _). rewrite Htxs in Hin.
      apply filter_In in Hin. destruct Hin as [Hin Hof].
      split; [exact Hin|]. apply of_bank_key. exact Hof.
    + intros k agg Hk. specialize (Hinv k). rewrite Hk in Hinv.
      destruct Hinv as (Htxs & Hne & _). split; [exact Htxs|].
      destruct (ba_transactions agg) as [|tx rest]; [congruence|eauto].
Qed.

Lemma bank_grouping_partitions_witness :
  let payload :=
    VObj [("bankTransactions",
           VArr [VObj [("bank", VStr "HDFC Bank");
                       ("txns", VArr [VArr [VStr "85000"; VStr "SALARY"; VStr "2024-07-01";
                                            VNum (ofZ 1); VStr "NEFT"; VStr "105000.50"]])];
                 VObj [("bank", VStr "ICICI Bank");
                       ("txns", VArr [VArr [VStr "40"; VStr "INTEREST"; VStr "2024-07-31";
                                            VNum (ofZ 4); VStr "OTHERS"; VStr "9040"]])];
                 VObj [("bank", VStr "HDFC Bank");
                       ("txns", VArr [VArr [VStr "2500"; VStr "UPI-GROCERY"; VStr "2024-07-03";
                                            VNum (ofZ 2); VStr "UPI"; VStr "102500.50"]])]])] in
  exists r agg,
    processBankTransactions payload = Ok r /\
    banks r !! "HDFC Bank" = Some agg /\
    ba_transactions agg = List.filter (of_bank "HDFC Bank") (bank_transactions r) /\
    map bt_narration (ba_transactions agg) = [VStr "SALARY"; VStr "UPI-GROCERY"].
Proof.
  cbn zeta. eexists _, _.
  split; [vm_compute; reflexivity|].
  split; [vm_compute; reflexivity|].
  match goal with
  | |- ba_transactions ?a = List.filter _ (bank_transactions ?r) /\ _ =>
      destruct (bank_grouping_partitions
        (VObj [("bankTransactions",
           VArr [VObj [("bank", VStr "HDFC Bank");
                       ("txns", VArr [VArr [VStr "85000"; VStr "SALARY"; VStr "2024-07-01";
                                            VNum (ofZ 1); VStr "NEFT"; VStr "105000.50"]])];
                 VObj [("bank", VStr "ICICI Bank");
                       ("txns", VArr [VArr [VStr "40"; VStr "INTEREST"; VStr "2024-07-31";
                                            VNum (ofZ 4); VStr "OTHERS"; VStr "9040"]])];
                 VObj [("bank", VStr "HDFC Bank");
                       ("txns", VArr [VArr [VStr "2500"; VStr "UPI-GROCERY"; VStr "2024-07-03";
                                            VNum (ofZ 2); VStr "UPI"; VStr "102500.50"]])]])])
        r ltac:(vm_compute; reflexivity)) as (_ & _ & H);
      destruct (H "HDFC Bank" a ltac:(vm_compute; reflexivity)) as [Hfilter _]
  end.
  split; [exact Hfilter|vm_compute; reflexivity].
Defined.







(** ** Mutual-fund transactions: counting and grouping *)

Lemma mf_fold_keys (txs : list FundTransaction)
    (acc acc' : gmap string FundSchemeAggregate) :
  foldM mf_group txs acc = Ok acc' ->
  forall tx, In tx txs -> exists k, ToString (ft_isin tx) = Ok k.
Proof.
  revert acc. induction txs as [|tx0 txs IH]; intros acc Hfold tx Hin; [destruct Hin|].
  cbn [foldM] in Hfold. apply bind_Ok in Hfold. destruct Hfold as (acc1 & Hstep & Hfold).
  destruct Hin as [<-|Hin]; [|exact (IH _ Hfold tx Hin)].
  unfold mf_group in Hstep. apply bind_Ok in Hstep.
  destruct Hstep as (k & Hk & _). exists k. exact Hk.
Qed.

Lemma of_scheme_key (k : string) (tx : FundTransaction) :
  of_scheme k tx = true <-> ToString (ft_isin tx) = Ok k.
Proof.
  unfold of_scheme. split.
  - destruct (ToString (ft_isin tx)) as [k'| |]; try discriminate.
    intros H. apply String.eqb_eq in H. congruence.
  - intros ->. apply String.eqb_refl.
Qed.

Lemma mf_group_identity (acc acc' : gmap string FundSchemeAggregate) (tx : FundTransaction) :
  (forall k agg, acc !! k = Some agg -> scheme_identity_ok agg) ->
  mf_group acc tx = Ok acc' ->
  forall k agg, acc' !! k = Some agg -> scheme_identity_ok agg.
Proof.
  intros Hinv Hstep. unfold mf_group in Hstep.
  apply bind_Ok in Hstep. destruct Hstep as (k0 & Hkey & Hstep).
  apply bind_Ok in Hstep. destruct Hstep as (entry & Hentry & Hstep).
  apply bind_Ok in Hstep. destruct Hstep as (totals & _ & Hstep).
  injection Hstep as <-. intros k agg. destruct (decide (k0 = k)) as [<-|Hne].
  - rewrite lookup_insert_eq. intros [= <-]. unfold scheme_identity_ok.
    cbn [fs_isin fs_schemeName fs_transactions].
    apply entry_of_Ok in Hentry. destruct Hentry as [Hsome|[_ ->]].
    + destruct (Hinv k0 entry Hsome) as (tx0 & rest & Htxs & Hi & Hn).
      exists tx0, (rest ++ [tx]). rewrite Htxs. auto.
    + exists tx, []. auto.
  - rewrite lookup_insert_ne by exact Hne. apply Hinv.
Qed.

Lemma mf_fold_identity (txs : list FundTransaction)
    (acc acc' : gmap string FundSchemeAggregate) :
  (forall k agg, acc !! k = Some agg -> scheme_identity_ok agg) ->
  foldM mf_group txs acc = Ok acc' ->
  forall k agg, acc' !! k = Some agg -> scheme_identity_ok agg.
Proof.
  revert acc. induction txs as [|tx txs IH]; intros acc Hinv Hfold.
  - injection Hfold as <-. exact Hinv.
  - cbn [foldM] in Hfold. apply bind_Ok in Hfold.
    destruct Hfold as (acc1 & Hstep & Hfold).
    apply (IH acc1); [|exact Hfold]. exact (mf_group_identity acc acc1 tx Hinv Hstep).
Qed.

Lemma processMFTransactions_count (response : value) (r : MFTransactions) :
  processMFTransactions response = Ok r ->
  mf_totalTransactions r =
    if truthy (prop response "mfTransactions")
    then Some (length (mf_transactions r)) else None.
Proof.
  unfold processMFTransactions. rewrite guarded_get.
  unfold mbind at 1. unfold result_bind at 1. unfold bind at 1. cbv beta iota.
  rewrite guarded_truthy.
  destruct (truthy (prop response "mfTransactions")); cbn [negb]; intros H.
  - apply bind_Ok in H. destruct H as (schemeList & _ & H).
    apply bind_Ok in H. destruct H as (perScheme & _ & H).
    apply bind_Ok in H. destruct H as (grouped & _ & H).
    injection H as <-. reflexivity.
  - injection H as <-. reflexivity.
Qed.

(** X7.  [processMFTransactions] counts and files every tuple: with data
    present, [totalTransactions] is the number of tuples in the payload;
    every flattened transaction is filed under the key its [isin] prints as,
    and under no other; and an aggregate's [isin] and [schemeName] are those
    of the first transaction filed in it. *)
Theorem mf_grouping_partitions (response : value) (r : MFTransactions) :
  processMFTransactions response = Ok r ->
  (truthy (prop response "mfTransactions") = true ->
     mf_totalTransactions r = Some (tuple_count (prop response "mfTransactions"))) /\
  (forall tx, In tx (mf_transactions r) ->
     exists k agg,
       ToString (ft_isin tx) = Ok k /\ schemes r !! k = Some agg /\
       In tx (fs_transactions agg)) /\
  (forall k agg tx,
     schemes r !! k = Some agg -> In tx (fs_transactions agg) ->
     In tx (mf_transactions r) /\ ToString (ft_isin tx) = Ok k) /\
  (forall k agg,
     schemes r !! k = Some agg ->
     exists tx rest,
       fs_transactions agg = tx :: rest /\
       fs_isin agg = ft_isin tx /\ fs_schemeName agg = ft_schemeName tx).
Proof.
  intros Hr. pose proof (processMFTransactions_count response r Hr) as Hcount.
  apply processMFTransactions_Ok in Hr.
  destruct Hr as [(Hf & He & Hnil)|(Ht & Hflat & Hfold)].
  - assert (Hnone : forall k, schemes r !! k = None)
      by (intros k; rewrite He; apply lookup_empty).
    split; [congruence|]. split; [|split].
    + intros tx Hin. rewrite Hnil in Hin. destruct Hin.
    + intros k agg tx Hk. rewrite Hnone in Hk. discriminate.
    + intros k agg Hk. rewrite Hnone in Hk. discriminate.
  - pose proof (mf_fold_invariant _ [] ∅ _ scheme_invariant_empty Hfold) as Hinv.
    cbn [app] in Hinv. split; [|split; [|split]].
    + intros _. rewrite Hcount, Ht. f_equal.
      destruct Hflat as (schemeList & perScheme & -> & Hper & ->).
      apply (tuple_count_flattened labelled). exact Hper.
    + intros tx Hin. destruct (mf_fold_keys _ _ _ Hfold tx Hin) as (k & Hk).
      exists k. specialize (Hinv k).
      assert (Hf : In tx (List.filter (of_scheme k) (mf_transactions r))).
      { apply filter_In. split; [exact Hin|]. apply of_scheme_key. exact Hk. }
      destruct (schemes r !! k) as [agg|].
      * exists agg. destruct Hinv as (Htxs & _). rewrite Htxs. auto.
      * rewrite Hinv in Hf. destruct Hf.
    + intros k agg tx Hk Hin. specialize (Hinv k). rewrite Hk in Hinv.
      destruct Hinv as (Htxs & _). rewrite Htxs in Hin.
      apply filter_In in Hin. destruct Hin as [Hin Hof].
      split; [exact Hin|]. apply of_scheme_key. exact Hof.
    + intros k agg Hk.
      apply (mf_fold_identity _ ∅ _
               ltac:(intros ? ?; rewrite lookup_empty; discriminate) Hfold k agg Hk).
Qed.

Lemma mf_grouping_partitions_witness :
  let payload :=
    VObj [("mfTransactions",
           VArr [VObj [("isin", VStr "INF209K01157"); ("schemeName", VStr "Equity Fund");
                       ("txns", VArr [VArr [VNum (ofZ 1); VStr "2024-01-15"; VNum (ofZ 10);
                                            VNum (ofZ 100); VNum (ofZ 1000)];
                                      VArr [VNum (ofZ 2); VStr "2024-03-15"; VNum (ofZ 12);
                                            VNum (ofZ 40); VNum (ofZ 500)]])];
                 VObj [("isin", VStr "INF760K01FC4"); ("schemeName", VStr "Debt Fund");
                       ("txns", VArr [VArr [VNum (ofZ 1); VStr "2024-02-01"; VNum (ofZ 20);
                                            VNum (ofZ 5); VNum (ofZ 100)]])]])] in
  exists r agg,
    processMFTransactions payload = Ok r /\
    mf_totalTransactions r = Some 3%nat /\
    schemes r !! "INF760K01FC4" = Some agg /\
    fs_schemeName agg = VStr "Debt Fund" /\
    exists tx rest, fs_transactions agg = tx :: rest /\ fs_isin agg = ft_isin tx.
Proof.
  cbn zeta. eexists _, _.
  split; [vm_compute; reflexivity|].
  match goal with
  | |- mf_totalTransactions ?r = _ /\ _ =>
      destruct (mf_grouping_partitions
        (VObj [("mfTransactions",
           VArr [VObj [("isin", VStr "INF209K01157"); ("schemeName", VStr "Equity Fund");
                       ("txns", VArr [VArr [VNum (ofZ 1); VStr "2024-01-15"; VNum (ofZ 10);
                                            VNum (ofZ 100); VNum (ofZ 1000)];
                                      VArr [VNum (ofZ 2); VStr "2024-03-15"; VNum (ofZ 12);
                                            VNum (ofZ 40); VNum (ofZ 500)]])];
                 VObj [("isin", VStr "INF760K01FC4"); ("schemeName", VStr "Debt Fund");
                       ("txns", VArr [VArr [VNum (ofZ 1); VStr "2024-02-01"; VNum (ofZ 20);
                                            VNum (ofZ 5); VNum (ofZ 100)]])]])])
        r ltac:(vm_compute; reflexivity)) as (Hcount & _ & _ & Hid)
  end.
  split; [exact (Hcount eq_refl)|].
  split; [vm_compute; reflexivity|].
  split; [vm_compute; reflexivity|].
  match goal with
  | |- exists tx rest, fs_transactions ?a = _ /\ _ =>
      destruct (Hid "INF760K01FC4" a ltac:(vm_compute; reflexivity))
        as (tx & rest & Htxs & Hisin & _)
  end.
  exists tx, rest. split; assumption.
Defined.

(** ** Net worth *)

Lemma currencyToNumber_decoded (amount : value) :
  currencyToNumber amount = Ok (decoded amount).
Proof.
  unfold decoded. destruct (truthy (prop amount "units")) eqn:H.
  - apply currencyToNumber_truthy_units. exact H.
  - apply currencyToNumber_falsy_units. exact H.
Qed.

Lemma mapM_map {A B} (f : A -> result B) (g : A -> B) (l : list A) :
  (forall x, In x l -> f x = Ok (g x)) -> mapM f l = Ok (map g l).
Proof.
  induction l as [|x l IH]; intros H; [reflexivity|].
  cbn [mapM map]. rewrite (H x) by (left; reflexivity).
  rewrite IH by (intros y Hy; apply H; right; exact Hy). reflexivity.
Qed.

Lemma mapM_throw {A B} (f : A -> result B) (e : exn) (x : A) (l : list A) :
  f x = Throw e -> mapM f (x :: l) = Throw e.
Proof. intros H. cbn [mapM]. rewrite H. reflexivity. Qed.

Lemma formatCurrency_Ok (amount : num) (currency : value) (code : string) :
  truthy currency = true ->
  ToString currency = Ok code ->
  well_formed_currency code = true ->
  formatCurrency amount currency = Ok (Formatted amount code).
Proof.
  intros Ht Hs Hw. unfold formatCurrency.
  destruct currency; try discriminate; rewrite Hs; cbn; rewrite Hw; reflexivity.
Qed.

Lemma formatCurrency_Throw (amount : num) (currency : value) (code : string) :
  truthy currency = true ->
  ToString currency = Ok code ->
  well_formed_currency code = false ->
  formatCurrency amount currency = Throw (RangeError ("Invalid currency code : " +:+ code)).
Proof.
  intros Ht Hs Hw. unfold formatCurrency.
  destruct currency; try discriminate; rewrite Hs; cbn; rewrite Hw; reflexivity.
Qed.

Lemma currency_of_truthy (netWorthData : value) : truthy (currency_of netWorthData) = true.
Proof.
  unfold currency_of, or_else.
  destruct (truthy (opt _ "currencyCode")) eqn:E; [exact E|reflexivity].
Qed.

(** The part of [processNetWorthData] before the first [formatCurrency]. *)
Lemma processNetWorthData_unfold (response : value) :
  truthy (prop response "netWorthResponse") = true ->
  processNetWorthData response =
    (let netWorthData := prop response "netWorthResponse" in
     let currency := currency_of netWorthData in
     let totalNetWorth := decoded (prop netWorthData "totalNetWorthValue") in
     items ← as_array (or_else (prop netWorthData "assetValues") (VArr [])) "map";
     assets ← mapM (fun asset =>
         type ← get asset "netWorthAttribute";
         raw ← get asset "value";
         value ← currencyToNumber raw;
         formattedValue ← formatCurrency value currency;
         Ok {| asset_type := type; asset_value := value;
               asset_formattedValue := formattedValue |}) items;
     formattedTotal ← formatCurrency totalNetWorth currency;
     Ok {| totalNetWorth := totalNetWorth;
           formattedTotalNetWorth := Some formattedTotal;
           currency := currency;
           assets := assets;
           mutualFunds :=
             Some (or_else (opt (prop response "mfSchemeAnalytics") "schemeAnalytics")
                           (VArr []));
           accountDetails :=
             Some (or_else (opt (prop response "accountDetailsBulkResponse")
                                "accountDetailsMap") (VObj []));
           nw_error := None |}).
Proof.
  intros Ht.
  assert (Hn : nullish (prop response "netWorthResponse") = false)
    by (apply truthy_not_nullish; exact Ht).
  assert (Hr : nullish response = false).
  { destruct response; cbn in *; try discriminate; reflexivity. }
  unfold processNetWorthData. rewrite guarded_get. cbn zeta. unfold currency_of.
  unfold mbind, result_bind, bind. cbv beta iota.
  rewrite guarded_truthy, Ht. cbn [negb]. rewrite guarded_get_truthy by exact Ht.
  rewrite (prop_get _ "totalNetWorthValue") by exact Hn. cbv beta iota.
  rewrite currencyToNumber_decoded. cbv beta iota.
  rewrite get_opt_ok. cbv beta iota.
  rewrite (prop_get _ "assetValues") by exact Hn. cbv beta iota.
  destruct (as_array _ "map") as [items| |]; try reflexivity.
  destruct (mapM _ items) as [assets| |]; try reflexivity.
  destruct (formatCurrency _ _) as [formatted| |]; try reflexivity.
  rewrite (prop_get response "mfSchemeAnalytics") by exact Hr. cbv beta iota.
  rewrite get_opt_ok. cbv beta iota.
  rewrite (prop_get response "accountDetailsBulkResponse") by exact Hr. cbv beta iota.
  rewrite get_opt_ok. reflexivity.
Qed.

(** X8.  With its container present, a well-formed currency code and asset
    entries that are objects, [processNetWorthData] decodes the total, turns
    the asset entries into assets one for one and in order, each formatted in
    the currency of the total (INR when the total names none), and passes the
    mutual-fund analytics and the account details through, an absent one
    becoming [[]] or [{}]. *)
Theorem processNetWorthData_normalizes (response : value) (items : list value)
    (code : string) :
  let netWorthData := prop response "netWorthResponse" in
  truthy netWorthData = true ->
  ToString (currency_of netWorthData) = Ok code ->
  well_formed_currency code = true ->
  asset_entries netWorthData = Some items ->
  Forall (fun entry => nullish entry = false) items ->
  processNetWorthData response =
    Ok {| totalNetWorth := decoded (prop netWorthData "totalNetWorthValue");
          formattedTotalNetWorth :=
            Some (Formatted (decoded (prop netWorthData "totalNetWorthValue")) code);
          currency := currency_of netWorthData;
          assets := map (asset_of code) items;
          mutualFunds :=
            Some (or_else (opt (prop response "mfSchemeAnalytics") "schemeAnalytics")
                          (VArr []));
          accountDetails :=
            Some (or_else (opt (prop response "accountDetailsBulkResponse")
                               "accountDetailsMap") (VObj []));
          nw_error := None |}.
Proof.
  cbn zeta. intros Ht Hcode Hw Hitems Hall.
  rewrite processNetWorthData_unfold by exact Ht. cbn zeta.
  unfold asset_entries in Hitems.
  destruct (or_else (prop (prop response "netWorthResponse") "assetValues") (VArr []))
    as [| | | | |items'|]; try discriminate.
  injection Hitems as ->. cbn [as_array].
  unfold mbind at 1. unfold result_bind at 1. unfold bind at 1. cbv beta iota.
  rewrite (mapM_map _ (asset_of code)).
  - unfold mbind, result_bind, bind. cbv beta iota.
    rewrite (formatCurrency_Ok _ _ code) by (auto using currency_of_truthy).
    reflexivity.
  - intros entry Hin. rewrite Forall_forall in Hall.
    assert (He : nullish entry = false) by (apply Hall, list_elem_of_In, Hin).
    rewrite !(prop_get entry) by exact He.
    unfold mbind, result_bind, bind. cbv beta iota.
    rewrite currencyToNumber_decoded.
    rewrite (formatCurrency_Ok _ _ code) by (auto using currency_of_truthy).
    reflexivity.
Qed.

Lemma processNetWorthData_normalizes_witness :
  let payload :=
    VObj [("netWorthResponse",
           VObj [("totalNetWorthValue",
                  VObj [("currencyCode", VStr "INR"); ("units", VStr "1500000")]);
                 ("assetValues",
                  VArr [VObj [("netWorthAttribute", VStr "ASSET_TYPE_SAVINGS_ACCOUNTS");
                              ("value", VObj [("currencyCode", VStr "INR");
                                              ("units", VStr "500000")])]])])] in
  exists r,
    processNetWorthData payload = Ok r /\
    fraction (totalNetWorth r) = Some (inject_Z 1500000) /\
    map (fun a => (asset_type a, fraction (asset_value a))) (assets r)
      = [(VStr "ASSET_TYPE_SAVINGS_ACCOUNTS", Some (inject_Z 500000))] /\
    currency r = VStr "INR" /\
    mutualFunds r = Some (VArr []) /\ accountDetails r = Some (VObj []).
Proof.
  cbn zeta. eexists. split.
  - apply (processNetWorthData_normalizes _
             [VObj [("netWorthAttribute", VStr "ASSET_TYPE_SAVINGS_ACCOUNTS");
                    ("value", VObj [("currencyCode", VStr "INR");
                                    ("units", VStr "500000")])]] "INR");
      try reflexivity.
    repeat constructor.
  - repeat split; vm_compute; reflexivity.
Defined.

(** X9.  A currency code that is not three letters makes [processNetWorthData]
    throw a [RangeError] although the data is there: the number formatter
    rejects the code. *)
Theorem processNetWorthData_invalid_currency (response : value) (items : list value)
    (code : string) :
  let netWorthData := prop response "netWorthResponse" in
  truthy netWorthData = true ->
  ToString (currency_of netWorthData) = Ok code ->
  well_formed_currency code = false ->
  asset_entries netWorthData = Some items ->
  Forall (fun entry => nullish entry = false) items ->
  processNetWorthData response
    = Throw (RangeError ("Invalid currency code : " +:+ code)).
Proof.
  cbn zeta. intros Ht Hcode Hw Hitems Hall.
  rewrite processNetWorthData_unfold by exact Ht. cbn zeta.
  unfold asset_entries in Hitems.
  destruct (or_else (prop (prop response "netWorthResponse") "assetValues") (VArr []))
    as [| | | | |items'|]; try discriminate.
  injection Hitems as ->. cbn [as_array].
  unfold mbind at 1. unfold result_bind at 1. unfold bind at 1. cbv beta iota.
  destruct items as [|entry items].
  - cbn [mapM]. unfold mbind, result_bind, bind. cbv beta iota.
    rewrite (formatCurrency_Throw _ _ code) by (auto using currency_of_truthy).
    reflexivity.
  - rewrite (mapM_throw _ (RangeError ("Invalid currency code : " +:+ code))); [reflexivity|].
    inversion Hall as [|? ? He _]; subst.
    rewrite !(prop_get entry) by exact He.
    unfold mbind, result_bind, bind. cbv beta iota.
    rewrite currencyToNumber_decoded.
    rewrite (formatCurrency_Throw _ _ code) by (auto using currency_of_truthy).
    reflexivity.
Qed.

Lemma processNetWorthData_invalid_currency_witness :
  processNetWorthData
    (VObj [("netWorthResponse",
            VObj [("totalNetWorthValue",
                   VObj [("currencyCode", VStr "RUPEE"); ("units", VStr "1500000")])])])
    = Throw (RangeError "Invalid currency code : RUPEE").
Proof.
  apply (processNetWorthData_invalid_currency _ [] "RUPEE"); try reflexivity.
  constructor.
Defined.

(** ** Credit report and retirement fund: the first record only *)

(** X10.  [processCreditData] reads the first credit report and no other: two
    payloads whose report lists start with the same report are normalized
    alike, whatever follows. *)
Theorem processCreditData_reads_first_report (response response' first : value)
    (others others' : list value) :
  get response "creditReports" = Ok (VArr (first :: others)) ->
  get response' "creditReports" = Ok (VArr (first :: others')) ->
  processCreditData response = processCreditData response'.
Proof.
  intros H H'. unfold processCreditData.
  rewrite (get_array_field response "creditReports" _ eq_refl H), H.
  rewrite (get_array_field response' "creditReports" _ eq_refl H'), H'.
  unfold mbind, result_bind, bind. cbv beta iota. cbn [truthy].
  change (get (VArr (first :: others)) "length")
    with (Ok (A := value) (VNum (ofZ (Z.of_nat (length (first :: others)))))).
  change (get (VArr (first :: others')) "length")
    with (Ok (A := value) (VNum (ofZ (Z.of_nat (length (first :: others')))))).
  cbv beta iota. rewrite !is_zero_length. reflexivity.
Qed.

Lemma processCreditData_reads_first_report_witness :
  let report := VObj [("creditReportData",
                       VObj [("score", VObj [("bureauScore", VStr "750")])])] in
  processCreditData (VObj [("creditReports", VArr [report; VNull; VStr "later report"])])
    = processCreditData (VObj [("creditReports", VArr [report])]).
Proof.
  cbn zeta.
  apply (processCreditData_reads_first_report _ _
           (VObj [("creditReportData",
                   VObj [("score", VObj [("bureauScore", VStr "750")])])])
           [VNull; VStr "later report"] []); reflexivity.
Defined.

(** X11.  [processEPFData] reads the first retirement account and no other. *)
Theorem processEPFData_reads_first_account (response response' first : value)
    (others others' : list value) :
  get response "uanAccounts" = Ok (VArr (first :: others)) ->
  get response' "uanAccounts" = Ok (VArr (first :: others')) ->
  processEPFData response = processEPFData response'.
Proof.
  intros H H'. unfold processEPFData.
  rewrite (get_array_field response "uanAccounts" _ eq_refl H), H.
  rewrite (get_array_field response' "uanAccounts" _ eq_refl H'), H'.
  unfold mbind, result_bind, bind. cbv beta iota. cbn [truthy].
  change (get (VArr (first :: others)) "length")
    with (Ok (A := value) (VNum (ofZ (Z.of_nat (length (first :: others)))))).
  change (get (VArr (first :: others')) "length")
    with (Ok (A := value) (VNum (ofZ (Z.of_nat (length (first :: others')))))).
  cbv beta iota. rewrite !is_zero_length. reflexivity.
Qed.

Lemma processEPFData_reads_first_account_witness :
  let account := VObj [("rawDetails",
                        VObj [("overall_pf_balance",
                               VObj [("current_pf_balance", VStr "250000")])])] in
  processEPFData (VObj [("uanAccounts", VArr [account; VObj []])])
    = processEPFData (VObj [("uanAccounts", VArr [account])]).
Proof.
  cbn zeta.
  apply (processEPFData_reads_first_account _ _
           (VObj [("rawDetails",
                   VObj [("overall_pf_balance",
                          VObj [("current_pf_balance", VStr "250000")])])])
           [VObj []] []); reflexivity.
Defined.

Lemma get_nullish (v : value) (k : string) :
  nullish v = true -> exists msg, get v k = Throw (TypeError msg).
Proof. destruct v; try discriminate; intros _; eexists; reflexivity. Qed.

(** X12.  With a non-empty account list, [processEPFData] throws a [TypeError]
    exactly when the first account is [null] or carries no [rawDetails].
    Otherwise it returns the total, employee and pension balances read from
    the overall balance, each 0 when absent or unreadable and never [NaN],
    and the establishment records as they came, [[]] when absent. *)
Theorem processEPFData_outcome (response first : value) (others : list value) :
  get response "uanAccounts" = Ok (VArr (first :: others)) ->
  let epfData := prop first "rawDetails" in
  let overall := prop epfData "overall_pf_balance" in
  if nullish first || nullish epfData
  then exists msg, processEPFData response = Throw (TypeError msg)
  else exists r,
      processEPFData response = Ok r /\
      totalBalance r = or_zero (parseFloat (opt overall "current_pf_balance")) /\
      employeeShare r
        = or_zero (parseFloat (opt (opt overall "employee_share_total") "balance")) /\
      pensionBalance r = Some (or_zero (parseFloat (opt overall "pension_balance"))) /\
      employerDetails r = Some (or_else (prop epfData "est_details") (VArr [])) /\
      totalBalance r <> NaN /\ employeeShare r <> NaN /\
      epf_error r = None.
Proof.
  intros Huan. cbn zeta. unfold processEPFData.
  rewrite (get_array_field response "uanAccounts" _ eq_refl Huan), Huan.
  unfold mbind, result_bind, bind. cbv beta iota. cbn [truthy].
  change (get (VArr (first :: others)) "length")
    with (Ok (A := value) (VNum (ofZ (Z.of_nat (length (first :: others)))))).
  cbv beta iota. rewrite is_zero_length. cbn [negb orb get_index nth].
  destruct (nullish first) eqn:Hfirst; cbn [orb].
  - destruct (get_nullish first "rawDetails" Hfirst) as (msg & ->). eauto.
  - rewrite (prop_get first "rawDetails") by exact Hfirst. cbv beta iota.
    destruct (nullish (prop first "rawDetails")) eqn:Hraw.
    + destruct (get_nullish _ "overall_pf_balance" Hraw) as (msg & ->). eauto.
    + rewrite !(prop_get (prop first "rawDetails")) by exact Hraw.
      cbv beta iota. rewrite !get_opt_ok. cbv beta iota.
      destruct (prop (prop first "rawDetails") "est_details") as [| | | | |items|] eqn:E;
        cbn [isArray as_array]; cbv beta iota;
        try rewrite reduce_employer_balance;
        (eexists; split; [reflexivity|];
         cbn [totalBalance employeeShare pensionBalance employerDetails epf_error];
         repeat split; try reflexivity; apply NumFacts.or_zero_not_nan).
Qed.

Lemma processEPFData_outcome_witness :
  (exists r,
     processEPFData
       (VObj [("uanAccounts",
               VArr [VObj [("rawDetails",
                            VObj [("overall_pf_balance",
                                   VObj [("current_pf_balance", VStr "250000");
                                         ("employee_share_total",
                                          VObj [("balance", VStr "125000")])])])]])])
       = Ok r /\
     fraction (totalBalance r) = Some (inject_Z 250000) /\
     fraction (employeeShare r) = Some (inject_Z 125000) /\
     employerDetails r = Some (VArr [])) /\
  (exists msg,
     processEPFData (VObj [("uanAccounts", VArr [VNull])]) = Throw (TypeError msg)).
Proof.
  split.
  - destruct (processEPFData_outcome
       (VObj [("uanAccounts",
               VArr [VObj [("rawDetails",
                            VObj [("overall_pf_balance",
                                   VObj [("current_pf_balance", VStr "250000");
                                         ("employee_share_total",
                                          VObj [("balance", VStr "125000")])])])]])])
       (VObj [("rawDetails",
               VObj [("overall_pf_balance",
                      VObj [("current_pf_balance", VStr "250000");
                            ("employee_share_total",
                             VObj [("balance", VStr "125000")])])])])
       [] eq_refl) as (r & Hr & Ht & He & _ & Hd & _).
    exists r. split; [exact Hr|].
    rewrite Ht, He, Hd. repeat split; vm_compute; reflexivity.
  - exact (processEPFData_outcome (VObj [("uanAccounts", VArr [VNull])]) VNull [] eq_refl).
Defined.

(** ** Credit report *)

Lemma parseInt_decimal_branch (s0 : string) (v : Z) (k : nat) :
  digits s0 0 0 = (v, k, EmptyString) ->
  match s0 with
  | String "0" (String x r) =>
      if Ascii.eqb x "x" || Ascii.eqb x "X" then hex_digits r 0 0
      else let '(m, count, _) := digits s0 0 0 in (m, count)
  | _ => let '(m, count, _) := digits s0 0 0 in (m, count)
  end = (v, k).
Proof.
  intros H. destruct s0 as [|c1 [|x r]].
  - rewrite H. reflexivity.
  - destruct c1 as [[] [] [] [] [] [] [] []]; rewrite H; reflexivity.
  - destruct c1 as [[] [] [] [] [] [] [] []]; try (rewrite H; reflexivity).
    destruct (Ascii.eqb x "x" || Ascii.eqb x "X") eqn:E; [|rewrite H; reflexivity].
    exfalso. apply orb_prop in E. destruct E as [E|E]; apply Ascii.eqb_eq in E; subst x;
      cbn in H; discriminate.
Qed.

Lemma parseInt_string_pretty (z : Z) : parseInt_string (pretty z) = ofZ z.
Proof.
  destruct z as [|p|p]; [reflexivity| |].
  - unfold pretty, pretty_Z, pretty, pretty_positive, pretty, pretty_N.
    destruct (decide (N.pos p = 0%N)) as [E|_]; [discriminate|].
    destruct (pretty_N_go_head (N.pos p) "" ltac:(lia)) as (m & r & Hm & Hhead).
    destruct (digits_pretty_N_go (N.pos p)) as (k & Hk & Hdigits).
    specialize (Hk ltac:(lia)). specialize (Hdigits EmptyString 0 0%nat).
    cbn [digits Nat.add] in Hdigits.
    replace (0 * 10 ^ Z.of_nat k + Z.of_N (N.pos p)) with (Z.pos p) in Hdigits by (cbn; lia).
    unfold parseInt_string.
    assert (Hs : sign_of (skip_spaces (pretty_N_go (N.pos p) ""))
                 = (false, pretty_N_go (N.pos p) "")).
    { rewrite Hhead.
      assert (m = 0 \/ m = 1 \/ m = 2 \/ m = 3 \/ m = 4 \/ m = 5 \/ m = 6 \/ m = 7
              \/ m = 8 \/ m = 9)%N as Hcases by lia.
      repeat destruct Hcases as [->|Hcases]; try subst m; reflexivity. }
    rewrite Hs. cbv beta iota. rewrite (parseInt_decimal_branch _ _ _ Hdigits).
    destruct k; [lia|reflexivity].
  - unfold pretty, pretty_Z, pretty, pretty_positive, pretty, pretty_N.
    destruct (decide (N.pos p = 0%N)) as [E|_]; [discriminate|].
    destruct (digits_pretty_N_go (N.pos p)) as (k & Hk & Hdigits).
    specialize (Hk ltac:(lia)). specialize (Hdigits EmptyString 0 0%nat).
    cbn [digits Nat.add] in Hdigits.
    replace (0 * 10 ^ Z.of_nat k + Z.of_N (N.pos p)) with (Z.pos p) in Hdigits by (cbn; lia).
    unfold parseInt_string.
    change (sign_of (skip_spaces ("-" +:+ pretty_N_go (N.pos p) "")))
      with (true, pretty_N_go (N.pos p) "").
    cbv beta iota. rewrite (parseInt_decimal_branch _ _ _ Hdigits).
    destruct k; [lia|reflexivity].
Qed.

Lemma account_of_numbers (account : value) :
  ca_creditLimit (account_of account) <> NaN /\
  ca_currentBalance (account_of account) <> NaN.
Proof. split; apply NumFacts.or_zero_not_nan. Qed.

(** X13.  For a first report that carries its data, [processCreditData] turns
    the account entries into accounts one for one and in order, their credit
    limit and balance parsed as numbers, 0 when absent or unreadable and
    never [NaN]; the score is [null] when the bureau score is absent and the
    integer it spells when it is decimal text; the summary counters default
    to 0 and the outstanding balance to [{}]. *)
Theorem processCreditData_normalizes (response first : value) (others items : list value)
    (parsed : option num) :
  get response "creditReports" = Ok (VArr (first :: others)) ->
  let creditData := prop first "creditReportData" in
  let creditAccount := prop creditData "creditAccount" in
  let summary := opt creditAccount "creditAccountSummary" in
  let score := opt (prop creditData "score") "bureauScore" in
  nullish first = false ->
  nullish creditData = false ->
  or_else (opt creditAccount "creditAccountDetails") (VArr []) = VArr items ->
  Forall (fun entry => nullish entry = false) items ->
  (truthy score = false /\ parsed = None \/
   exists z, score = VStr (pretty z) /\ parsed = Some (ofZ z)) ->
  processCreditData response =
    Ok {| creditScore := parsed;
          accounts := map account_of items;
          totalAccounts :=
            Some (or_else (opt (opt summary "account") "creditAccountTotal") (VNum zero));
          activeAccounts :=
            Some (or_else (opt (opt summary "account") "creditAccountActive") (VNum zero));
          outstandingBalance :=
            Some (or_else (opt summary "totalOutstandingBalance") (VObj []));
          credit_error := None |} /\
  Forall (fun a => ca_creditLimit a <> NaN /\ ca_currentBalance a <> NaN)
         (map account_of items).
Proof.
  intros Hreports. cbn zeta. intros Hfirst Hdata Hitems Hall Hscore. split.
  - unfold processCreditData.
    rewrite (get_array_field response "creditReports" _ eq_refl Hreports), Hreports.
    unfold mbind, result_bind, bind. cbv beta iota. cbn [truthy].
    change (get (VArr (first :: others)) "length")
      with (Ok (A := value) (VNum (ofZ (Z.of_nat (length (first :: others)))))).
    cbv beta iota. rewrite is_zero_length. cbn [negb orb get_index nth].
    rewrite (prop_get first "creditReportData") by exact Hfirst. cbv beta iota.
    rewrite (prop_get _ "score") by exact Hdata. cbv beta iota.
    rewrite get_opt_ok. cbv beta iota.
    rewrite (prop_get _ "creditAccount") by exact Hdata. cbv beta iota.
    rewrite get_opt_ok. cbv beta iota. rewrite Hitems. cbn [as_array].
    rewrite (mapM_map _ account_of).
    + rewrite !get_opt_ok. cbv beta iota.
      destruct Hscore as [[Hs ->]|(z & Hs & ->)]; rewrite Hs.
      * reflexivity.
      * cbn [truthy]. rewrite pretty_Z_nonempty. cbn [negb].
        unfold parseInt. cbn [ToString]. unfold mbind, result_bind, bind.
        cbv beta iota. rewrite parseInt_string_pretty. reflexivity.
    + intros entry Hin. rewrite Forall_forall in Hall.
      assert (He : nullish entry = false) by (apply Hall, list_elem_of_In, Hin).
      rewrite !(prop_get entry) by exact He. reflexivity.
  - apply Forall_forall. intros a Ha. apply list_elem_of_In, in_map_iff in Ha.
    destruct Ha as (entry & <- & _). apply account_of_numbers.
Qed.

Lemma processCreditData_normalizes_witness :
  let payload :=
    VObj [("creditReports",
           VArr [VObj [("creditReportData",
                        VObj [("score", VObj [("bureauScore", VStr "750")]);
                              ("creditAccount",
                               VObj [("creditAccountDetails",
                                      VArr [VObj [("identificationNumber", VStr "AV12345678");
                                                  ("subscriberName", VStr "Federal Bank");
                                                  ("creditLimitAmount", VStr "500000");
                                                  ("currentBalance", VStr "50000")]])])])]])] in
  exists r,
    processCreditData payload = Ok r /\
    option_map fraction (creditScore r) = Some (Some (inject_Z 750)) /\
    map (fun a => (ca_subscriber a, fraction (ca_creditLimit a),
                   fraction (ca_currentBalance a))) (accounts r)
      = [(VStr "Federal Bank", Some (inject_Z 500000), Some (inject_Z 50000))] /\
    totalAccounts r = Some (VNum zero).
Proof.
  cbn zeta. eexists. split.
  - apply (processCreditData_normalizes _
             (VObj [("creditReportData",
                     VObj [("score", VObj [("bureauScore", VStr "750")]);
                           ("creditAccount",
                            VObj [("creditAccountDetails",
                                   VArr [VObj [("identificationNumber", VStr "AV12345678");
                                               ("subscriberName", VStr "Federal Bank");
                                               ("creditLimitAmount", VStr "500000");
                                               ("currentBalance", VStr "50000")]])])])])
             []
             [VObj [("identificationNumber", VStr "AV12345678");
                    ("subscriberName", VStr "Federal Bank");
                    ("creditLimitAmount", VStr "500000");
                    ("currentBalance", VStr "50000")]]
             (Some (ofZ 750))); try reflexivity.
    + repeat constructor.
    + right. exists 750. split; reflexivity.
  - repeat split; vm_compute; reflexivity.
Defined.

(** ** The session client: what each method does with each reply *)

(** X14.  [initialize] posts the handshake once and never touches
    [isAuthenticated].  On a 2xx response it stores the [mcp-session-id]
    header as the session identifier, whatever was there before, and
    returns the response body if that header is a non-empty text; a 2xx
    response without the header leaves [sessionId] undefined and fails.  On
    any other reply it fails and leaves the instance as it was.  Every
    failure is the error "MCP initialization failed". *)
Theorem initialize_outcome (c : client) (net : http_reply) :
  let r := initialize net c in
  sent r = [handshake_request c] /\
  isAuthenticated (after r) = isAuthenticated c /\
  baseUrl (after r) = baseUrl c /\
  match net with
  | Response st hs d =>
      if is_2xx st then
        sessionId (after r) = header "mcp-session-id" hs /\
        outcome r = if truthy (header "mcp-session-id" hs) then Ok d
                    else Throw (JsError "MCP initialization failed")
      else after r = c /\ outcome r = Throw (JsError "MCP initialization failed")
  | NetworkError _ =>
      after r = c /\ outcome r = Throw (JsError "MCP initialization failed")
  end.
Proof.
  cbn zeta. unfold initialize, try_catch, mbind, M_bind, bindM, self, post, throw,
    set_sessionId, mret, M_ret, retM, handshake_request.
  cbn [outcome after sent].
  destruct net as [st hs d|m]; unfold axios_post, is_2xx.
  - destruct ((200 <=? st) && (st <? 300)); cbn [outcome after sent headers data].
    + destruct (truthy (header "mcp-session-id" hs)); cbn [negb outcome after sent];
        repeat split; reflexivity.
    + destruct c. repeat split; reflexivity.
  - destruct c. repeat split; reflexivity.
Qed.


Lemma one_post_outcome {A} (req : client -> request) (rest : client -> response -> M A)
    (handler : exn -> M A) (net : http_reply) (c : client) :
  (forall c resp, quiet (rest c resp)) ->
  (forall e, quiet (handler e)) ->
  outcome (try_catch (self ≫= fun c => post (req c) ≫= rest c) handler net c) =
    match axios_post net with
    | Ok resp =>
        match outcome (rest c resp net c) with
        | Throw e => outcome (handler e net c)
        | o => o
        end
    | Throw e => outcome (handler e net c)
    | Unmodelled => Unmodelled
    end.
Proof.
  intros Hrest Hh.
  unfold try_catch, mbind, M_bind, bindM, self, post. cbn [outcome after sent].
  destruct (axios_post net) as [resp|e|]; cbn [outcome after sent app]; try reflexivity.
  destruct (Hrest c resp net c) as [_ Ha]. rewrite Ha.
  destruct (outcome (rest c resp net c)) as [a|e|]; cbn [outcome after sent]; reflexivity.
Qed.

Lemma axios_post_failed (net : http_reply) :
  match net with
  | Response st hs d =>
      is_2xx st = false ->
      axios_post net
        = Throw (AxiosError ("Request failed with status code " +:+ pretty st) (Some st))
  | NetworkError m => axios_post net = Throw (AxiosError m None)
  end.
Proof.
  destruct net as [st hs d|m]; [|reflexivity].
  unfold axios_post, is_2xx. intros ->. reflexivity.
Qed.

(** X16.  [callTool] always posts exactly one request, carrying the session
    identifier of the instance, and never changes the instance.  When the
    transport fails, by a status outside 2xx or by no response at all, it
    throws "MCP tool call failed: " followed by the transport's message. *)
Theorem callTool_transport_failure JSON_parse (c : client)
    (toolName arguments_ : value) (now : Z) (net : http_reply) :
  let r := callTool JSON_parse toolName arguments_ now net c in
  sent r = [tool_request c toolName arguments_ now] /\
  after r = c /\
  match net with
  | Response st hs d =>
      is_2xx st = false ->
      outcome r = Throw (JsError ("MCP tool call failed: Request failed with status code "
                                  +:+ pretty st))
  | NetworkError m => outcome r = Throw (JsError ("MCP tool call failed: " +:+ m))
  end.
Proof.
  cbn zeta. split; [apply callTool_run|]. split; [apply callTool_run|].
  pose proof (axios_post_failed net) as Hpost.
  unfold callTool.
  rewrite (one_post_outcome (fun c => tool_request c toolName arguments_ now)) by quiet.
  destruct net as [st hs d|m].
  - intros H. rewrite (Hpost H). reflexivity.
  - rewrite Hpost. reflexivity.
Qed.

Lemma callTool_transport_failure_witness :
  outcome (callTool (fun _ => Throw (SyntaxError "Unexpected token"))
             (VStr "fetch_net_worth") VUndef 1700000000000
             (Response 503 [] (VStr "Service Unavailable"))
             (new_client default_baseUrl))
    = Throw (JsError "MCP tool call failed: Request failed with status code 503").
Proof.
  apply (callTool_transport_failure _ (new_client default_baseUrl)
           (VStr "fetch_net_worth") VUndef 1700000000000
           (Response 503 [] (VStr "Service Unavailable"))).
  reflexivity.
Defined.

(** X17.  When the response envelope carries an error, [callTool] throws "MCP
    tool call failed: " followed by the message of that error, the empty
    text when the error has none. *)
Theorem callTool_remote_error JSON_parse (c : client)
    (toolName arguments_ : value) (now : Z)
    (st : Z) (hs : list (string * string)) (envelope : value) (message : string) :
  is_2xx st = true ->
  nullish envelope = false ->
  truthy (prop envelope "error") = true ->
  (prop (prop envelope "error") "message" = VUndef /\ message = EmptyString \/
   prop (prop envelope "error") "message" <> VUndef /\
   ToString (prop (prop envelope "error") "message") = Ok message) ->
  outcome (callTool JSON_parse toolName arguments_ now (Response st hs envelope) c)
    = Throw (JsError ("MCP tool call failed: " +:+ message)).
Proof.
  intros Hst Henv Herr Hmsg. unfold callTool.
  rewrite (one_post_outcome (fun c => tool_request c toolName arguments_ now)) by quiet.
  unfold axios_post. unfold is_2xx in Hst. rewrite Hst. cbn [data].
  rewrite outcome_lift_bind, (prop_get envelope "error") by exact Henv.
  rewrite Herr. rewrite outcome_lift_bind.
  rewrite (prop_get _ "message") by (apply truthy_not_nullish; exact Herr).
  rewrite outcome_lift_bind.
  destruct Hmsg as [[-> ->]|[Hne Hs]].
  - reflexivity.
  - unfold new_Error.
    destruct (prop (prop envelope "error") "message") eqn:E; try congruence;
      rewrite Hs; reflexivity.
Qed.

Lemma callTool_remote_error_witness :
  outcome (callTool (fun _ => Throw (SyntaxError "Unexpected token"))
             (VStr "fetch_net_worth") VUndef 1700000000000
             (Response 200 []
                (VObj [("jsonrpc", VStr "2.0");
                       ("error", VObj [("code", VNum (ofZ (-32602)));
                                       ("message", VStr "Invalid session ID")])]))
             (new_client default_baseUrl))
    = Throw (JsError "MCP tool call failed: Invalid session ID").
Proof.
  apply (callTool_remote_error _ _ _ _ _ 200 []
           (VObj [("jsonrpc", VStr "2.0");
                  ("error", VObj [("code", VNum (ofZ (-32602)));
                                  ("message", VStr "Invalid session ID")])])
           "Invalid session ID"); try reflexivity.
  right. split; [discriminate|reflexivity].
Defined.

(** X18.  When the first content item of the result is a text, [callTool]
    returns what [JSON.parse] makes of it, and the raw result when the text
    does not parse: a parse failure never fails the call. *)
Theorem callTool_parses_text JSON_parse (c : client)
    (toolName arguments_ : value) (now : Z)
    (st : Z) (hs : list (string * string)) (envelope item : value)
    (rest : list value) (source : string) :
  is_2xx st = true ->
  nullish envelope = false ->
  truthy (prop envelope "error") = false ->
  prop (prop envelope "result") "content" = VArr (item :: rest) ->
  prop item "type" = VStr "text" ->
  truthy (prop item "text") = true ->
  ToString (prop item "text") = Ok source ->
  outcome (callTool JSON_parse toolName arguments_ now (Response st hs envelope) c) =
    match JSON_parse source with
    | Ok parsed => Ok parsed
    | Throw _ => Ok (prop envelope "result")
    | Unmodelled => Unmodelled
    end.
Proof.
  intros Hst Henv Herr Hcontent Htype Htext Hsource. unfold callTool.
  rewrite (one_post_outcome (fun c => tool_request c toolName arguments_ now)) by quiet.
  unfold axios_post. unfold is_2xx in Hst. rewrite Hst. cbn [data].
  set (result := prop envelope "result") in *.
  assert (Hr : truthy result = true)
    by (destruct result; cbn in *; try discriminate; reflexivity).
  assert (Hitem : nullish item = false)
    by (destruct item; cbn in *; try discriminate; reflexivity).
  rewrite outcome_lift_bind, (prop_get envelope "error") by exact Henv.
  rewrite Herr.
  rewrite outcome_lift_bind, (prop_get envelope "result") by exact Henv.
  fold result. rewrite outcome_lift_bind.
  rewrite Hr, (prop_get result "content") by (apply truthy_not_nullish; exact Hr).
  rewrite Hcontent. cbn [truthy]. rewrite outcome_lift_bind.
  change (get (VArr (item :: rest)) "length")
    with (Ok (A := value) (VNum (ofZ (Z.of_nat (length (item :: rest)))))).
  cbv beta iota. rewrite outcome_lift_bind, positive_length.
  rewrite outcome_lift_bind. cbn [get_index nth].
  rewrite outcome_lift_bind, (prop_get item "type") by exact Hitem.
  rewrite outcome_lift_bind. rewrite Htype. cbn [is_text String.eqb Ascii.eqb Bool.eqb].
  rewrite (prop_get item "text") by exact Hitem. rewrite Htext. cbn [andb].
  unfold try_catch, mbind, M_bind, bindM, lift, mret, M_ret, retM.
  cbn [outcome after sent]. rewrite Hsource. cbn [outcome after sent].
  destruct (JSON_parse source); reflexivity.
Qed.

Lemma callTool_parses_text_witness :
  let envelope text :=
    VObj [("result", VObj [("content", VArr [VObj [("type", VStr "text");
                                                   ("text", VStr text)]])])] in
  let parse (s : string) :=
    if String.eqb s "{}" then Ok (VObj []) else Throw (SyntaxError "Unexpected token") in
  outcome (callTool parse (VStr "fetch_net_worth") VUndef 1700000000000
             (Response 200 [] (envelope "{}")) (new_client default_baseUrl))
    = Ok (VObj []) /\
  outcome (callTool parse (VStr "fetch_net_worth") VUndef 1700000000000
             (Response 200 [] (envelope "not json")) (new_client default_baseUrl))
    = Ok (prop (envelope "not json") "result").
Proof.
  cbn zeta. split.
  - exact (callTool_parses_text
             (fun s => if String.eqb s "{}" then Ok (VObj [])
                       else Throw (SyntaxError "Unexpected token"))
             (new_client default_baseUrl) (VStr "fetch_net_worth") VUndef 1700000000000
             200 []
             (VObj [("result", VObj [("content", VArr [VObj [("type", VStr "text");
                                                             ("text", VStr "{}")]])])])
             (VObj [("type", VStr "text"); ("text", VStr "{}")]) [] "{}"
             eq_refl eq_refl eq_refl eq_refl eq_refl eq_refl eq_refl).
  - exact (callTool_parses_text
             (fun s => if String.eqb s "{}" then Ok (VObj [])
                       else Throw (SyntaxError "Unexpected token"))
             (new_client default_baseUrl) (VStr "fetch_net_worth") VUndef 1700000000000
             200 []
             (VObj [("result", VObj [("content", VArr [VObj [("type", VStr "text");
                                                             ("text", VStr "not json")]])])])
             (VObj [("type", VStr "text"); ("text", VStr "not json")]) [] "not json"
             eq_refl eq_refl eq_refl eq_refl eq_refl eq_refl eq_refl).
Defined.

(** X19.  Without a session identifier [authenticate] fails before it posts
    anything; and when the login request gets no response at all it fails
    after posting it once.  Either way the error is "MCP authentication
    failed" and the instance is left as it was. *)
Theorem authenticate_fails_safely (c : client) (phoneNumber : value) :
  (truthy (sessionId c) = false ->
   forall net,
     let r := authenticate phoneNumber net c in
     outcome r = Throw (JsError "MCP authentication failed") /\
     sent r = [] /\ after r = c) /\
  (forall sid phone message,
     truthy (sessionId c) = true ->
     ToString (sessionId c) = Ok sid ->
     ToString (phone_or_default phoneNumber) = Ok phone ->
     let r := authenticate phoneNumber (NetworkError message) c in
     outcome r = Throw (JsError "MCP authentication failed") /\
     sent r = [login_request c sid phone] /\ after r = c).
Proof.
  split.
  - intros Ht net. cbn zeta. unfold authenticate.
    unfold try_catch, mbind, M_bind, bindM, self, throw.
    cbn [outcome after sent]. rewrite Ht. cbn [negb outcome after sent].
    repeat split; reflexivity.
  - intros sid phone message Ht Hs Hp. cbn zeta. unfold authenticate.
    fold (phone_or_default phoneNumber).
    unfold try_catch, mbind, M_bind, bindM, self, post, lift, throw.
    cbn [outcome after sent]. rewrite Ht. cbn [negb outcome after sent].
    rewrite Hs. cbn [outcome after sent]. rewrite Hp. cbn [outcome after sent axios_post].
    repeat split; reflexivity.
Qed.

Lemma authenticate_fails_safely_witness :
  (let r := authenticate (VStr "9876543210") (Response 200 [] VNull)
                         (new_client default_baseUrl) in
   outcome r = Throw (JsError "MCP authentication failed") /\ sent r = []) /\
  (let c := {| baseUrl := default_baseUrl; sessionId := VStr "session-1";
               isAuthenticated := false |} in
   let r := authenticate (VStr "9876543210") (NetworkError "connect ECONNREFUSED") c in
   outcome r = Throw (JsError "MCP authentication failed") /\ after r = c).
Proof.
  cbn zeta. split.
  - destruct (proj1 (authenticate_fails_safely (new_client default_baseUrl)
                       (VStr "9876543210")) eq_refl (Response 200 [] VNull))
      as (Ho & Hs & _).
    split; assumption.
  - destruct (proj2 (authenticate_fails_safely
                       {| baseUrl := default_baseUrl; sessionId := VStr "session-1";
                          isAuthenticated := false |} (VStr "9876543210"))
                    "session-1" "9876543210" "connect ECONNREFUSED"
                    eq_refl eq_refl eq_refl) as (Ho & _ & Ha).
    split; assumption.
Defined.

(** *** The login endpoint *)

Lemma substring_all (s : string) (m : nat) :
  (String.length s <= m)%nat -> String.substring 0 m s = s.
Proof.
  revert m. induction s as [|ch s IH]; intros m H.
  - destruct m; reflexivity.
  - destruct m as [|m]; [cbn in H; lia|]. cbn [String.substring].
    rewrite IH by (cbn in H; lia). reflexivity.
Qed.

Lemma remove_first_skip (pattern s : string) (ch : ascii) :
  String.prefix pattern (String ch s) = false ->
  remove_first pattern (String ch s) = String ch (remove_first pattern s).
Proof. intros H. cbn [remove_first]. rewrite H. reflexivity. Qed.

Lemma remove_first_absent (pattern s : string) :
  String.index 0 pattern s = None -> remove_first pattern s = s.
Proof.
  induction s as [|ch s IH]; intros H.
  - cbn in H. destruct pattern; [discriminate|reflexivity].
  - cbn [String.index] in H.
    destruct (String.prefix pattern (String ch s)) eqn:E; [discriminate|].
    rewrite remove_first_skip by exact E. f_equal. apply IH.
    destruct (String.index 0 pattern s); [discriminate|reflexivity].
Qed.

Lemma remove_first_hit (pattern s : string) :
  String.prefix pattern s = true ->
  remove_first pattern s = String.substring (String.length pattern) (String.length s) s.
Proof. intros H. destruct s; cbn [remove_first]; rewrite H; reflexivity. Qed.

Lemma prefix_append (pattern s : string) : String.prefix pattern (pattern +:+ s) = true.
Proof.
  induction pattern as [|ch pattern IH]; [destruct s; reflexivity|].
  change (String ch pattern +:+ s) with (String ch (pattern +:+ s)).
  cbn [String.prefix]. destruct (ascii_dec ch ch); [exact IH|congruence].
Qed.

Lemma substring_append (pattern s : string) (m : nat) :
  (String.length s <= m)%nat ->
  String.substring (String.length pattern) m (pattern +:+ s) = s.
Proof.
  intros H. induction pattern as [|ch pattern IH].
  - apply substring_all. exact H.
  - change (String ch pattern +:+ s) with (String ch (pattern +:+ s)).
    cbn [String.length String.substring]. exact IH.
Qed.

Lemma length_append_r (pattern s : string) :
  (String.length s <= String.length (pattern +:+ s))%nat.
Proof.
  induction pattern as [|ch pattern IH]; [reflexivity|].
  change (String ch pattern +:+ s) with (String ch (pattern +:+ s)).
  cbn [String.length]. lia.
Qed.

Lemma remove_first_stream (root tail : string) :
  String.index 0 "/mcp/stream" (root +:+ "/mcp/stream" +:+ tail)
    = Some (String.length root) ->
  remove_first "/mcp/stream" (root +:+ "/mcp/stream" +:+ tail) = root +:+ tail.
Proof.
  induction root as [|ch root IH]; intros H.
  - change ("" +:+ "/mcp/stream" +:+ tail) with ("/mcp/stream" +:+ tail).
    change ("" +:+ tail) with tail.
    rewrite remove_first_hit by apply prefix_append.
    apply substring_append. apply length_append_r.
  - change (String ch root +:+ "/mcp/stream" +:+ tail)
      with (String ch (root +:+ "/mcp/stream" +:+ tail)) in *.
    cbn [String.index String.length] in H.
    destruct (String.prefix "/mcp/stream" (String ch (root +:+ "/mcp/stream" +:+ tail)))
      eqn:E; [discriminate|].
    rewrite remove_first_skip by exact E.
    change (String ch root +:+ tail) with (String ch (root +:+ tail)). f_equal.
    apply IH.
    destruct (String.index 0 "/mcp/stream" (root +:+ "/mcp/stream" +:+ tail));
      [|discriminate].
    congruence.
Qed.

(** X20.  [authenticate] posts to the base URL with its first "/mcp/stream"
    taken out and "/login" appended: a base URL [root/mcp/stream] gives
    [root/login], and a base URL without that path is used whole. *)
Theorem login_endpoint (c : client) (sid phone : string) :
  (forall root tail,
     baseUrl c = root +:+ "/mcp/stream" +:+ tail ->
     String.index 0 "/mcp/stream" (baseUrl c) = Some (String.length root) ->
     req_url (login_request c sid phone) = (root +:+ tail) +:+ "/login") /\
  (String.index 0 "/mcp/stream" (baseUrl c) = None ->
   req_url (login_request c sid phone) = baseUrl c +:+ "/login").
Proof.
  unfold login_request. cbn [req_url]. split.
  - intros root tail E H. rewrite E in *. rewrite remove_first_stream by exact H.
    reflexivity.
  - intros H. rewrite remove_first_absent by exact H. reflexivity.
Qed.

Lemma login_endpoint_witness :
  req_url (login_request (new_client default_baseUrl) "session-1" "9876543210")
    = "https://fi-mcp-server-267132178774.us-central1.run.app/login" /\
  req_url (login_request (new_client "http://localhost:8080") "session-1" "9876543210")
    = "http://localhost:8080/login".
Proof.
  split.
  - apply (proj1 (login_endpoint (new_client default_baseUrl) "session-1" "9876543210")
             "https://fi-mcp-server-267132178774.us-central1.run.app" ""); reflexivity.
  - apply (proj2 (login_endpoint (new_client "http://localhost:8080")
                    "session-1" "9876543210")). reflexivity.
Defined.

(** ** The HTTP functions *)

Lemma phoneNumber_of_ok (req : http_request) :
  phoneNumber_of req = Ok (caller_phone req).
Proof.
  unfold phoneNumber_of, caller_phone.
  destruct (truthy (query_phoneNumber req)); [reflexivity|].
  rewrite get_opt_ok. reflexivity.
Qed.

Lemma caller_phone_truthy (req : http_request) : truthy (caller_phone req) = true.
Proof.
  unfold caller_phone, or_else.
  destruct (truthy (query_phoneNumber req)) eqn:E; [exact E|].
  destruct (truthy (opt (json_body req) "phoneNumber")) eqn:E'; [exact E'|reflexivity].
Qed.

Lemma phone_or_default_truthy (v : value) : truthy v = true -> phone_or_default v = v.
Proof. destruct v; try discriminate; reflexivity. Qed.

Lemma initialize_granted (c : client) (net : http_reply) (sid : string) :
  granted_session net = Some sid ->
  exists d,
    initialize net c =
      Run (Ok d)
          {| baseUrl := baseUrl c; sessionId := VStr sid;
             isAuthenticated := isAuthenticated c |}
          [handshake_request c].
Proof.
  unfold granted_session, is_2xx. destruct net as [st hs d|m]; [|discriminate].
  destruct ((200 <=? st) && (st <? 300)) eqn:Hst; [|discriminate].
  destruct (header "mcp-session-id" hs) as [| | | |s| |] eqn:Hh; try discriminate.
  destruct (String.eqb s "") eqn:Hs; [discriminate|]. intros [= <-].
  exists d. unfold initialize, try_catch, mbind, M_bind, bindM, self, post, throw,
    set_sessionId, mret, M_ret, retM, handshake_request, axios_post.
  cbn [outcome after sent]. rewrite Hst. cbn [outcome after sent headers data].
  rewrite Hh. cbn [truthy]. rewrite Hs. reflexivity.
Qed.

Lemma initialize_refused (c : client) (net : http_reply) :
  granted_session net = None ->
  exists c',
    initialize net c =
      Run (Throw (JsError "MCP initialization failed")) c' [handshake_request c].
Proof.
  unfold granted_session, is_2xx. intros H.
  unfold initialize, try_catch, mbind, M_bind, bindM, self, post, throw,
    set_sessionId, mret, M_ret, retM, handshake_request, axios_post.
  cbn [outcome after sent].
  destruct net as [st hs d|m]; [|eexists; reflexivity].
  destruct ((200 <=? st) && (st <? 300)) eqn:Hst; [|eexists; reflexivity].
  cbn [outcome after sent headers data].
  destruct (header "mcp-session-id" hs) as [| | | |s| |] eqn:Hh;
    try (eexists; reflexivity).
  - unfold header in Hh. destruct (List.find _ hs); discriminate.
  - unfold header in Hh. destruct (List.find _ hs); discriminate.
  - destruct (String.eqb s "") eqn:Hs; [|discriminate].
    cbn [truthy]. rewrite Hs. eexists; reflexivity.
  - unfold header in Hh. destruct (List.find _ hs); discriminate.
  - unfold header in Hh. destruct (List.find _ hs); discriminate.
Qed.

Lemma authenticate_in_session (url sid phone : string) (phoneNumber : value)
    (net : http_reply) :
  truthy phoneNumber = true ->
  ToString phoneNumber = Ok phone ->
  sid <> EmptyString ->
  authenticate phoneNumber net (in_session url sid false) =
    if login_accepted net
    then Run (Ok true) (in_session url sid true)
             [login_request (in_session url sid false) sid phone]
    else Run (Throw (JsError "MCP authentication failed")) (in_session url sid false)
             [login_request (in_session url sid false) sid phone].
Proof.
  intros Ht Hp Hsid. unfold authenticate.
  fold (phone_or_default phoneNumber). rewrite (phone_or_default_truthy _ Ht).
  unfold try_catch, mbind, M_bind, bindM, self, post, lift, throw,
    set_isAuthenticated, mret, M_ret, retM.
  cbn [outcome after sent in_session sessionId truthy ToString].
  apply String.eqb_neq in Hsid. rewrite Hsid. cbn [negb outcome after sent].
  rewrite Hp. cbn [outcome after sent]. unfold axios_post, login_accepted.
  destruct net as [st hs d|m]; [|reflexivity].
  destruct (st =? 200) eqn:E.
  - apply Z.eqb_eq in E. subst st. reflexivity.
  - destruct ((200 <=? st) && (st <? 300)); cbn [outcome after sent status];
      rewrite ?E; reflexivity.
Qed.

Lemma and_then_Ok {A B} (a : A) (c : client) (rs : list request)
    (k : A -> client -> run B) :
  and_then (Run (Ok a) c rs) k
    = Run (outcome (k a c)) (after (k a c)) (rs ++ sent (k a c)).
Proof. reflexivity. Qed.

Lemma and_then_Throw {A B} (e : exn) (c : client) (rs : list request)
    (k : A -> client -> run B) :
  and_then (Run (Throw e) c rs) k = Run (Throw e) c rs.
Proof. reflexivity. Qed.

Lemma and_then_pure {A B} (a : A) (c : client) (k : A -> client -> run B) :
  and_then (pure_step (Ok a) c) k = k a c.
Proof. unfold pure_step. rewrite and_then_Ok. destruct (k a c); reflexivity. Qed.

(** X21.  A data function sends nothing to the MCP server for a CORS preflight.
    Otherwise it runs handshake, login and tool call on a fresh instance,
    in that order, and stops at the first step that fails: a
    refused handshake costs one request and a refused login two, and no
    tool call is sent without a session.  The login carries the session
    identifier the handshake granted and the caller's phone number, and the
    tool call carries that same identifier.  The answer is 200 with the
    normalized data when every step and the normalizer succeed, and
    otherwise 500 with the function's failure text followed by the message
    of the error. *)
Theorem fetch_function_pipeline {D : Type} (JSON_parse : string -> result value)
    (toolName : value) (process : value -> result D)
    (failure : string) (env : option string) (now : Z) (net : exchange)
    (req : http_request) (phone : string) :
  let served :=
    fetch_function (callTool JSON_parse toolName VUndef) process failure env now net req in
  let url := mcpBaseUrl env in
  (http_method req = "OPTIONS" -> requests served = []) /\
  (http_method req <> "OPTIONS" ->
   ToString (caller_phone req) = Ok phone ->
   match granted_session (to_handshake net) with
   | None =>
       answer served = Ok (sendError 500 (failure +:+ ": MCP initialization failed")) /\
       requests served = [handshake_request (new_client url)]
   | Some sid =>
       if login_accepted (to_login net) then
         requests served =
           [handshake_request (new_client url);
            login_request (in_session url sid false) sid phone;
            tool_request (in_session url sid true) toolName VUndef now] /\
         answer served =
           match outcome (callTool JSON_parse toolName VUndef now (to_tool net)
                            (in_session url sid true)) with
           | Ok rawData =>
               match process rawData with
               | Ok data => Ok (sendSuccess data)
               | Throw error =>
                   Ok (sendError 500 (failure +:+ ": " +:+ message_of error))
               | Unmodelled => Unmodelled
               end
           | Throw error => Ok (sendError 500 (failure +:+ ": " +:+ message_of error))
           | Unmodelled => Unmodelled
           end
       else
         answer served = Ok (sendError 500 (failure +:+ ": MCP authentication failed")) /\
         requests served =
           [handshake_request (new_client url);
            login_request (in_session url sid false) sid phone]
   end).
Proof.
  cbn zeta. split.
  - intros Hm. unfold fetch_function. rewrite Hm. reflexivity.
  - intros Hm Hphone. unfold fetch_function.
    apply String.eqb_neq in Hm. rewrite Hm.
    rewrite phoneNumber_of_ok, and_then_pure.
    destruct (granted_session (to_handshake net)) as [sid|] eqn:Hg.
    + destruct (initialize_granted (new_client (mcpBaseUrl env)) _ sid Hg) as (d & Hinit).
      assert (Hsid : sid <> EmptyString).
      { clear Hinit. unfold granted_session in Hg.
        destruct (to_handshake net); [|discriminate].
        destruct (is_2xx _); [|discriminate].
        destruct (header "mcp-session-id" _); try discriminate.
        destruct (String.eqb s "") eqn:E; [discriminate|].
        injection Hg as <-. apply String.eqb_neq. exact E. }
      rewrite Hinit, and_then_Ok. cbn [new_client baseUrl isAuthenticated].
      fold (in_session (mcpBaseUrl env) sid false).
      rewrite (authenticate_in_session _ _ phone _ _ (caller_phone_truthy req) Hphone Hsid).
      destruct (login_accepted (to_login net)).
      * rewrite and_then_Ok.
        destruct (callTool_run JSON_parse toolName VUndef now (to_tool net)
                    (in_session (mcpBaseUrl env) sid true)) as [Hs Ha].
        unfold and_then, pure_step, respond. rewrite Hs.
        destruct (outcome (callTool JSON_parse toolName VUndef now (to_tool net)
                             (in_session (mcpBaseUrl env) sid true))) as [raw|e|];
          cbn [outcome after sent app answer requests].
        -- split; [reflexivity|]. destruct (process raw); reflexivity.
        -- split; reflexivity.
        -- split; reflexivity.
      * rewrite and_then_Throw. split; reflexivity.
    + destruct (initialize_refused (new_client (mcpBaseUrl env)) _ Hg) as (c' & Hinit).
      rewrite Hinit, and_then_Throw. split; reflexivity.
Qed.


Lemma fetch_function_pipeline_witness :
  let parse := fun _ : string => Throw (SyntaxError "Unexpected token") in
  let req := {| http_method := "GET"; query_phoneNumber := VStr "9876543210";
                json_body := VUndef |} in
  let handshake := Response 200 [("mcp-session-id", "session-1")] VNull in
  (let served :=
     getBankTransactions parse None 1700000000000
       {| to_handshake := handshake; to_login := Response 401 [] VNull;
          to_tool := NetworkError "unreachable" |} req in
   answer served
     = Ok (sendError 500 "Failed to fetch bank transactions: MCP authentication failed") /\
   length (requests served) = 2%nat) /\
  (let served :=
     getBankTransactions parse None 1700000000000
       {| to_handshake := handshake; to_login := Response 200 [] VNull;
          to_tool := Response 200 [] (VObj [("result", VObj [])]) |} req in
   map req_headers (requests served)
     = [ [];
         [("Content-Type", VStr "application/x-www-form-urlencoded")];
         [("MCP-Session-ID", VStr "session-1")] ] /\
   exists data, answer served = Ok (sendSuccess data) /\
                bank_error data = Some "No bank transaction data available").
Proof.
  cbn zeta. split.
  - destruct (proj2 (fetch_function_pipeline
        (fun _ : string => Throw (SyntaxError "Unexpected token"))
        (VStr "fetch_bank_transactions") processBankTransactions
        "Failed to fetch bank transactions" None 1700000000000
        {| to_handshake := Response 200 [("mcp-session-id", "session-1")] VNull;
           to_login := Response 401 [] VNull; to_tool := NetworkError "unreachable" |}
        {| http_method := "GET"; query_phoneNumber := VStr "9876543210";
           json_body := VUndef |} "9876543210")
        ltac:(discriminate) eq_refl) as [Ha Hr].
    split; [exact Ha|].
    exact (f_equal (@length request) Hr).
  - destruct (proj2 (fetch_function_pipeline
        (fun _ : string => Throw (SyntaxError "Unexpected token"))
        (VStr "fetch_bank_transactions") processBankTransactions
        "Failed to fetch bank transactions" None 1700000000000
        {| to_handshake := Response 200 [("mcp-session-id", "session-1")] VNull;
           to_login := Response 200 [] VNull;
           to_tool := Response 200 [] (VObj [("result", VObj [])]) |}
        {| http_method := "GET"; query_phoneNumber := VStr "9876543210";
           json_body := VUndef |} "9876543210")
        ltac:(discriminate) eq_refl) as [Hr Ha].
    split.
    + exact (f_equal (map req_headers) Hr).
    + eexists. split; [exact Ha|reflexivity].
Defined.

Lemma listTools_reply (net : http_reply) (c : client) :
  listTools net c =
    Run (match net with
         | Response st hs d =>
             if is_2xx st then
               match get d "result" with
               | Ok tools => Ok tools
               | _ => Throw (JsError "Failed to list MCP tools")
               end
             else Throw (JsError "Failed to list MCP tools")
         | NetworkError _ => Throw (JsError "Failed to list MCP tools")
         end) c [list_request c].
Proof.
  unfold listTools, try_catch, mbind, M_bind, bindM, self, post, throw, lift,
    list_request.
  cbn [outcome after sent].
  destruct net as [st hs d|m]; unfold axios_post, is_2xx; [|reflexivity].
  destruct ((200 <=? st) && (st <? 300)); cbn [outcome after sent headers data];
    [|reflexivity].
  destruct (get d "result") as [tools|e|] eqn:E; cbn [outcome after sent]; try reflexivity.
  exfalso. revert E. unfold get. destruct d; discriminate.
Qed.

(** X22.  The health check sends nothing to the MCP server for a CORS preflight.
    Otherwise it runs handshake, login with the default phone number and
    tool listing on a fresh instance, and stops at the first step that
    fails, answering 503.  It answers 200 only when the listing reply is a
    2xx whose body has a [result] that is neither [undefined] nor [null];
    the tools it reports are that result's [tools], or the empty list when
    that is falsy.  A 2xx listing reply whose body has no [result] is
    answered 503 as well, with the text of the property-read failure. *)
Theorem healthCheck_pipeline (env : option string) (net : exchange)
    (req : http_request) :
  let served := healthCheck env net req in
  let url := mcpBaseUrl env in
  (http_method req = "OPTIONS" -> requests served = []) /\
  (http_method req <> "OPTIONS" ->
   match granted_session (to_handshake net) with
   | None =>
       answer served
         = Ok (sendError 503 "MCP connection failed: MCP initialization failed") /\
       requests served = [handshake_request (new_client url)]
   | Some sid =>
       if login_accepted (to_login net) then
         requests served =
           [handshake_request (new_client url);
            login_request (in_session url sid false) sid "9999999999";
            list_request (in_session url sid true)] /\
         match to_tool net with
         | Response st hs d =>
             if is_2xx st && negb (nullish d) then
               if nullish (prop d "result") then
                 exists msg,
                   answer served
                     = Ok (sendError 503 ("MCP connection failed: " +:+ msg)) /\
                   msg <> "Failed to list MCP tools"
               else
                 answer served =
                   Ok (sendSuccess
                         {| health_status := "healthy";
                            mcpConnection := "connected";
                            availableTools :=
                              or_else (prop (prop d "result") "tools") (VArr []) |})
             else
               answer served
                 = Ok (sendError 503 "MCP connection failed: Failed to list MCP tools")
         | NetworkError _ =>
             answer served
               = Ok (sendError 503 "MCP connection failed: Failed to list MCP tools")
         end
       else
         answer served
           = Ok (sendError 503 "MCP connection failed: MCP authentication failed") /\
         requests served =
           [handshake_request (new_client url);
            login_request (in_session url sid false) sid "9999999999"]
   end).
Proof.
  cbn zeta. split.
  - intros Hm. unfold healthCheck. rewrite Hm. reflexivity.
  - intros Hm. unfold healthCheck.
    apply String.eqb_neq in Hm. rewrite Hm.
    destruct (granted_session (to_handshake net)) as [sid|] eqn:Hg.
    + destruct (initialize_granted (new_client (mcpBaseUrl env)) _ sid Hg) as (d0 & Hinit).
      assert (Hsid : sid <> EmptyString).
      { clear Hinit. unfold granted_session in Hg.
        destruct (to_handshake net); [|discriminate].
        destruct (is_2xx _); [|discriminate].
        destruct (header "mcp-session-id" _); try discriminate.
        destruct (String.eqb s "") eqn:E; [discriminate|].
        injection Hg as <-. apply String.eqb_neq. exact E. }
      rewrite Hinit, and_then_Ok. cbn [new_client baseUrl isAuthenticated].
      fold (in_session (mcpBaseUrl env) sid false).
      change (authenticate VUndef) with (authenticate (VStr "9999999999")).
      rewrite (authenticate_in_session _ _ "9999999999" (VStr "9999999999") _
                 eq_refl eq_refl Hsid).
      destruct (login_accepted (to_login net)).
      * rewrite and_then_Ok, listTools_reply.
        split.
        { destruct (to_tool net) as [st hs d|m]; [|reflexivity].
          destruct (is_2xx st); [|reflexivity].
          destruct (get d "result"); reflexivity. }
        destruct (to_tool net) as [st hs d|m]; [|reflexivity].
        destruct (is_2xx st); cbn [andb]; [|reflexivity].
        destruct (nullish d) eqn:Hd; cbn [negb].
        -- destruct (get_nullish d "result" Hd) as (msg & ->). reflexivity.
        -- rewrite (prop_get d "result") by exact Hd.
           rewrite and_then_Ok. unfold pure_step, respond.
           cbn [outcome after sent app answer requests].
           destruct (nullish (prop d "result")) eqn:Hr.
           ++ destruct (get_nullish (prop d "result") "tools" Hr) as (msg & Hmsg).
              rewrite Hmsg.
              exists msg. split; [reflexivity|].
              intros ->. revert Hmsg. unfold get.
              destruct (prop d "result"); try discriminate.
           ++ rewrite (prop_get (prop d "result") "tools") by exact Hr.
              reflexivity.
      * rewrite and_then_Throw. split; reflexivity.
    + destruct (initialize_refused (new_client (mcpBaseUrl env)) _ Hg) as (c' & Hinit).
      rewrite Hinit, and_then_Throw. split; reflexivity.
Qed.

Lemma healthCheck_pipeline_witness :
  let req := {| http_method := "GET"; query_phoneNumber := VUndef;
                json_body := VUndef |} in
  let served :=
    healthCheck None
      {| to_handshake := Response 200 [("mcp-session-id", "session-1")] VNull;
         to_login := Response 200 [] VNull;
         to_tool := Response 200 [] (VObj [("jsonrpc", VStr "2.0")]) |} req in
  exists msg,
    answer served = Ok (sendError 503 ("MCP connection failed: " +:+ msg)) /\
    msg <> "Failed to list MCP tools".
Proof.
  cbn zeta.
  destruct (proj2 (healthCheck_pipeline None
      {| to_handshake := Response 200 [("mcp-session-id", "session-1")] VNull;
         to_login := Response 200 [] VNull;
         to_tool := Response 200 [] (VObj [("jsonrpc", VStr "2.0")]) |}
      {| http_method := "GET"; query_phoneNumber := VUndef; json_body := VUndef |})
      ltac:(discriminate)) as [_ H].
  exact H.
Defined.
